(** * Azure Data Studio: book tree provider, browser JSON client, welcome page

    A shallow embedding of
    - [BookTreeViewProvider] (the notebook "book" tree-data provider),
    - [activate] of the browser-hosted JSON language client, and
    - the welcome-page template,
    followed by the properties established about them.

    Conventions of the embedding.
    - Values that the TypeScript code types as [any] (parsed YAML, configuration
      values) are terms of [Js.value]; numbers are integers.
    - Calls into the host (vscode API, node [fs]/[path], js-yaml, fast-glob)
      are fields of a record [Host]: one record is one snapshot of the outside
      world, and every operation takes the snapshot it runs against.
    - Code that mutates the provider or talks to the UI runs in a state and
      exception monad [M]; the state carries the provider's private fields,
      the pending [setTimeout] callbacks, the pending continuations of
      asynchronous methods and the chronological list of calls made to the
      UI.
    - [getTableOfContentFiles] and [refresh] work on the provider's fields
      on both sides of an [await]: a call of one of them is what runs before
      it returns its promise, and what it has left to do is a pending
      continuation, which runs in a later step of its own, against the
      world and the provider as they are by then. The constructor and the
      workspace-folders listener start such a call and do not wait for it.
    - [openNotebook] and the request service of the JSON client keep
      nothing of the provider across their [await]: there the awaited
      promise is taken at its outcome, a rejection being a thrown
      exception. *)

From Stdlib Require Import ZArith List String Ascii Bool Lia.
From stdpp Require Import base option list gmap strings.

Local Open Scope string_scope.
Local Open Scope list_scope.
#[local] Set Warnings "-register-all".

(** ** JavaScript values and exceptions *)

Module Js.

Inductive value : Type :=
| VUndefined
| VNull
| VBool (b : bool)
| VNum (n : Z)
| VStr (s : string)
| VArr (elems : list value)
| VObj (fields : list (string * value)).

(** ToBoolean. *)
Definition truthy (v : value) : bool :=
  match v with
  | VUndefined | VNull => false
  | VBool b => b
  | VNum n => negb (n =? 0)%Z
  | VStr s => negb (String.eqb s EmptyString)
  | VArr _ | VObj _ => true
  end.

(** What a [throw] carries: an [Error] object with its message, or any
    other value. *)
Inductive exn : Type :=
| JsError (message : string)
| JsThrown (v : value).

(** The error the engine raises for a property read on [undefined] or
    [null] and for a method call on a value that has no such method. The
    wording of its message, which depends on the engine and on the
    expression, is not modelled: all these errors carry the same text. *)
Definition TypeError : exn := JsError "TypeError".

(** [e instanceof Error ? e.message : e] *)
Definition errorText (e : exn) : value :=
  match e with
  | JsError m => VStr m
  | JsThrown v => v
  end.

Inductive result (A : Type) : Type :=
| Ok (a : A)
| Throw (e : exn).
Arguments Ok {A} a.
Arguments Throw {A} e.

Fixpoint assoc (k : string) (fields : list (string * value)) : option value :=
  match fields with
  | [] => None
  | (k', v) :: rest => if String.eqb k' k then Some v else assoc k rest
  end.

(** Property read [v.k] for the own data properties of parsed YAML
    ([title], [url], [external], [sections]): reading from [undefined] or
    [null] throws, a missing property reads as [undefined]. *)
Definition getProp (v : value) (k : string) : result value :=
  match v with
  | VUndefined | VNull => Throw TypeError
  | VObj fields => Ok (default VUndefined (assoc k fields))
  | VBool _ | VNum _ | VStr _ | VArr _ => Ok VUndefined
  end.

(** [v.concat(suffix)] followed by a use as a path segment: only a string
    receiver gives a string; a number or boolean has no [concat], and the
    array that [Array.prototype.concat] returns is rejected by [path.join]. *)
Definition concatStr (v : value) (suffix : string) : result string :=
  match v with
  | VStr s => Ok (s +:+ suffix)
  | _ => Throw TypeError
  end.

Definition isUndefined (v : value) : bool :=
  match v with VUndefined => true | _ => false end.

(** [v === 0] *)
Definition strictEqZero (v : value) : bool :=
  match v with VNum n => (n =? 0)%Z | _ => false end.

End Js.
Export Js.

Global Instance result_ret : MRet result := λ A a, Ok a.
Global Instance result_bind : MBind result := λ A B f r,
  match r with
  | Ok a => f a
  | Throw e => Throw e
  end.

(** ** State and exception monad *)

Definition M (S A : Type) : Type := S → result A * S.

Global Instance M_ret {S} : MRet (M S) := λ A a s, (Ok a, s).
Global Instance M_bind {S} : MBind (M S) := λ A B f m s,
  match m s with
  | (Ok a, s') => f a s'
  | (Throw e, s') => (Throw e, s')
  end.

Definition getState {S} : M S S := λ s, (Ok s, s).
Definition modifyState {S} (f : S → S) : M S unit := λ s, (Ok tt, f s).
Definition liftResult {S A} (r : result A) : M S A := λ s, (r, s).

(** [try { body } catch (e) { handler e }]: the state changes made by [body]
    before it threw are kept. *)
Definition tryCatch {S A} (body : M S A) (handler : exn → M S A) : M S A :=
  λ s, match body s with
       | (Ok a, s') => (Ok a, s')
       | (Throw e, s') => handler e s'
       end.

Definition execM {S A} (m : M S A) (s : S) : S := (m s).2.
Definition evalM {S A} (m : M S A) (s : S) : result A := (m s).1.

(** ** The book tree provider *)

Module Book.

Record Uri := { fsPath : string }.
Record WorkspaceFolder := { uri : Uri }.
Record TextDocument := { fileName : string }.

(** [Uri.file(path)] *)
Definition Uri_file (path : string) : Uri := {| fsPath := path |}.

Inductive BookTreeItemType := TyBook | TyNotebook | TyMarkdown | TyExternalLink.

Global Instance BookTreeItemType_eq_dec : EqDecision BookTreeItemType.
Proof. solve_decision. Defined.

Record BookTreeItemFormat := {
  title : value;
  root : string;
  tableOfContents : list value;
  page : value;
  type : BookTreeItemType
}.

Record Icons := { light : string; dark : string }.

(** [new BookTreeItem(format, icons)]: the item keeps what it was built
    from. *)
Record BookTreeItem := { book : BookTreeItemFormat; iconPath : Icons }.

(** [localize(key, message, ...args)] *)
Record Localized := { key : string; message : string; args : list value }.
Definition localize (k m : string) (a : list value) : Localized :=
  {| key := k; message := m; args := a |}.

(** Calls made to the UI, in the order they happen. *)
Inductive Effect :=
| ShowErrorMessage (m : Localized)
| ShowTextDocument (d : TextDocument)
| ExecuteSetContext (name : string) (b : bool)
| ExecuteShowPreview (u : Uri)
| OpenExternal (u : Uri)
| FireReadAllTOCFiles
| FireDidChangeTreeData
| ConsoleLog (e : exn).

(** One snapshot of everything outside the provider. *)
Record Host := {
  (* node path *)
  path_join : list string → string;
  path_dirname : string → string;
  (* ExtensionContext *)
  asAbsolutePath : string → string;
  (* node fs, js-yaml, fast-glob *)
  fs_existsSync : string → bool;
  fs_readFileSync : string → result string;
  yaml_safeLoad : string → result value;
  (* [glob(pattern, { deep })]: how its promise settles, with the paths it
     resolves to or the error it rejects with *)
  glob : string → value → result (list string);
  (* vscode workspace, window, commands, env *)
  config_maxBookSearchDepth : value;
  (* undefined while no workspace is open *)
  workspace_workspaceFolders : option (list WorkspaceFolder);
  workspace_openTextDocument : string → result TextDocument;
  window_showTextDocument : TextDocument → result unit;
  commands_showPreview : Uri → result unit;
  Uri_parse : string → result Uri;
  env_openExternal : Uri → result unit;
  (* [v < 0] for a [v] that is a string, an array or an object, which the
     language first converts to a number *)
  coerced_lt_zero : value → bool;
  (* getters of BookTreeItem (./bookTreeItem) *)
  item_previousUri : BookTreeItem → option string;
  item_nextUri : BookTreeItem → option string;
  item_sections : BookTreeItem → option (list value)
}.

(** The closure handed to [runThrottledAction]; [openMarkdown] is its only
    caller, and its closure captures the resource. *)
Inductive Action := PreviewMarkdown (resource : string).

(** What waits for the promise of one call of [getTableOfContentFiles]: the
    [then] handlers of the constructor (line 71), the rest of [refresh]
    after its [await] (lines 81-82), or a caller outside the provider. *)
Inductive Awaiter := ByConstructor | ByRefresh | ByCaller.

(** What an asynchronous method has left to do once it has given control
    back. [GlobPending] is one call of [getTableOfContentFiles] stopped at
    [await glob(p, { deep: maxDepth })] (line 101): the pattern and depth the
    glob was called with, the workspace paths the loop has not visited yet,
    and what waits for the call. [Settled] is the promise of such a call
    once fulfilled or rejected, with the reaction of what waits for it
    still to run. *)
Inductive Task :=
| GlobPending (pattern : string) (deep : value) (rest : list string) (awaiter : Awaiter)
| Settled (awaiter : Awaiter) (outcome : result unit).

Record State := {
  tableOfContentPaths : list string;
  allNotebooks : gmap string BookTreeItem;
  throttleTimer : option nat;
  resource : option string;
  (* pending [setTimeout] callbacks, oldest first, and the next handle *)
  timers : list (nat * Action);
  nextTimer : nat;
  (* continuations that have not run yet, oldest first *)
  tasks : list Task;
  trace : list Effect
}.

Definition initialState : State :=
  {| tableOfContentPaths := []; allNotebooks := ∅; throttleTimer := None;
     resource := None; timers := []; nextTimer := 1; tasks := []; trace := [] |}.

Definition set_tableOfContentPaths (l : list string) (s : State) : State :=
  {| tableOfContentPaths := l; allNotebooks := allNotebooks s;
     throttleTimer := throttleTimer s; resource := resource s;
     timers := timers s; nextTimer := nextTimer s; tasks := tasks s;
     trace := trace s |}.
Definition set_allNotebooks (m : gmap string BookTreeItem) (s : State) : State :=
  {| tableOfContentPaths := tableOfContentPaths s; allNotebooks := m;
     throttleTimer := throttleTimer s; resource := resource s;
     timers := timers s; nextTimer := nextTimer s; tasks := tasks s;
     trace := trace s |}.
Definition set_throttleTimer (t : option nat) (s : State) : State :=
  {| tableOfContentPaths := tableOfContentPaths s; allNotebooks := allNotebooks s;
     throttleTimer := t; resource := resource s;
     timers := timers s; nextTimer := nextTimer s; tasks := tasks s;
     trace := trace s |}.
Definition set_resource (r : option string) (s : State) : State :=
  {| tableOfContentPaths := tableOfContentPaths s; allNotebooks := allNotebooks s;
     throttleTimer := throttleTimer s; resource := r;
     timers := timers s; nextTimer := nextTimer s; tasks := tasks s;
     trace := trace s |}.
Definition set_timers (l : list (nat * Action)) (n : nat) (s : State) : State :=
  {| tableOfContentPaths := tableOfContentPaths s; allNotebooks := allNotebooks s;
     throttleTimer := throttleTimer s; resource := resource s;
     timers := l; nextTimer := n; tasks := tasks s; trace := trace s |}.
Definition set_trace (t : list Effect) (s : State) : State :=
  {| tableOfContentPaths := tableOfContentPaths s; allNotebooks := allNotebooks s;
     throttleTimer := throttleTimer s; resource := resource s;
     timers := timers s; nextTimer := nextTimer s; tasks := tasks s; trace := t |}.
Definition set_tasks (l : list Task) (s : State) : State :=
  {| tableOfContentPaths := tableOfContentPaths s; allNotebooks := allNotebooks s;
     throttleTimer := throttleTimer s; resource := resource s;
     timers := timers s; nextTimer := nextTimer s; tasks := l; trace := trace s |}.

Definition emit (e : Effect) : M State unit :=
  modifyState (λ s, set_trace (trace s ++ [e]) s).

(** [window.showErrorMessage(m)] *)
Definition showErrorMessage (m : Localized) : M State unit :=
  emit (ShowErrorMessage m).

(** *** getTableOfContentFiles, refresh, constructor *)

(** [v < 0] *)
Definition lessThanZero (h : Host) (v : value) : bool :=
  match v with
  | VNum n => (n <? 0)%Z
  | VUndefined | VNull | VBool _ => false
  | VStr _ | VArr _ | VObj _ => coerced_lt_zero h v
  end.

(** Lines 91-97: the search depth handed to the glob. *)
Definition effectiveDepth (h : Host) (maxDepth : value) : value :=
  if isUndefined maxDepth || lessThanZero h maxDepth then VNum 5
  else if strictEqZero maxDepth then VUndefined
  else maxDepth.

Definition backslash : ascii := "092"%char.
Definition slash : ascii := "/"%char.

(** [s.replace(/\\/g, '/')] *)
Fixpoint replaceBackslashes (s : string) : string :=
  match s with
  | EmptyString => EmptyString
  | String c rest =>
      String (if Ascii.eqb c backslash then slash else c) (replaceBackslashes rest)
  end.

Definition tocPattern (h : Host) (workspacePath : string) : string :=
  replaceBackslashes (path_join h [workspacePath; "**"; "_data"; "toc.yml"]).

(** An asynchronous method gives control back at an [await]: what it has
    left to do joins the pending continuations. *)
Definition suspend (t : Task) : M State unit :=
  modifyState (λ s, set_tasks (tasks s ++ [t]) s).

(** The promise of [getTableOfContentFiles] settles: the reaction of the
    constructor or of [refresh] is queued, it does not run at once. A caller
    outside the provider is handed the promise and nothing more. *)
Definition settle (awaiter : Awaiter) (outcome : result unit) : M State unit :=
  match awaiter with
  | ByConstructor | ByRefresh => suspend (Settled awaiter outcome)
  | ByCaller => mret tt
  end.

(** Lines 99-106 from the head of the loop: with a workspace path left, the
    glob is called and the method stops at its [await]; with none left,
    lines 104-106 run and the promise is fulfilled. *)
Definition discoverFrom (h : Host) (deep : value) (workspacePaths : list string)
  (awaiter : Awaiter) : M State unit :=
  match workspacePaths with
  | workspacePath :: rest =>
      suspend (GlobPending (tocPattern h workspacePath) deep rest awaiter)
  | [] =>
      s ← getState;
      let bookOpened := (0 <? length (tableOfContentPaths s))%nat in
      emit (ExecuteSetContext "bookOpened" bookOpened);;
      emit FireReadAllTOCFiles;;
      settle awaiter (Ok tt)
  end.

(** What one call does before it returns its promise: lines 90-98, then the
    loop up to its first [await]. The promise itself is rendered by
    [awaiter], which names what the caller has attached to it. *)
Definition getTableOfContentFiles (h : Host) (workspaceFolders : list WorkspaceFolder)
  (awaiter : Awaiter) : M State unit :=
  let maxDepth := effectiveDepth h (config_maxBookSearchDepth h) in
  let workspacePaths := map (λ a, fsPath (uri a)) workspaceFolders in
  discoverFrom h maxDepth workspacePaths awaiter.

(** What [refresh()] does before it returns its promise.
    [workspace.workspaceFolders] is passed on as it is; when it is
    [undefined], [workspaceFolders.map] throws inside the asynchronous
    method, after the configuration has been read, so that the promise
    [refresh] awaits is rejected. *)
Definition refresh (h : Host) : M State unit :=
  modifyState (set_tableOfContentPaths []);;
  match workspace_workspaceFolders h with
  | Some workspacePaths => getTableOfContentFiles h workspacePaths ByRefresh
  | None => settle ByRefresh (Throw TypeError)
  end.

(** The constructor, run on the freshly initialised fields: it starts the
    discovery and attaches its two handlers to the promise. *)
Definition construct (h : Host) (workspaceFolders : list WorkspaceFolder) : M State unit :=
  getTableOfContentFiles h workspaceFolders ByConstructor.

(** A pending continuation runs. For [GlobPending] the glob promise has
    settled as the host says: resolved, line 102 appends to the list as it
    is by then and the loop goes on; rejected, the method ends there and
    its promise is rejected. For [Settled] the reaction runs: the
    constructor's handlers ignore a fulfilment and log a rejection; the
    rest of [refresh] fires [onDidChangeTreeData] after a fulfilment and is
    itself rejected after a rejection. *)
Definition resumeTask (h : Host) (t : Task) : M State unit :=
  match t with
  | GlobPending pattern deep rest awaiter =>
      match glob h pattern deep with
      | Ok found =>
          modifyState (λ s, set_tableOfContentPaths (tableOfContentPaths s ++ found) s);;
          discoverFrom h deep rest awaiter
      | Throw err => settle awaiter (Throw err)
      end
  | Settled ByConstructor (Ok _) => mret tt
  | Settled ByConstructor (Throw err) => emit (ConsoleLog err)
  | Settled ByRefresh (Ok _) => emit FireDidChangeTreeData
  | Settled ByRefresh (Throw _) => mret tt
  | Settled ByCaller _ => mret tt
  end.

(** The [i]-th pending continuation leaves the queue and runs. *)
Definition resume (h : Host) (i : nat) : M State unit :=
  s ← getState;
  match tasks s !! i with
  | Some t => modifyState (set_tasks (delete i (tasks s)));; resumeTask h t
  | None => mret tt
  end.

(** *** openNotebook, openMarkdown, openExternalLink *)

Definition openNotebook (h : Host) (resource : string) : M State unit :=
  tryCatch
    (doc ← liftResult (workspace_openTextDocument h resource);
     emit (ShowTextDocument doc);;
     liftResult (window_showTextDocument h doc))
    (λ e, showErrorMessage
            (localize "openNotebookError" "Open file {0} failed: {1}"
               [VStr resource; errorText e])).

(** Running the closure built by [openMarkdown]. *)
Definition runAction (h : Host) (action : Action) : M State unit :=
  match action with
  | PreviewMarkdown resource =>
      tryCatch
        (emit (ExecuteShowPreview (Uri_file resource));;
         liftResult (commands_showPreview h (Uri_file resource)))
        (λ e, showErrorMessage
                (localize "openMarkdownError" "Open file {0} failed: {1}"
                   [VStr resource; errorText e]))
  end.

(** [clearTimeout(t)]: drops the pending callback with that handle, if any. *)
Definition clearTimeout (t : option nat) : M State unit :=
  match t with
  | None => mret tt
  | Some id =>
      modifyState (λ s,
        set_timers (filter (λ p, p.1 ≠ id) (timers s)) (nextTimer s) s)
  end.

(** [setTimeout(() => action(), 300)]: queues the callback and returns a
    fresh handle (handles are truthy). *)
Definition setTimeout (action : Action) : M State nat :=
  λ s, (Ok (nextTimer s),
        set_timers (timers s ++ [(nextTimer s, action)]) (S (nextTimer s)) s).

Definition resourceIs (r : option string) (resource : string) : bool :=
  match r with
  | Some r' => String.eqb r' resource
  | None => false
  end.

Definition runThrottledAction (h : Host) (resource : string) (action : Action)
  : M State unit :=
  s ← getState;
  let isResourceChange := negb (resourceIs (Book.resource s) resource) in
  (if isResourceChange
   then clearTimeout (throttleTimer s);; modifyState (set_throttleTimer None)
   else mret tt);;
  modifyState (set_resource (Some resource));;
  s ← getState;
  match throttleTimer s with
  | None =>
      if isResourceChange then runAction h action
      else t ← setTimeout action; modifyState (set_throttleTimer (Some t))
  | Some _ => mret tt
  end.

Definition openMarkdown (h : Host) (resource : string) : M State unit :=
  runThrottledAction h resource (PreviewMarkdown resource).

(** The host runs the callback of a pending timer: the timer leaves the
    queue and its action runs. Nothing happens for a handle that is not
    pending. *)
Definition fireTimer (h : Host) (id : nat) : M State unit :=
  s ← getState;
  match list_find (λ p, p.1 = id) (timers s) with
  | Some (_, (_, action)) =>
      modifyState (λ s, set_timers (filter (λ p, p.1 ≠ id) (timers s)) (nextTimer s) s);;
      runAction h action
  | None => mret tt
  end.

Definition openExternalLink (h : Host) (resource : string) : M State unit :=
  tryCatch
    (u ← liftResult (Uri_parse h resource);
     emit (OpenExternal u);;
     liftResult (env_openExternal h u))
    (λ e, showErrorMessage
            (localize "openExternalLinkError" "Open link {0} failed: {1}"
               [VStr resource; errorText e])).

(** *** getBooks *)

(** One step of the [reduce] in [flattenArray]: what [val] adds to the
    accumulator, [acc.concat(val)] followed, when [val.sections] is an
    array, by the flattened sections. [concat] spreads an array argument. *)
Fixpoint flattenVal (val : value) : result (list value) :=
  match val with
  | VUndefined | VNull => Throw TypeError
  | VObj fields =>
      let fix sectionsOf (fs : list (string * value)) : result (list value) :=
        match fs with
        | [] => Ok []
        | (k, x) :: fs' =>
            if String.eqb k "sections" then
              match x with
              | VArr elems =>
                  (fix all (l : list value) : result (list value) :=
                     match l with
                     | [] => Ok []
                     | y :: l' =>
                         match flattenVal y with
                         | Ok a =>
                             match all l' with
                             | Ok b => Ok (a ++ b)
                             | Throw e => Throw e
                             end
                         | Throw e => Throw e
                         end
                     end) elems
              | _ => Ok []
              end
            else sectionsOf fs'
        end in
      match sectionsOf fields with
      | Ok rest => Ok (val :: rest)
      | Throw e => Throw e
      end
  | VArr elems => Ok elems
  | VBool _ | VNum _ | VStr _ => Ok [val]
  end.

Fixpoint flattenList (array : list value) : result (list value) :=
  match array with
  | [] => Ok []
  | val :: rest =>
      a ← flattenVal val;
      b ← flattenList rest;
      Ok (a ++ b)
  end.

(** [this.flattenArray(array)] for an argument typed [any]: [reduce] exists
    on arrays only. *)
Definition flattenArray (array : value) : result (list value) :=
  match array with
  | VArr elems => flattenList elems
  | _ => Throw TypeError
  end.

Definition bookIcons (h : Host) : Icons :=
  {| light := asAbsolutePath h "resources/light/book.svg";
     dark := asAbsolutePath h "resources/dark/book_inverse.svg" |}.

(** The body of the [try] block for the table of contents at [tocPath]. *)
Definition loadBook (h : Host) (root tocPath : string) : result BookTreeItem :=
  configText ← fs_readFileSync h (path_join h [root; "_config.yml"]);
  config ← yaml_safeLoad h configText;
  tocText ← fs_readFileSync h tocPath;
  tableOfContents ← yaml_safeLoad h tocText;
  configTitle ← getProp config "title";
  flat ← flattenArray tableOfContents;
  Ok {| book := {| title := configTitle; root := root; tableOfContents := flat;
                   page := tableOfContents; type := TyBook |};
        iconPath := bookIcons h |}.

(** The [for ... in this._tableOfContentPaths] loop, [books] being the
    array built so far. *)
Fixpoint getBooksFrom (h : Host) (paths : list string) (books : list BookTreeItem)
  : M State (list BookTreeItem) :=
  match paths with
  | [] => mret books
  | tocPath :: rest =>
      let root := path_dirname h (path_dirname h tocPath) in
      books' ← tryCatch
        (b ← liftResult (loadBook h root tocPath); mret (books ++ [b]))
        (λ e, showErrorMessage
                (localize "openConfigFileError" "Open file {0} failed: {1}"
                   [VStr (path_join h [root; "_config.yml"]); errorText e]);;
              mret books);
      getBooksFrom h rest books'
  end.

Definition getBooks (h : Host) : M State (list BookTreeItem) :=
  s ← getState;
  getBooksFrom h (tableOfContentPaths s) [].

(** *** getSections, getChildren *)

Definition linkIcons (h : Host) : Icons :=
  {| light := asAbsolutePath h "resources/light/link.svg";
     dark := asAbsolutePath h "resources/dark/link_inverse.svg" |}.
Definition notebookIcons (h : Host) : Icons :=
  {| light := asAbsolutePath h "resources/light/notebook.svg";
     dark := asAbsolutePath h "resources/dark/notebook_inverse.svg" |}.
Definition markdownIcons (h : Host) : Icons :=
  {| light := asAbsolutePath h "resources/light/markdown.svg";
     dark := asAbsolutePath h "resources/dark/markdown_inverse.svg" |}.

Definition sectionItem (toc : list value) (root : string) (section title : value)
    (ty : BookTreeItemType) (icons : Icons) : BookTreeItem :=
  {| book := {| title := title; root := root; tableOfContents := toc;
                page := section; type := ty |};
     iconPath := icons |}.

(** The body of the [for] loop of [getSections] for the entry [section]:
    the items it pushes onto [notebooks]. *)
Definition visitSection (h : Host) (toc : list value) (root : string) (section : value)
  : M State (list BookTreeItem) :=
  url ← liftResult (getProp section "url");
  if truthy url then
    external ← liftResult (getProp section "external");
    if truthy external then
      title ← liftResult (getProp section "title");
      mret [sectionItem toc root section title TyExternalLink (linkIcons h)]
    else
      ipynb ← liftResult (concatStr url ".ipynb");
      let pathToNotebook := path_join h [root; "content"; ipynb] in
      md ← liftResult (concatStr url ".md");
      let pathToMarkdown := path_join h [root; "content"; md] in
      if fs_existsSync h pathToNotebook then
        title ← liftResult (getProp section "title");
        let notebook := sectionItem toc root section title TyNotebook (notebookIcons h) in
        modifyState (λ s, set_allNotebooks (<[pathToNotebook := notebook]> (allNotebooks s)) s);;
        mret [notebook]
      else if fs_existsSync h pathToMarkdown then
        title ← liftResult (getProp section "title");
        mret [sectionItem toc root section title TyMarkdown (markdownIcons h)]
      else
        title ← liftResult (getProp section "title");
        showErrorMessage (localize "missingFileError" "Missing file : {0}" [title]);;
        mret []
  else mret [].

(** The [for] loop, [notebooks] being the array built so far. *)
Fixpoint getSectionsFrom (h : Host) (toc : list value) (root : string)
    (sections : list value) (notebooks : list BookTreeItem)
  : M State (list BookTreeItem) :=
  match sections with
  | [] => mret notebooks
  | section :: rest =>
      pushed ← visitSection h toc root section;
      getSectionsFrom h toc root rest (notebooks ++ pushed)
  end.

Definition getSections (h : Host) (toc : list value) (sections : list value) (root : string)
  : M State (list BookTreeItem) :=
  getSectionsFrom h toc root sections [].

Definition getTreeItem (element : BookTreeItem) : BookTreeItem := element.

Definition getChildren (h : Host) (element : option BookTreeItem)
  : M State (list BookTreeItem) :=
  match element with
  | Some element =>
      match item_sections h element with
      | Some sections =>
          getSections h (tableOfContents (book element)) sections (root (book element))
      | None => mret []
      end
  | None => getBooks h
  end.

(** *** getNavigation *)

Record NavigationResult := {
  hasNavigation : bool;
  previous : option Uri;
  next : option Uri
}.

(** [u ? Uri.file(u) : undefined] for a string-or-undefined [u]. *)
Definition uriOfTruthy (u : option string) : option Uri :=
  match u with
  | Some p => if String.eqb p EmptyString then None else Some (Uri_file p)
  | None => None
  end.

Definition getNavigation (h : Host) (u : Uri) (s : State) : NavigationResult :=
  match allNotebooks s !! fsPath u with
  | Some notebook =>
      {| hasNavigation := true;
         previous := uriOfTruthy (item_previousUri h notebook);
         next := uriOfTruthy (item_nextUri h notebook) |}
  | None =>
      {| hasNavigation := false; previous := None; next := None |}
  end.

(** *** The provider as a machine *)

(** What can happen to a provider once constructed: a call of one of its
    public methods, the workspace-folders listener, a timer callback, or a
    pending continuation that runs. A call of [refresh] or of
    [getTableOfContentFiles] is the part of it that runs before it returns
    its promise; what follows its [await] is a continuation. Pending
    continuations may run in any order and with any other operation in
    between, which covers every order an event loop can produce. *)
Inductive Op :=
| CallRefresh
| CallGetTableOfContentFiles (workspaceFolders : list WorkspaceFolder)
| CallOpenNotebook (resource : string)
| CallOpenMarkdown (resource : string)
| CallOpenExternalLink (resource : string)
| CallGetTreeItem (element : BookTreeItem)
| CallGetChildren (element : option BookTreeItem)
| CallGetBooks
| CallGetNavigation (u : Uri)
| CallDispose
| WorkspaceFoldersChanged
| TimerFires (id : nat)
| Resumes (i : nat).

Definition discard {A} (m : M State A) : M State unit := m ≫= λ _, mret tt.

Definition perform (h : Host) (op : Op) : M State unit :=
  match op with
  | CallRefresh => refresh h
  | CallGetTableOfContentFiles folders => getTableOfContentFiles h folders ByCaller
  | CallOpenNotebook r => openNotebook h r
  | CallOpenMarkdown r => openMarkdown h r
  | CallOpenExternalLink r => openExternalLink h r
  | CallGetTreeItem _ => mret tt
  | CallGetChildren element => discard (getChildren h element)
  | CallGetBooks => discard (getBooks h)
  | CallGetNavigation _ => mret tt
  | CallDispose => mret tt
  | WorkspaceFoldersChanged => refresh h
  | TimerFires id => fireTimer h id
  | Resumes i => resume h i
  end.

(** A run: each operation against the world as it is at that moment. An
    exception ends the operation that raised it, not the run. *)
Fixpoint run (steps : list (Host * Op)) (s : State) : State :=
  match steps with
  | [] => s
  | (h, op) :: rest => run rest (execM (perform h op) s)
  end.

End Book.

(** ** The welcome page *)

Module Welcome.

(** The double-quote character, and text given as the runs between its
    double quotes. *)
Definition dq : string := String "034"%char EmptyString.
Definition quoted (runs : list string) : string := String.concat dq runs.

(** The literal text of the template, cut at its substitutions
    ([html_0] precedes the first substitution, [html_37] follows the last). *)
Definition html_0 : string := quoted ["
<div class="; "welcomePageContainer"; ">
	<div class="; "welcomePage"; ">
		<div class="; "ads-homepage splash"; ">
			<div class="; "gradient"; ">
				<div class="; "preview-text tool-tip"; ">
					<div class="; "tool-tip-container"; " id="; "tool-tip-container-wide"; ">
						<a class="; "ads-welcome-page-link"; " aria-describedby="; "tooltip-text-wide"; " id="; "preview-link-wide"; " class="; "preview-link"; " tabindex="; "0"; " name="; "preview"; "><p>Preview</p><i class="; "icon-info themed-icon"; "></i></a>
						<span role="; "tooltip"; " id="; "tooltip-text-wide"; " class="; "tool-tip-text"; " aria-hidden="; "true"; ">
							<h3 tabindex="; "0"; " class="; "preview-tooltip-header"; ">"].
Definition html_1 : string := quoted ["</h3>
							<p tabindex="; "0"; " class="; "preview-tooltip-body"; ">"].
Definition html_2 : string := quoted ["</p>
						</span>
					</div>
					<div class="; "tool-tip-container"; " id="; "tool-tip-container-narrow"; ">
						<a class="; "ads-welcome-page-link"; " aria-haspopup="; "true"; " class="; "preview-link"; " tabindex="; "0"; " id="; "preview-link-narrow"; " name="; "previewNarrow"; "><p>Preview</p><i class="; "icon-info themed-icon"; "></i></a>
					</div>
				</div>
				<div id="; "preview-modal"; " class="; "modal"; " aria-modal="; "true"; " aria-hidden="; "true"; ">
					<div class="; "modal-content"; ">
						<span class="; "close-icon"; ">x</span>
						<h3 tabindex="; "0"; " class="; "preview-modal-header"; ">"].
Definition html_3 : string := quoted ["</h3>
						<p tabindex="; "0"; " class="; "preview-modal-body"; ">"].
Definition html_4 : string := quoted ["</p>
					</div>
				</div>
				<div class="; "ads-homepage-section section header hero"; ">
					<div class="; "row start"; ">
						<div class="; "header-top-nav"; ">
							<div class="; "flex"; ">
								<div class="; "icon sm"; "></div>
								<div class="; "title"; ">
									<div class="; "caption-container"; ">
										<span class="; "icon xs"; "></span><h1 class="; "caption"; "></h1>
									</div>
									<div class="; "flex btn-container"; ">
										<div>
											<button id="; "dropdown-btn"; " class="; "btn btn-primary dropdown"; " role="; "navigation"; " aria-haspopup="; "true"; " aria-controls="; "dropdown"; ">
												<div class="; "dropdown-text"; " style="; "pointer-events: none;"; ">
													<span>"].
Definition html_5 : string := quoted ["</span><i class="; "icon-arrow-down"; "></i>
												</div>
											</button>
											<nav role="; "navigation"; " class="; "dropdown-nav"; ">
												<ul id="; "dropdown"; " class="; "dropdown-content"; " aria-hidden="; "true"; " aria-label="; "submenu"; " role="; "menu"; " aria-labelledby="; "dropdown-btn"; ">
													<li role="; "none"; "><a class="; "ads-welcome-page-link"; " role="; "menuitem"; " tabIndex="; "-1"; " class="; "move"; " href="; "command:registeredServers.addConnection"; ">"].
Definition html_6 : string := quoted ["</a></li>
													<li role="; "none"; "><a class="; "ads-welcome-page-link"; " role="; "menuitem"; " tabIndex="; "-1"; " class="; "move"; " href="; "command:workbench.action.files.newUntitledFile"; ">"].
Definition html_7 : string := quoted ["</a></li>
													<li role="; "none"; "><a class="; "ads-welcome-page-link"; " role="; "menuitem"; " tabIndex="; "-1"; " class="; "move"; " href="; "command:notebook.command.new"; ">"].
Definition html_8 : string := quoted ["</a></li>
													<li role="; "none"; " id="; "dropdown-mac-only"; "><a class="; "ads-welcome-page-link"; " role="; "menuitem"; " tabIndex="; "-1"; " class="; "move mac-only"; " href="; "command:workbench.action.files.openLocalFileFolder"; ">"].
Definition html_9 : string := quoted ["</a></li>
													<li role="; "none"; " id="; "dropdown-windows-linux-only"; "><a class="; "ads-welcome-page-link"; " role="; "menuitem"; " tabIndex="; "-1"; " class="; "move windows-only linux-only"; " href="; "command:workbench.action.files.openFile"; ">"].
Definition html_10 : string := quoted ["</a></li>
												</ul>
											</nav>
										</div>
										<a class="; "windows-only linux-only btn btn-secondary"; "
											href="; "command:workbench.action.files.openFile"; ">
											"].
Definition html_11 : string := quoted ["
										</a>
										<a class="; "mac-only btn btn-secondary"; " href="; "command:workbench.action.files.openLocalFileFolder"; ">"].
Definition html_12 : string := quoted ["</a>
									</div>
								</div>
							</div>
						</div>
					</div>
					<div class="; "row header-bottom-nav-tiles ads-grid"; ">
						<div class="; "col"; ">
							<a class="; "header-bottom-nav-tile-link ads-welcome-page-link"; " href="; "command:registeredServers.addConnection"; ">
								<div class="; "header-bottom-nav-tile tile tile-connection"; ">
									<h3>"].
Definition html_13 : string := quoted ["</h3>
									<p>"].
Definition html_14 : string := quoted ["</p>
									<div class="; "icon connection"; "></div>
								</div>
							</a>
						</div>
						<div class="; "col"; ">
							<a class="; "header-bottom-nav-tile-link ads-welcome-page-link"; "
								href="; "command:workbench.action.files.newUntitledFile"; ">
								<div class="; "header-bottom-nav-tile tile tile-query"; ">
									<h3>"].
Definition html_15 : string := quoted ["</h3>
									<p>"].
Definition html_16 : string := quoted ["</p>
									<div class="; "icon query"; "></div>
								</div>
							</a>
						</div>
						<div class="; "col"; ">
							<a class="; "header-bottom-nav-tile-link ads-welcome-page-link"; " href="; "command:notebook.command.new"; ">
								<div class="; "header-bottom-nav-tile tile tile-notebook"; ">
									<h3>"].
Definition html_17 : string := quoted ["</h3>
									<p>"].
Definition html_18 : string := quoted ["</p>
									<div class="; "icon notebook"; "></div>
								</div>
							</a>
						</div>
						<div class="; "col"; ">
							<a class="; "header-bottom-nav-tile-link ads-welcome-page-link"; " href="; "command:azdata.resource.deploy"; ">
								<div class="; "header-bottom-nav-tile tile tile-server"; ">
									<h3>"].
Definition html_19 : string := quoted ["</h3>
									<p>"].
Definition html_20 : string := quoted ["</p>
									<div class="; "icon server"; "></div>
								</div>
							</a>
						</div>
					</div>
				</div>
			</div>
			<div class="; "ads-homepage-section middle-section content row ads-grid"; ">
				<div class="; "resources-container"; ">
					<h2>"].
Definition html_21 : string := quoted ["</h2>
					<div class="; "tabs"; ">
						<input class="; "input"; " name="; "tabs"; " type="; "radio"; " id="; "tab-1"; " checked="; "checked"; " />
						<label class="; "label"; " for="; "tab-1"; " tabIndex="; "0"; ">"].
Definition html_22 : string := quoted ["</label>
						<div class="; "panel"; ">
							<div class="; "recent history"; ">
								<div class="; "flex list-header-container"; ">
									<i class="; "icon-document themed-icon"; "></i>
									<h4 class="; "list-header"; ">"].
Definition html_23 : string := quoted ["</h4>
									<h4 class="; "list-header-last-opened"; ">"].
Definition html_24 : string := quoted ["</h4>
								</div>
								<ul class="; "list"; ">
									<!-- Filled programmatically -->
								</ul>
								<p class="; "none detail"; ">No recent folders</p>
								<ul class="; "moreRecent-list"; ">
									<li class="; "moreRecent"; ">
										<a class="; "ads-welcome-page-link"; " href="; "command:workbench.action.openRecent"; ">"].
Definition html_25 : string := quoted ["
											<i class="; "icon-arrow-down-dark"; "></i>
										</a>
									</li>
								</ul>
							</div>
						</div>
					</div>
					<p class="; "showOnStartup"; "><input type="; "checkbox"; " id="; "showOnStartup"; " class="; "checkbox"; ">
						<label for="; "showOnStartup"; ">"].
Definition html_26 : string := quoted ["</label>
					</p>
				</div>
				<div class="; "getting-started-container"; ">
					<div class="; "links"; ">
						<h2>"].
Definition html_27 : string := quoted ["</h2>
						<div class="; "link-header"; ">
							<a class="; "link ads-welcome-page-link"; "
								href="; "https://aka.ms/get-started-azdata"; ">"].
Definition html_28 : string := quoted ["<span class="; "icon-link themed-icon-alt"; "></a>
						</div>
						<p>
						"].
Definition html_29 : string := quoted ["
						</p>
						<div class="; "link-header"; ">
							<a class="; "link ads-welcome-page-link"; "
								href="; "command:workbench.action.openDocumentationUrl"; ">"].
Definition html_30 : string := quoted ["<span class="; "icon-link themed-icon-alt"; "</a></a>
						</div>
						<p>"].
Definition html_31 : string := quoted ["
						</p>


						<div class="; "videos-container row"; ">
							<h2>Videos</h2>
							<div class="; "flex flex-container-video"; ">
								<div class="; "videos-container-video"; ">
									<a href="; "https://www.youtube.com/watch?v=Orv7fptVoUA"; " class="; "video overview ads-welcome-page-link"; ">
									<img src="; EmptyString].
Definition html_32 : string := quoted [EmptyString; " class="; "video-overview"; " id="; "video-overview"; " />
										<h4>"].
Definition html_33 : string := quoted ["</h4>
									</a>

								</div>
								<div class="; "videos-container-video"; ">
									<a href="; "https://www.youtube.com/watch?v=Nt4kIHQ0IOc"; " class="; "video overview ads-welcome-page-link"; ">
									<img src="; EmptyString].
Definition html_34 : string := quoted [EmptyString; " class="; "video-introduction"; " id="; "video-introduction"; " />
										<h4>"].
Definition html_35 : string := quoted ["</h4>
									</a>
								</div>
							</div>
						</div>
					</div>
				</div>
			</div>
			<div class="; "ads-homepage-section content extensions"; ">
				<div class="; "flex flex-j-between"; ">
					<h2>Extend your data studio</h2>
					<a class="; "link-show-all flex ads-welcome-page-link"; " href="; "command:extensions.listView.focus"; ">"].
Definition html_36 : string := quoted [" <span class="; "icon-arrow-right"; "></span></a>
				</div>
				<div class="; "row ads-grid grip-gap-50"; ">
					<div
						class="; "ads-grid tile no-hover extension-pack"; ">
						<div class="; "extension-pack-description"; ">
							<div class="; "extension-pack-header"; "></div>
							<p class="; "extension-pack-body"; "></p>
						</div>
						<div class="; "extension-pack-extensions flex flex-d-column flex-j-evenly flex-a-start"; ">
							<div class="; "extension-pack-extension-list flex flex-d-column flex-j-evenly flex-a-start"; "></div>
							<div class="; "flex flex-j-end extension-pack-btn-container flex flex-j-between flex-a-center"; EmptyString; ">
							<div class="; "extensionPack"; " href="; "#"; "></div>
							<a class="; "a-self-end link-learn-more flex flex-a-center ads-welcome-page-link"; " href="; "command:azdata.extension.open?%7B%22id%22%3A%22microsoft.admin-pack%22%7D"; ">"].
Definition html_37 : string := quoted ["<span class="; "icon-arrow-right"; "></span></a>
						</div>
					</div>
				</div>
				<div class="; "extension-list flex flex-d-column"; ">
					<!-- Dynamically populated -->
				</div>
				<br /><br /><br />
			</div>
		</div>
	</div>
</div>
"].

(** The default export: [localize] is [nls.localize] applied to a key and its
    default message, [escape] is [strings.escape], [toUrl] is
    [require.toUrl]. *)
Definition az_data_welcome_page
    (localize : string → string → string) (escape : string → string)
    (toUrl : string → string) : string :=
  html_0
  +:+ escape (localize "welcomePage.previewHeader"
      "This page is in preview")
  +:+ html_1
  +:+ escape (localize "welcomePage.previewBody"
      "Preview features introduce new functionalities that are on track to becoming a permanent part the product. They are stable, but need additional accessibility improvements. We welcome your early feedback while they are under development.")
  +:+ html_2
  +:+ escape (localize "welcomePage.previewHeader"
      "This page is in preview")
  +:+ html_3
  +:+ escape (localize "welcomePage.previewBody"
      "Preview features introduce new functionalities that are on track to becoming a permanent part the product. They are stable, but need additional accessibility improvements. We welcome your early feedback while they are under development.")
  +:+ html_4
  +:+ escape (localize "welcomePage.new"
      "New")
  +:+ html_5
  +:+ escape (localize "welcomePage.newConnection"
      "New connection")
  +:+ html_6
  +:+ escape (localize "welcomePage.newQuery"
      "New query")
  +:+ html_7
  +:+ escape (localize "welcomePage.newNotebook"
      "New notebook")
  +:+ html_8
  +:+ escape (localize "welcomePage.openFileMac"
      "Open file")
  +:+ html_9
  +:+ escape (localize "welcomePage.openFileLinuxPC"
      "Open file")
  +:+ html_10
  +:+ escape (localize "welcomePage.openFileLinuxPC"
      "Open file")
  +:+ html_11
  +:+ escape (localize "welcomePage.openFileMac"
      "Open file")
  +:+ html_12
  +:+ escape (localize "welcomePage.createConnection"
      "Create a connection")
  +:+ html_13
  +:+ escape (localize "welcomePage.createConnectionBody"
      "Connect to a database instance through the connection dialog.")
  +:+ html_14
  +:+ escape (localize "welcomePage.runQuery"
      "Run a query")
  +:+ html_15
  +:+ escape (localize "welcomePage.runQueryBody"
      "Interact with data through a query editor.")
  +:+ html_16
  +:+ escape (localize "welcomePage.createNotebook"
      "Create a notebook")
  +:+ html_17
  +:+ escape (localize "welcomePage.createNotebookBody"
      "Build a new notebook using a native notebook editor.")
  +:+ html_18
  +:+ escape (localize "welcomePage.deployServer"
      "Deploy a server")
  +:+ html_19
  +:+ escape (localize "welcomePage.deployServerBody"
      "Create a new instance of SQL Server on the platform of your choice.")
  +:+ html_20
  +:+ escape (localize "welcomePage.resources"
      "Resources")
  +:+ html_21
  +:+ escape (localize "welcomePage.history"
      "History")
  +:+ html_22
  +:+ escape (localize "welcomePage.name"
      "Name")
  +:+ html_23
  +:+ escape (localize "welcomePage.lastOpened"
      "Last Opened")
  +:+ html_24
  +:+ escape (localize "welcomePage.moreRecent"
      "Show more")
  +:+ html_25
  +:+ escape (localize "welcomePage.showOnStartup"
      "Show welcome page on startup")
  +:+ html_26
  +:+ escape (localize "welcomePage.usefuLinks"
      "Useful Links")
  +:+ html_27
  +:+ escape (localize "welcomePage.gettingStarted"
      "Getting Started")
  +:+ html_28
  +:+ escape (localize "welcomePage.gettingStartedBody"
      "Discover the capabilities offered by Azure Data Studio and learn how to make the most of them.")
  +:+ html_29
  +:+ escape (localize "welcomePage.documentation"
      "Documentation")
  +:+ html_30
  +:+ escape (localize "welcomePage.documentationBody"
      "Visit the documentation center for quickstarts, how-to guides, and references for PowerShell, APIs, etc.")
  +:+ html_31
  +:+ toUrl "./../../media/video_overview.png"
  +:+ html_32
  +:+ escape (localize "welcomePage.videoDescriptionOverview"
      "Overview of Azure Data Studio")
  +:+ html_33
  +:+ toUrl "./../../media/video_introduction.png"
  +:+ html_34
  +:+ escape (localize "welcomePage.videoDescriptionIntroduction"
      "Introduction to Azure Data Studio Notebooks | Data Exposed")
  +:+ html_35
  +:+ escape (localize "welcomePage.showAll"
      "Show All")
  +:+ html_36
  +:+ escape (localize "welcomePage.learnMore"
      "Learn more ")
  +:+ html_37.

(** The same template as data: literal text, localized messages and
    resource URLs, in order of appearance. *)
Inductive Part :=
| Static (text : string)
| Message (key defaultMessage : string)
| Resource (path : string).

Definition template : list Part :=
  [ Static html_0;
    Message "welcomePage.previewHeader"
    "This page is in preview";
    Static html_1;
    Message "welcomePage.previewBody"
    "Preview features introduce new functionalities that are on track to becoming a permanent part the product. They are stable, but need additional accessibility improvements. We welcome your early feedback while they are under development.";
    Static html_2;
    Message "welcomePage.previewHeader"
    "This page is in preview";
    Static html_3;
    Message "welcomePage.previewBody"
    "Preview features introduce new functionalities that are on track to becoming a permanent part the product. They are stable, but need additional accessibility improvements. We welcome your early feedback while they are under development.";
    Static html_4;
    Message "welcomePage.new"
    "New";
    Static html_5;
    Message "welcomePage.newConnection"
    "New connection";
    Static html_6;
    Message "welcomePage.newQuery"
    "New query";
    Static html_7;
    Message "welcomePage.newNotebook"
    "New notebook";
    Static html_8;
    Message "welcomePage.openFileMac"
    "Open file";
    Static html_9;
    Message "welcomePage.openFileLinuxPC"
    "Open file";
    Static html_10;
    Message "welcomePage.openFileLinuxPC"
    "Open file";
    Static html_11;
    Message "welcomePage.openFileMac"
    "Open file";
    Static html_12;
    Message "welcomePage.createConnection"
    "Create a connection";
    Static html_13;
    Message "welcomePage.createConnectionBody"
    "Connect to a database instance through the connection dialog.";
    Static html_14;
    Message "welcomePage.runQuery"
    "Run a query";
    Static html_15;
    Message "welcomePage.runQueryBody"
    "Interact with data through a query editor.";
    Static html_16;
    Message "welcomePage.createNotebook"
    "Create a notebook";
    Static html_17;
    Message "welcomePage.createNotebookBody"
    "Build a new notebook using a native notebook editor.";
    Static html_18;
    Message "welcomePage.deployServer"
    "Deploy a server";
    Static html_19;
    Message "welcomePage.deployServerBody"
    "Create a new instance of SQL Server on the platform of your choice.";
    Static html_20;
    Message "welcomePage.resources"
    "Resources";
    Static html_21;
    Message "welcomePage.history"
    "History";
    Static html_22;
    Message "welcomePage.name"
    "Name";
    Static html_23;
    Message "welcomePage.lastOpened"
    "Last Opened";
    Static html_24;
    Message "welcomePage.moreRecent"
    "Show more";
    Static html_25;
    Message "welcomePage.showOnStartup"
    "Show welcome page on startup";
    Static html_26;
    Message "welcomePage.usefuLinks"
    "Useful Links";
    Static html_27;
    Message "welcomePage.gettingStarted"
    "Getting Started";
    Static html_28;
    Message "welcomePage.gettingStartedBody"
    "Discover the capabilities offered by Azure Data Studio and learn how to make the most of them.";
    Static html_29;
    Message "welcomePage.documentation"
    "Documentation";
    Static html_30;
    Message "welcomePage.documentationBody"
    "Visit the documentation center for quickstarts, how-to guides, and references for PowerShell, APIs, etc.";
    Static html_31;
    Resource "./../../media/video_overview.png";
    Static html_32;
    Message "welcomePage.videoDescriptionOverview"
    "Overview of Azure Data Studio";
    Static html_33;
    Resource "./../../media/video_introduction.png";
    Static html_34;
    Message "welcomePage.videoDescriptionIntroduction"
    "Introduction to Azure Data Studio Notebooks | Data Exposed";
    Static html_35;
    Message "welcomePage.showAll"
    "Show All";
    Static html_36;
    Message "welcomePage.learnMore"
    "Learn more ";
    Static html_37 ].

(** Filling a part, given the text to put for a message and for a resource. *)
Definition fill (msg : string → string → string) (res : string → string) (p : Part)
  : string :=
  match p with
  | Static text => text
  | Message k d => msg k d
  | Resource path => res path
  end.

Definition assemble (msg : string → string → string) (res : string → string)
    (parts : list Part) : string :=
  String.concat EmptyString (map (fill msg res) parts).

Definition isMessage (p : Part) : bool :=
  match p with Message _ _ => true | _ => false end.
Definition isResource (p : Part) : bool :=
  match p with Resource _ => true | _ => false end.

End Welcome.

(** ** The browser JSON language client *)

Module JsonClient.

Record Worker := { scriptUrl : string }.

(** [new LanguageClient(id, name, clientOptions, worker)] *)
Record LanguageClient := {
  clientId : string;
  clientName : string;
  clientOptions : value;
  clientWorker : Worker
}.

Definition LanguageClientConstructor : Type := string → string → value → LanguageClient.

Record FetchOptions := { mode : string }.
Record Response := { body : result string }.

(** [getContent(uri)], at the outcome of the promise it returns. *)
Record RequestService := { getContent : string → result string }.
Record Runtime := { runtimeHttp : RequestService }.

(** The browser and the modules [activate] calls into. *)
Record Browser := {
  asAbsolutePath : string → result string;
  newWorker : string → result Worker;
  fetch : string → FetchOptions → result Response;
  startClient : LanguageClientConstructor → Runtime → result unit
}.

(** The state is what [console.log] has printed. *)
Definition Console : Type := list exn.

Definition console_log (e : exn) : M Console unit :=
  modifyState (λ printed, printed ++ [e]).

(** The constructor closure of line 23, over the worker it captures. *)
Definition newLanguageClient (worker : Worker) : LanguageClientConstructor :=
  λ id name clientOptions,
    {| clientId := id; clientName := name; clientOptions := clientOptions;
       clientWorker := worker |}.

(** The request service of line 27. *)
Definition http (b : Browser) : RequestService :=
  {| getContent := λ uri, response ← fetch b uri {| mode := "cors" |}; body response |}.

Definition activate (b : Browser) : M Console unit :=
  serverMain ← liftResult (asAbsolutePath b "server/dist/browser/jsonServerMain.js");
  tryCatch
    (worker ← liftResult (newWorker b serverMain);
     liftResult (startClient b (newLanguageClient worker) {| runtimeHttp := http b |}))
    (λ e, console_log e).

End JsonClient.

(** ** Vocabulary of the properties *)

(** A relation between the state before and after that a computation
    respects whatever its outcome. *)
Definition keeps {S A} (R : S → S → Prop) (m : M S A) : Prop :=
  ∀ s, R s (execM m s).

Module Samples.
Import Book.

Definition hasSlash (s : string) : bool :=
  existsb (Ascii.eqb slash) (list_ascii_of_string s).

(** Everything before the last slash. *)
Fixpoint dirname (s : string) : string :=
  match s with
  | EmptyString => EmptyString
  | String c rest => if hasSlash rest then String c (dirname rest) else EmptyString
  end.

Fixpoint lookupOr {A} (d : A) (k : string) (table : list (string * A)) : A :=
  match table with
  | [] => d
  | (k', a) :: rest => if String.eqb k' k then a else lookupOr d k rest
  end.

(** A small world: [files] lists the files that exist, each with the value
    its text parses to (a file's text is identified with its path);
    [found] gives what each glob pattern matches, and every glob resolves;
    every call into the UI succeeds. No book of this world has a previous or
    a next notebook, and its configuration is only ever read at [undefined]
    or at a number, for which [coerced_lt_zero] is not consulted. *)
Definition world (files : list (string * value)) (found : list (string * list string))
    (folders : list string) (depth : value) : Host :=
  {| path_join := String.concat "/";
     path_dirname := dirname;
     asAbsolutePath := λ p, "/ext/" +:+ p;
     fs_existsSync := λ p, bool_decide (p ∈ files.*1);
     fs_readFileSync := λ p,
       if bool_decide (p ∈ files.*1) then Ok p else Throw (JsError "ENOENT");
     yaml_safeLoad := λ text, Ok (lookupOr VUndefined text files);
     glob := λ pattern _, Ok (lookupOr [] pattern found);
     config_maxBookSearchDepth := depth;
     workspace_workspaceFolders := Some (map (λ p, {| uri := Uri_file p |}) folders);
     workspace_openTextDocument := λ p,
       if bool_decide (p ∈ files.*1) then Ok {| fileName := p |}
       else Throw (JsError "cannot open");
     window_showTextDocument := λ _, Ok tt;
     commands_showPreview := λ _, Ok tt;
     Uri_parse := λ p, Ok (Uri_file p);
     env_openExternal := λ _, Ok tt;
     coerced_lt_zero := λ _, false;
     item_previousUri := λ _, None;
     item_nextUri := λ _, None;
     item_sections := λ it, match page (book it) with VArr l => Some l | _ => None end |}.

Definition emptyWorld : Host := world [] [] [] VUndefined.

(** The same world with other answers of [glob]. *)
Definition withGlob (g : string → value → result (list string)) (h : Host) : Host :=
  {| path_join := path_join h;
     path_dirname := path_dirname h;
     asAbsolutePath := asAbsolutePath h;
     fs_existsSync := fs_existsSync h;
     fs_readFileSync := fs_readFileSync h;
     yaml_safeLoad := yaml_safeLoad h;
     glob := g;
     config_maxBookSearchDepth := config_maxBookSearchDepth h;
     workspace_workspaceFolders := workspace_workspaceFolders h;
     workspace_openTextDocument := workspace_openTextDocument h;
     window_showTextDocument := window_showTextDocument h;
     commands_showPreview := commands_showPreview h;
     Uri_parse := Uri_parse h;
     env_openExternal := env_openExternal h;
     coerced_lt_zero := coerced_lt_zero h;
     item_previousUri := item_previousUri h;
     item_nextUri := item_nextUri h;
     item_sections := item_sections h |}.

(** The same world with other answers of the two navigation getters. *)
Definition withNeighbours (previousUri nextUri : Book.BookTreeItem → option string)
    (h : Host) : Host :=
  {| path_join := path_join h;
     path_dirname := path_dirname h;
     asAbsolutePath := asAbsolutePath h;
     fs_existsSync := fs_existsSync h;
     fs_readFileSync := fs_readFileSync h;
     yaml_safeLoad := yaml_safeLoad h;
     glob := glob h;
     config_maxBookSearchDepth := config_maxBookSearchDepth h;
     workspace_workspaceFolders := workspace_workspaceFolders h;
     workspace_openTextDocument := workspace_openTextDocument h;
     window_showTextDocument := window_showTextDocument h;
     commands_showPreview := commands_showPreview h;
     Uri_parse := Uri_parse h;
     env_openExternal := env_openExternal h;
     coerced_lt_zero := coerced_lt_zero h;
     item_previousUri := previousUri;
     item_nextUri := nextUri;
     item_sections := item_sections h |}.

End Samples.

Module Debounce.
Import Book.

(** How many times the preview command was executed for [r]. *)
Definition isPreviewOf (r : string) (e : Effect) : bool :=
  match e with
  | ExecuteShowPreview u => String.eqb (fsPath u) r
  | _ => false
  end.
Definition previewCount (r : string) (t : list Effect) : nat :=
  length (List.filter (isPreviewOf r) t).

(** At most one callback is pending, and it is the one the provider holds
    the handle of. *)
Definition singleTimer (s : State) : Prop :=
  timers s = [] ∨ ∃ id a, timers s = [(id, a)] ∧ throttleTimer s = Some id.

(** The fields the debounce works on are left alone. *)
Definition sameTimers (s s' : State) : Prop :=
  timers s' = timers s ∧ throttleTimer s' = throttleTimer s
  ∧ nextTimer s' = nextTimer s ∧ resource s' = resource s.

End Debounce.

Module Discovery.
Import Book.

(** What the globs of one call bring in when each settles as [h] says: for
    each workspace path in order the matches of its pattern under [deep],
    up to the first glob that rejects, and how the call ends: fulfilled, or
    rejected with the error of that glob. *)
Fixpoint globbed (h : Host) (deep : value) (workspacePaths : list string)
  : list string * result unit :=
  match workspacePaths with
  | [] => ([], Ok tt)
  | workspacePath :: rest =>
      match glob h (tocPattern h workspacePath) deep with
      | Ok found => (found ++ (globbed h deep rest).1, (globbed h deep rest).2)
      | Throw err => ([], Throw err)
      end
  end.

Definition collected (h : Host) (workspaceFolders : list WorkspaceFolder)
  : list string * result unit :=
  globbed h (effectiveDepth h (config_maxBookSearchDepth h))
    (map (λ a, fsPath (uri a)) workspaceFolders).

(** What a call does at its end, lines 104-106, when the path list is
    [paths] by then: nothing if a glob has rejected. *)
Definition ending (paths : list string) (outcome : result unit) : list Effect :=
  match outcome with
  | Ok _ => [ExecuteSetContext "bookOpened" (0 <? length paths)%nat; FireReadAllTOCFiles]
  | Throw _ => []
  end.

(** What the one that waits for the call does once it has ended. *)
Definition reaction (awaiter : Awaiter) (outcome : result unit) : list Effect :=
  match awaiter, outcome with
  | ByConstructor, Throw err => [ConsoleLog err]
  | ByRefresh, Ok _ => [FireDidChangeTreeData]
  | _, _ => []
  end.

(** The task that a settled call leaves for the one that waits for it. *)
Definition awaited (awaiter : Awaiter) (outcome : result unit) : list Task :=
  match awaiter with
  | ByConstructor | ByRefresh => [Settled awaiter outcome]
  | ByCaller => []
  end.

(** An operation followed at once by [n] turns of what it left pending,
    each in the same world, with nothing else in between. *)
Definition uninterrupted (h : Host) (n : nat) (m : M State unit) (s : State) : State :=
  run (replicate n (h, Resumes (length (tasks s)))) (execM m s).

(** The length of the longest chain of continuations a discovery over
    [folders] leaves: one per glob and one for the reaction. *)
Definition turns (folders : list WorkspaceFolder) : nat := S (length folders).

(** The same for a [refresh] in the world [h]. *)
Definition refreshTurns (h : Host) : nat :=
  match workspace_workspaceFolders h with
  | Some folders => turns folders
  | None => 1
  end.

(** The state a call leaves once all of it has run, when its globs brought
    in [found] and it ended with [outcome]. *)
Definition finished (awaiter : Awaiter) (found : list string) (outcome : result unit)
    (s : State) : State :=
  let paths := tableOfContentPaths s ++ found in
  set_trace (trace s ++ ending paths outcome ++ reaction awaiter outcome)
    (set_tableOfContentPaths paths s).

End Discovery.

Module Loading.
Import Book.

(** The book at a table-of-contents path, or the exception raised while
    loading it. *)
Definition bookAt (h : Host) (tocPath : string) : result BookTreeItem :=
  loadBook h (path_dirname h (path_dirname h tocPath)) tocPath.

(** The message box shown for a book that failed to load. *)
Definition loadError (h : Host) (tocPath : string) (e : exn) : Effect :=
  ShowErrorMessage
    (localize "openConfigFileError" "Open file {0} failed: {1}"
       [VStr (path_join h [path_dirname h (path_dirname h tocPath); "_config.yml"]);
        errorText e]).

(** The books that load, and the messages for those that do not, both in
    the order of the paths. *)
Definition loadedBooks (h : Host) (paths : list string) : list BookTreeItem :=
  flat_map (λ p, match bookAt h p with Ok b => [b] | Throw _ => [] end) paths.
Definition loadErrors (h : Host) (paths : list string) : list Effect :=
  flat_map (λ p, match bookAt h p with Ok _ => [] | Throw e => [loadError h p e] end) paths.

End Loading.

Module Cache.
Import Book.

(** The path under which [getSections] records a notebook item: the
    [.ipynb] file of its page. *)
Definition notebookPath (h : Host) (it : BookTreeItem) : string :=
  match getProp (page (book it)) "url" with
  | Ok (VStr u) => path_join h [root (book it); "content"; u +:+ ".ipynb"]
  | _ => EmptyString
  end.

Definition isNotebook (it : BookTreeItem) : bool :=
  bool_decide (type (book it) = TyNotebook).

(** [this._allNotebooks.set(path, it)] for each of [items] in turn. *)
Definition recordAll (h : Host) (items : list BookTreeItem)
    (m : gmap string BookTreeItem) : gmap string BookTreeItem :=
  foldl (λ m it, <[notebookPath h it := it]> m) m items.

(** Every key of the cache is still a key afterwards. *)
Definition cacheGrows (s s' : State) : Prop :=
  ∀ k, is_Some (allNotebooks s !! k) → is_Some (allNotebooks s' !! k).

End Cache.

Module Scenario.
Import Book.

(** A workspace [/ws] with a book at [/ws/book] whose one page [intro]
    exists as a notebook and as a markdown file, and a second table of
    contents at [/ws/draft] that has no [_config.yml]. *)
Definition introSection : value :=
  VObj [("title", VStr "Introduction"); ("url", VStr "intro")].
Definition bookWorld : Host :=
  Samples.world
    [("/ws/book/_config.yml", VObj [("title", VStr "Handbook")]);
     ("/ws/book/_data/toc.yml", VArr [introSection]);
     ("/ws/book/content/intro.ipynb", VUndefined);
     ("/ws/book/content/intro.md", VUndefined);
     ("/ws/draft/_data/toc.yml", VArr [])]
    [("/ws/**/_data/toc.yml", ["/ws/draft/_data/toc.yml"; "/ws/book/_data/toc.yml"])]
    ["/ws"] (VNum 0).
Definition introPath : string := "/ws/book/content/intro.ipynb".

(** The same world when every notebook item answers that the preface comes
    before it and, with an empty string, that nothing comes after it. *)
Definition prefacePath : string := "/ws/book/content/preface.ipynb".
Definition readerWorld : Host :=
  Samples.withNeighbours (λ _, Some prefacePath) (λ _, Some EmptyString) bookWorld.

(** The provider after it has listed the sections of that book. *)
Definition afterListing : State :=
  execM (getSections bookWorld [introSection] [introSection] "/ws/book") initialState.

End Scenario.

Module Pages.

(** An escaping function, for the three characters HTML gives a meaning
    to. *)
Fixpoint escapeHtml (s : string) : string :=
  match s with
  | EmptyString => EmptyString
  | String c rest =>
      (if Ascii.eqb c "<"%char then "&lt;"
       else if Ascii.eqb c ">"%char then "&gt;"
       else if Ascii.eqb c "&"%char then "&amp;"
       else String c EmptyString) +:+ escapeHtml rest
  end.

(** Two bundles: the default messages, and one that knows the welcome
    page's keys only. *)
Definition defaults (k d : string) : string := d.
Definition welcomeOnly (k d : string) : string :=
  if String.prefix "welcomePage." k then d else "<missing>".

Definition mediaUrl (p : string) : string := "file:///media/" +:+ p.

End Pages.

Module Browsers.
Import JsonClient.

(** A browser without worker support. *)
Definition noWorkers : Browser :=
  {| asAbsolutePath := λ p, Ok ("/ext/" +:+ p);
     newWorker := λ _, Throw (JsError "Worker is not defined");
     fetch := λ _ _, Throw (JsError "offline");
     startClient := λ _ _, Ok tt |}.

End Browsers.

Module Flatten.
Import Book.

(** An element that [concat] appends as it is and whose [sections] can be
    read: anything but [undefined], [null] and an array. *)
Definition isEntry (v : value) : bool :=
  match v with
  | VUndefined | VNull | VArr _ => false
  | _ => true
  end.

(** [Array.isArray(v.sections)] *)
Definition hasArraySections (v : value) : bool :=
  match getProp v "sections" with
  | Ok (VArr _) => true
  | _ => false
  end.

(** The flattened [sections] of an object with these fields. *)
Definition flattenedSections (fields : list (string * value)) : result (list value) :=
  match assoc "sections" fields with
  | Some (VArr elems) => flattenList elems
  | _ => Ok []
  end.

End Flatten.

Module Separation.
Import Book.

(** The operations that end in [runThrottledAction] or in a timer callback. *)
Definition usesDebounce (op : Op) : bool :=
  match op with
  | CallOpenMarkdown _ | TimerFires _ => true
  | _ => false
  end.

(** The operations that end in [getTableOfContentFiles], and the
    continuations, which carry on what such an operation has started. *)
Definition discovers (op : Op) : bool :=
  match op with
  | CallRefresh | CallGetTableOfContentFiles _ | WorkspaceFoldersChanged
  | Resumes _ => true
  | _ => false
  end.

(** The operation that may end in [getSections]. *)
Definition listsSections (op : Op) : bool :=
  match op with
  | CallGetChildren (Some _) => true
  | _ => false
  end.

Definition isPreview (e : Effect) : bool :=
  match e with
  | ExecuteShowPreview _ => true
  | _ => false
  end.

(** How many times the preview command was executed, for any resource. *)
Definition previews (t : list Effect) : nat := length (List.filter isPreview t).

Definition isOpen (op : Op) : nat :=
  match op with CallOpenMarkdown _ => 1 | _ => 0 end.

(** How many of the steps are calls of [openMarkdown]. *)
Definition opens (steps : list (Host * Op)) : nat :=
  length (List.filter (λ step, match step.2 with CallOpenMarkdown _ => true | _ => false end)
            steps).

(** Effects are only appended, and none of them is a preview. *)
Definition noPreview (s s' : State) : Prop :=
  ∃ t, trace s' = trace s ++ t ∧ previews t = 0.

Definition hasBackslash (s : string) : bool :=
  existsb (Ascii.eqb backslash) (list_ascii_of_string s).

End Separation.

Module Fields.
Import Book.

(** A field reads the same before and after. *)
Definition sameField {A} (field : State → A) (s s' : State) : Prop :=
  field s' = field s.

End Fields.

Module Markup.

(** How often a character occurs in a string. *)
Fixpoint countChar (c : ascii) (s : string) : nat :=
  match s with
  | EmptyString => 0
  | String c' rest => (if Ascii.eqb c' c then 1 else 0) + countChar c rest
  end.

(** A bundle that tries to add markup. *)
Definition hostile (k d : string) : string := "<script>" +:+ d +:+ "</script>".

End Markup.

(** * Properties *)

(** ** Running monadic code *)

Lemma execM_bind {S A B} (m : M S A) (k : A → M S B) (s : S) :
  execM (m ≫= k) s =
  match m s with
  | (Ok a, s') => execM (k a) s'
  | (Throw _, s') => s'
  end.
Proof.
  unfold execM, mbind, M_bind. destruct (m s) as [[a|e] s']; reflexivity.
Qed.

Lemma evalM_bind {S A B} (m : M S A) (k : A → M S B) (s : S) :
  evalM (m ≫= k) s =
  match m s with
  | (Ok a, s') => evalM (k a) s'
  | (Throw e, _) => Throw e
  end.
Proof.
  unfold evalM, mbind, M_bind. destruct (m s) as [[a|e] s']; reflexivity.
Qed.

Section Keeps.
Context {S : Type} (R : S → S → Prop) `{!Reflexive R} `{!Transitive R}.

Lemma keeps_ret {A} (a : A) : keeps R (mret a).
Proof. intros s. reflexivity. Qed.

Lemma keeps_liftResult {A} (r : result A) : keeps R (liftResult r).
Proof. intros s. reflexivity. Qed.

Lemma keeps_getState : keeps R getState.
Proof. intros s. reflexivity. Qed.

Lemma keeps_modifyState (f : S → S) : (∀ s, R s (f s)) → keeps R (modifyState f).
Proof. intros Hf s. apply Hf. Qed.

Lemma keeps_bind {A B} (m : M S A) (k : A → M S B) :
  keeps R m → (∀ a, keeps R (k a)) → keeps R (m ≫= k).
Proof.
  intros Hm Hk s. rewrite execM_bind.
  specialize (Hm s). unfold execM in Hm.
  destruct (m s) as [[a|e] s']; simpl in Hm; [|exact Hm].
  etransitivity; [exact Hm | apply Hk].
Qed.

Lemma keeps_tryCatch {A} (m : M S A) (handler : exn → M S A) :
  keeps R m → (∀ e, keeps R (handler e)) → keeps R (tryCatch m handler).
Proof.
  intros Hm Hh s. unfold execM, tryCatch.
  specialize (Hm s). unfold execM in Hm.
  destruct (m s) as [[a|e] s']; simpl in *; [exact Hm|].
  etransitivity; [exact Hm | apply Hh].
Qed.

End Keeps.

(** ** Frame properties of the provider's operations *)

Module BookFrames.
Import Book.

Section Frames.
Context (R : State → State → Prop) `{!Reflexive R} `{!Transitive R}.
Hypothesis R_trace : ∀ t s, R s (set_trace t s).
Hypothesis R_paths : ∀ l s, R s (set_tableOfContentPaths l s).
Hypothesis R_cache : ∀ k v s, R s (set_allNotebooks (<[k:=v]> (allNotebooks s)) s).
Hypothesis R_tasks : ∀ l s, R s (set_tasks l s).

Lemma keeps_emit e : keeps R (emit e).
Proof. apply keeps_modifyState; auto. Qed.

Lemma keeps_showErrorMessage m : keeps R (showErrorMessage m).
Proof. apply keeps_emit. Qed.

Lemma keeps_suspend t : keeps R (suspend t).
Proof. apply keeps_modifyState; auto. Qed.

Lemma keeps_settle awaiter outcome : keeps R (settle awaiter outcome).
Proof. destruct awaiter; cbn [settle]; first [apply keeps_suspend | apply (keeps_ret R)]. Qed.

Ltac keeps_step :=
  first [ apply (keeps_bind R); [|intros ?]
        | apply (keeps_tryCatch R); [|intros ?]
        | apply (keeps_ret R)
        | apply (keeps_liftResult R)
        | apply (keeps_getState R)
        | apply keeps_emit
        | apply keeps_showErrorMessage
        | apply (keeps_modifyState R); solve [auto] ].

Lemma keeps_discoverFrom h deep ws awaiter : keeps R (discoverFrom h deep ws awaiter).
Proof.
  destruct ws as [|w ws]; cbn [discoverFrom]; [|apply keeps_suspend].
  apply (keeps_bind R); [keeps_step | intros s].
  apply (keeps_bind R); [keeps_step | intros _].
  apply (keeps_bind R); [keeps_step | intros _].
  apply keeps_settle.
Qed.

Lemma keeps_getTableOfContentFiles h folders awaiter :
  keeps R (getTableOfContentFiles h folders awaiter).
Proof. apply keeps_discoverFrom. Qed.

Lemma keeps_refresh h : keeps R (refresh h).
Proof.
  unfold refresh.
  apply (keeps_bind R); [keeps_step | intros _].
  destruct (workspace_workspaceFolders h);
    [apply keeps_getTableOfContentFiles | apply keeps_settle].
Qed.

Lemma keeps_resumeTask h t : keeps R (resumeTask h t).
Proof.
  destruct t as [pattern deep rest awaiter | awaiter [[]|err]]; cbn [resumeTask].
  - destruct (glob h pattern deep) as [found|err]; [|apply keeps_settle].
    apply (keeps_bind R); [keeps_step | intros _; apply keeps_discoverFrom].
  - destruct awaiter; keeps_step.
  - destruct awaiter; keeps_step.
Qed.

Lemma keeps_resume h i : keeps R (resume h i).
Proof.
  unfold resume.
  apply (keeps_bind R); [keeps_step | intros s].
  destruct (tasks s !! i) as [t|]; [|keeps_step].
  apply (keeps_bind R); [keeps_step | intros _; apply keeps_resumeTask].
Qed.

Lemma keeps_openNotebook h r : keeps R (openNotebook h r).
Proof. unfold openNotebook. repeat keeps_step. Qed.

Lemma keeps_openExternalLink h r : keeps R (openExternalLink h r).
Proof. unfold openExternalLink. repeat keeps_step. Qed.

Lemma keeps_runAction h a : keeps R (runAction h a).
Proof. destruct a. unfold runAction. repeat keeps_step. Qed.

Lemma keeps_getBooksFrom h paths books : keeps R (getBooksFrom h paths books).
Proof.
  revert books. induction paths as [|p paths IH]; intros books; simpl.
  - keeps_step.
  - apply (keeps_bind R); [|intros ?; apply IH]. repeat keeps_step.
Qed.

Lemma keeps_getBooks h : keeps R (getBooks h).
Proof.
  unfold getBooks. apply (keeps_bind R); [keeps_step|].
  intros s. apply keeps_getBooksFrom.
Qed.

Lemma keeps_visitSection h toc root section : keeps R (visitSection h toc root section).
Proof.
  unfold visitSection.
  apply (keeps_bind R); [keeps_step | intros url].
  destruct (truthy url); [|keeps_step].
  apply (keeps_bind R); [keeps_step | intros ext].
  destruct (truthy ext); [repeat keeps_step|].
  apply (keeps_bind R); [keeps_step | intros ipynb].
  apply (keeps_bind R); [keeps_step | intros md].
  destruct (fs_existsSync h _); [|destruct (fs_existsSync h _)]; repeat keeps_step.
Qed.

Lemma keeps_getSectionsFrom h toc root sections notebooks :
  keeps R (getSectionsFrom h toc root sections notebooks).
Proof.
  revert notebooks. induction sections as [|x sections IH]; intros notebooks; simpl.
  - keeps_step.
  - apply (keeps_bind R); [apply keeps_visitSection | intros ?; apply IH].
Qed.

Lemma keeps_getChildren h element : keeps R (getChildren h element).
Proof.
  destruct element as [element|]; simpl; [|apply keeps_getBooks].
  destruct (item_sections h element); [apply keeps_getSectionsFrom | keeps_step].
Qed.

End Frames.
End BookFrames.

(** ** The debounce of openMarkdown *)

Module DebounceFacts.
Import Book Debounce.

Global Instance sameTimers_refl : Reflexive sameTimers.
Proof. intros s. repeat split. Qed.

Global Instance sameTimers_trans : Transitive sameTimers.
Proof.
  intros a b c (H1 & H2 & H3 & H4) (K1 & K2 & K3 & K4).
  repeat split; congruence.
Qed.

Lemma runAction_sameTimers h a : keeps sameTimers (runAction h a).
Proof. apply BookFrames.keeps_runAction; try apply _; intros; repeat split. Qed.

(** What one call of [openMarkdown] does to the state. *)
Lemma openMarkdown_exec h r s :
  execM (openMarkdown h r) s =
  if resourceIs (resource s) r then
    match throttleTimer s with
    | None =>
        set_throttleTimer (Some (nextTimer s))
          (set_timers (timers s ++ [(nextTimer s, PreviewMarkdown r)]) (S (nextTimer s))
             (set_resource (Some r) s))
    | Some _ => set_resource (Some r) s
    end
  else
    execM (runAction h (PreviewMarkdown r))
      (set_resource (Some r)
         (set_throttleTimer None (execM (clearTimeout (throttleTimer s)) s))).
Proof.
  unfold openMarkdown, runThrottledAction, execM.
  unfold mbind, M_bind, getState at 1.
  destruct (resourceIs (resource s) r); cbn.
  - destruct (throttleTimer s); reflexivity.
  - destruct (throttleTimer s) as [id|]; cbn; reflexivity.
Qed.

Lemma clearTimeout_single s :
  singleTimer s → timers (execM (clearTimeout (throttleTimer s)) s) = [].
Proof.
  intros [Hnil | (id & a & Ht & Hid)].
  - destruct (throttleTimer s); cbn; [rewrite Hnil|]; done.
  - rewrite Hid. cbn. rewrite Ht. cbn. rewrite decide_False by tauto. done.
Qed.

Lemma openMarkdown_single h r s :
  singleTimer s → singleTimer (execM (openMarkdown h r) s).
Proof.
  intros Hs. rewrite openMarkdown_exec.
  destruct (resourceIs (resource s) r).
  - destruct Hs as [Hnil | (id & a & Ht & Hid)].
    + destruct (throttleTimer s); [left; exact Hnil|].
      right. exists (nextTimer s), (PreviewMarkdown r). cbn. rewrite Hnil. done.
    + rewrite Hid. right. exists id, a. done.
  - left.
    destruct (runAction_sameTimers h (PreviewMarkdown r)
                (set_resource (Some r)
                   (set_throttleTimer None (execM (clearTimeout (throttleTimer s)) s))))
      as (-> & _).
    cbn. by apply clearTimeout_single.
Qed.

Lemma fireTimer_single h id s :
  singleTimer s → singleTimer (execM (fireTimer h id) s).
Proof.
  intros Hs. unfold fireTimer. rewrite execM_bind. cbn.
  destruct (list_find _ (timers s)) as [[i [id' a]]|] eqn:Hfind; [|exact Hs].
  left. rewrite execM_bind. cbn.
  destruct (runAction_sameTimers h a
              (set_timers (filter (λ p, p.1 ≠ id) (timers s)) (nextTimer s) s))
    as (-> & _).
  cbn. apply list_find_Some in Hfind as (Hl & Heq & _). cbn in Heq. subst id'.
  destruct Hs as [Hnil | (id0 & a0 & Ht & Hid)].
  - by rewrite Hnil.
  - rewrite Ht in Hl |- *. destruct i; [|by destruct i].
    cbn in Hl. injection Hl as -> ->. cbn. rewrite decide_False by tauto. done.
Qed.

Lemma sameTimers_single s s' : sameTimers s s' → singleTimer s → singleTimer s'.
Proof.
  intros (Ht & Hid & _) [Hnil | (id & a & H1 & H2)].
  - left. congruence.
  - right. exists id, a. split; congruence.
Qed.

Lemma perform_single h op s :
  singleTimer s → singleTimer (execM (perform h op) s).
Proof.
  intros Hs.
  assert (Hframe : ∀ A (m : M State A), keeps sameTimers m → singleTimer (execM m s))
    by (intros A m Hm; eapply sameTimers_single; [apply Hm | exact Hs]).
  assert (Ht : ∀ t s0, sameTimers s0 (set_trace t s0)) by (intros; repeat split).
  assert (Hp : ∀ l s0, sameTimers s0 (set_tableOfContentPaths l s0)) by (intros; repeat split).
  assert (Hc : ∀ k v s0, sameTimers s0 (set_allNotebooks (<[k:=v]> (allNotebooks s0)) s0))
    by (intros; repeat split).
  assert (Hk : ∀ l s0, sameTimers s0 (set_tasks l s0)) by (intros; repeat split).
  destruct op; cbn [perform]; try exact Hs.
  - apply Hframe, BookFrames.keeps_refresh; auto; apply _.
  - apply Hframe, BookFrames.keeps_getTableOfContentFiles; auto; apply _.
  - apply Hframe, BookFrames.keeps_openNotebook; auto; apply _.
  - by apply openMarkdown_single.
  - apply Hframe, BookFrames.keeps_openExternalLink; auto; apply _.
  - apply Hframe. apply (keeps_bind sameTimers); [|intros; apply (keeps_ret sameTimers)].
    apply BookFrames.keeps_getChildren; auto; apply _.
  - apply Hframe. apply (keeps_bind sameTimers); [|intros; apply (keeps_ret sameTimers)].
    apply BookFrames.keeps_getBooks; auto; apply _.
  - apply Hframe, BookFrames.keeps_refresh; auto; apply _.
  - by apply fireTimer_single.
  - apply Hframe, BookFrames.keeps_resume; auto; apply _.
Qed.

Lemma run_single steps s : singleTimer s → singleTimer (run steps s).
Proof.
  revert s. induction steps as [|[h op] steps IH]; intros s Hs; cbn; [exact Hs|].
  apply IH, perform_single, Hs.
Qed.

Lemma reachable_single steps : singleTimer (run steps initialState).
Proof. apply run_single. by left. Qed.

Lemma singleTimer_length s : singleTimer s → (length (timers s) ≤ 1)%nat.
Proof. intros [-> | (id & a & -> & _)]; cbn; lia. Qed.

End DebounceFacts.

Module DebounceClaims.
Import Book Debounce DebounceFacts.

Lemma previewCount_app r t1 t2 :
  previewCount r (t1 ++ t2) = previewCount r t1 + previewCount r t2.
Proof. unfold previewCount. by rewrite List.filter_app, List.length_app. Qed.

Lemma runAction_previewCount h r s :
  previewCount r (trace (execM (runAction h (PreviewMarkdown r)) s))
  = S (previewCount r (trace s)).
Proof.
  unfold runAction, execM, tryCatch, mbind, M_bind, showErrorMessage, emit,
    modifyState, liftResult.
  destruct (commands_showPreview h (Uri_file r)); cbn [snd trace set_trace];
    rewrite ?previewCount_app; unfold previewCount; cbn [List.filter isPreviewOf length fsPath Uri_file];
    rewrite String.eqb_refl; cbn; lia.
Qed.

Lemma resourceIs_after h r s :
  resourceIs (resource (execM (openMarkdown h r) s)) r = true.
Proof.
  rewrite openMarkdown_exec.
  destruct (resourceIs (resource s) r) eqn:E.
  - destruct (throttleTimer s); cbn; apply String.eqb_refl.
  - destruct (runAction_sameTimers h (PreviewMarkdown r)
                (set_resource (Some r)
                   (set_throttleTimer None (execM (clearTimeout (throttleTimer s)) s))))
      as (_ & _ & _ & ->).
    cbn. apply String.eqb_refl.
Qed.

Lemma fireTimer_pending h id a s :
  timers s = [(id, a)] →
  execM (fireTimer h id) s = execM (runAction h a) (set_timers [] (nextTimer s) s).
Proof.
  intros Ht. unfold fireTimer. rewrite execM_bind.
  cbn [getState]. rewrite Ht. cbn.
  rewrite decide_True by done. cbn.
  rewrite execM_bind. cbn [modifyState]. rewrite Ht.
  cbn. rewrite decide_False by tauto. reflexivity.
Qed.

(** C7. The debounce is a single-timer mechanism. In every state [s] the
    provider can reach (by any sequence of method calls, listener events and
    timer callbacks, each against any world) at most one debounce timer is
    pending. A further [openMarkdown(r)] leaves no timer pending when [r] is
    a change of resource (it clears the pending one), and otherwise either
    leaves the pending timers as they are or, none being pending, schedules
    the single one. *)
Theorem debounce_single_timer (steps : list (Host * Op)) (h : Host) (r : string) :
  let s := run steps initialState in
  let s' := execM (openMarkdown h r) s in
  (length (timers s) ≤ 1)%nat ∧
  (length (timers s') ≤ 1)%nat ∧
  if resourceIs (resource s) r
  then timers s' = timers s
       ∨ (timers s = [] ∧ timers s' = [(nextTimer s, PreviewMarkdown r)])
  else timers s' = [].
Proof.
  intros s s'.
  pose proof (reachable_single steps) as Hs. fold s in Hs.
  split; [by apply singleTimer_length|].
  split; [by apply singleTimer_length, openMarkdown_single|].
  subst s'. rewrite openMarkdown_exec.
  destruct (resourceIs (resource s) r).
  - destruct Hs as [Hnil | (id & a & Ht & Hid)].
    + destruct (throttleTimer s); [by left|].
      right. cbn. rewrite Hnil. done.
    + rewrite Hid. by left.
  - destruct (runAction_sameTimers h (PreviewMarkdown r)
                (set_resource (Some r)
                   (set_throttleTimer None (execM (clearTimeout (throttleTimer s)) s))))
      as (-> & _).
    cbn. by apply clearTimeout_single.
Qed.

(** C1, as the code has it. Of two successive [openMarkdown(r)] calls with
    the same [r], made in any reachable state, the second never executes
    the preview action itself, and at most one timer is pending afterwards.
    When [r] is not the provider's current resource, the first call executes
    the action at once and the second schedules one more execution, so the
    action has run twice once that timer has fired. When [r] is the current
    resource, neither call executes the action itself. *)
Theorem openMarkdown_twice (steps : list (Host * Op)) (h1 h2 h3 : Host) (r : string) :
  let s := run steps initialState in
  let s1 := execM (openMarkdown h1 r) s in
  let s2 := execM (openMarkdown h2 r) s1 in
  trace s2 = trace s1 ∧
  (length (timers s2) ≤ 1)%nat ∧
  if resourceIs (resource s) r
  then trace s1 = trace s
  else previewCount r (trace s1) = S (previewCount r (trace s))
       ∧ timers s2 = [(nextTimer s1, PreviewMarkdown r)]
       ∧ previewCount r (trace (execM (fireTimer h3 (nextTimer s1)) s2))
         = S (S (previewCount r (trace s))).
Proof.
  intros s s1 s2.
  pose proof (reachable_single steps) as Hs. fold s in Hs.
  assert (Hs1 : singleTimer s1) by (by apply openMarkdown_single).
  assert (Hr1 : resourceIs (resource s1) r = true) by apply resourceIs_after.
  assert (Htrace2 : trace s2 = trace s1).
  { subst s2. rewrite openMarkdown_exec, Hr1. by destruct (throttleTimer s1). }
  split; [exact Htrace2|].
  split; [by apply singleTimer_length, openMarkdown_single|].
  destruct (resourceIs (resource s) r) eqn:E.
  - subst s1. rewrite openMarkdown_exec, E. by destruct (throttleTimer s).
  - set (s0 := set_resource (Some r)
                 (set_throttleTimer None (execM (clearTimeout (throttleTimer s)) s))).
    assert (Es1 : s1 = execM (runAction h1 (PreviewMarkdown r)) s0)
      by (subst s1; by rewrite openMarkdown_exec, E).
    destruct (runAction_sameTimers h1 (PreviewMarkdown r) s0) as (Ht & Hid & Hn & _).
    rewrite <- Es1 in Ht, Hid, Hn.
    assert (Ht1 : timers s1 = []) by (rewrite Ht; cbn; by apply clearTimeout_single).
    assert (Hid1 : throttleTimer s1 = None) by (by rewrite Hid).
    assert (Hc1 : previewCount r (trace s1) = S (previewCount r (trace s))).
    { rewrite Es1, runAction_previewCount. subst s0. cbn.
      by destruct (throttleTimer s). }
    split; [exact Hc1|].
    assert (Es2 : s2 = set_throttleTimer (Some (nextTimer s1))
                         (set_timers [(nextTimer s1, PreviewMarkdown r)] (S (nextTimer s1))
                            (set_resource (Some r) s1))).
    { subst s2. by rewrite openMarkdown_exec, Hr1, Hid1, Ht1. }
    split; [by rewrite Es2|].
    rewrite (fireTimer_pending h3 (nextTimer s1) (PreviewMarkdown r) s2)
      by (by rewrite Es2).
    rewrite runAction_previewCount. cbn [trace set_timers].
    by rewrite Htrace2, Hc1.
Qed.

(** C1, counterexample. On a fresh provider, two successive
    [openMarkdown("readme.md")] calls execute the preview once at the first
    call and leave a timer pending; when it fires the preview is executed a
    second time. *)
Lemma openMarkdown_twice_previews_twice :
  let twice := [(Samples.emptyWorld, CallOpenMarkdown "readme.md");
                (Samples.emptyWorld, CallOpenMarkdown "readme.md")] in
  previewCount "readme.md" (trace (run twice initialState)) = 1
  ∧ timers (run twice initialState) = [(1, PreviewMarkdown "readme.md")]
  ∧ previewCount "readme.md"
      (trace (run (twice ++ [(Samples.emptyWorld, TimerFires 1)]) initialState)) = 2.
Proof. repeat split. Qed.

End DebounceClaims.

(** ** Discovery of the tables of contents *)

Module DiscoveryFacts.
Import Book Discovery.

Lemma set_tasks_same s : set_tasks (tasks s) s = s.
Proof. by destruct s. Qed.

Lemma set_trace_unchanged s : set_trace (trace s) s = s.
Proof. by destruct s. Qed.

(** *** One turn *)

Lemma settle_run awaiter outcome s :
  settle awaiter outcome s = (Ok tt, set_tasks (tasks s ++ awaited awaiter outcome) s).
Proof.
  destruct awaiter; cbn; try reflexivity.
  by rewrite app_nil_r, set_tasks_same.
Qed.

Lemma discoverFrom_run h deep ws awaiter s :
  discoverFrom h deep ws awaiter s =
  (Ok tt,
   match ws with
   | w :: rest => set_tasks (tasks s ++ [GlobPending (tocPattern h w) deep rest awaiter]) s
   | [] =>
       set_tasks (tasks s ++ awaited awaiter (Ok tt))
         (set_trace (trace s ++ ending (tableOfContentPaths s) (Ok tt)) s)
   end).
Proof.
  destruct ws as [|w rest]; [|reflexivity].
  unfold discoverFrom, mbind, M_bind, getState, emit, modifyState.
  rewrite settle_run. cbn. by rewrite <- app_assoc.
Qed.

Lemma resumeTask_glob h pattern deep rest awaiter s :
  resumeTask h (GlobPending pattern deep rest awaiter) s =
  match glob h pattern deep with
  | Ok found =>
      discoverFrom h deep rest awaiter
        (set_tableOfContentPaths (tableOfContentPaths s ++ found) s)
  | Throw err => settle awaiter (Throw err) s
  end.
Proof. cbn [resumeTask]. by destruct (glob h pattern deep). Qed.

Lemma resumeTask_settled h awaiter outcome s :
  resumeTask h (Settled awaiter outcome) s =
  (Ok tt, set_trace (trace s ++ reaction awaiter outcome) s).
Proof.
  destruct awaiter, outcome as [[]|err]; cbn; try reflexivity;
    by rewrite app_nil_r, set_trace_unchanged.
Qed.

Lemma resume_at h i t s :
  tasks s !! i = Some t →
  resume h i s = resumeTask h t (set_tasks (delete i (tasks s)) s).
Proof. intros Ht. unfold resume, mbind, M_bind, getState. by rewrite Ht. Qed.

Lemma resume_idle h i s : tasks s !! i = None → resume h i s = (Ok tt, s).
Proof. intros Ht. unfold resume, mbind, M_bind, getState. by rewrite Ht. Qed.

(** *** A call and its continuations with nothing in between *)

Lemma run_idle h i n s :
  tasks s !! i = None → run (replicate n (h, Resumes i)) s = s.
Proof.
  intros Ht. induction n as [|n IH]; [done|].
  cbn [replicate run perform]. unfold execM. by rewrite resume_idle.
Qed.

(** The newest task runs and nothing older moves. *)
Lemma resume_last h t s :
  resume h (length (tasks s)) (set_tasks (tasks s ++ [t]) s) = resumeTask h t s.
Proof.
  rewrite (resume_at h _ t); [|apply list_lookup_middle; done].
  cbn [tasks set_tasks]. rewrite delete_middle, app_nil_r.
  f_equal. by destruct s.
Qed.

Lemma settle_alone h awaiter outcome s n :
  (1 ≤ n)%nat →
  run (replicate n (h, Resumes (length (tasks s)))) (execM (settle awaiter outcome) s)
  = set_trace (trace s ++ reaction awaiter outcome) s.
Proof.
  intros Hn. unfold execM. rewrite settle_run. cbn [snd].
  assert (Hcaller : reaction ByCaller outcome = []) by (by destruct outcome).
  destruct awaiter; cbn [awaited].
  3: { rewrite app_nil_r, set_tasks_same, Hcaller, app_nil_r, set_trace_unchanged.
       apply run_idle, lookup_ge_None_2. lia. }
  all: destruct n as [|n]; [lia|]; cbn [replicate run perform]; unfold execM;
    rewrite resume_last, resumeTask_settled; cbn [snd];
    apply run_idle, lookup_ge_None_2; cbn; lia.
Qed.

Lemma discoverFrom_alone h deep ws awaiter s n :
  (length ws < n)%nat →
  run (replicate n (h, Resumes (length (tasks s)))) (execM (discoverFrom h deep ws awaiter) s)
  = finished awaiter (globbed h deep ws).1 (globbed h deep ws).2 s.
Proof.
  revert s n. induction ws as [|w rest IH]; intros s n Hn.
  - unfold execM. rewrite discoverFrom_run. cbn [snd globbed fst].
    pose proof (settle_alone h awaiter (Ok tt)
      (set_trace (trace s ++ ending (tableOfContentPaths s) (Ok tt)) s) n) as Hs.
    unfold execM in Hs. rewrite settle_run in Hs. cbn [snd tasks set_trace] in Hs.
    rewrite Hs by (cbn in Hn; lia).
    unfold finished. cbn. rewrite app_nil_r. destruct s; cbn. by rewrite <- app_assoc.
  - unfold execM. rewrite discoverFrom_run. cbn [snd].
    destruct n as [|n]; [cbn in Hn; lia|].
    cbn [replicate run perform]. unfold execM at 1.
    rewrite resume_last, resumeTask_glob. cbn [globbed].
    destruct (glob h (tocPattern h w) deep) as [found|err].
    + specialize (IH (set_tableOfContentPaths (tableOfContentPaths s ++ found) s) n).
      unfold execM in IH. cbn [tasks set_tableOfContentPaths] in IH.
      rewrite IH by (cbn in Hn; lia).
      unfold finished. cbn. rewrite <- !app_assoc. done.
    + pose proof (settle_alone h awaiter (Throw err) s n) as Hs.
      unfold execM in Hs. rewrite Hs by (cbn in Hn; lia).
      unfold finished. cbn. rewrite app_nil_r. by destruct s.
Qed.

Lemma getTableOfContentFiles_alone h folders awaiter s n :
  (turns folders ≤ n)%nat →
  uninterrupted h n (getTableOfContentFiles h folders awaiter) s
  = finished awaiter (collected h folders).1 (collected h folders).2 s.
Proof.
  intros Hn. unfold uninterrupted, getTableOfContentFiles, collected.
  apply discoverFrom_alone. unfold turns in Hn. rewrite length_map. lia.
Qed.

Lemma refresh_alone h s n :
  (refreshTurns h ≤ n)%nat →
  uninterrupted h n (refresh h) s
  = match workspace_workspaceFolders h with
    | Some folders =>
        finished ByRefresh (collected h folders).1 (collected h folders).2
          (set_tableOfContentPaths [] s)
    | None => set_tableOfContentPaths [] s
    end.
Proof.
  unfold refreshTurns. intros Hn.
  unfold uninterrupted, refresh. rewrite execM_bind. cbn [modifyState].
  destruct (workspace_workspaceFolders h) as [folders|].
  - by apply (getTableOfContentFiles_alone h folders ByRefresh (set_tableOfContentPaths [] s)).
  - pose proof (settle_alone h ByRefresh (Throw TypeError)
                  (set_tableOfContentPaths [] s) n Hn) as Hs.
    cbn [tasks set_tableOfContentPaths] in Hs. unfold execM in Hs |- *.
    rewrite Hs. cbn. rewrite app_nil_r. by destruct s.
Qed.


Lemma globbed_resolved h deep (folders : list WorkspaceFolder) founds :
  Forall2 (λ a found, glob h (tocPattern h (fsPath (uri a))) deep = Ok found) folders founds →
  globbed h deep (map (λ a, fsPath (uri a)) folders) = (concat founds, Ok tt).
Proof.
  induction 1 as [|a found folders founds Ha _ IH]; [done|].
  cbn [map globbed concat]. by rewrite Ha, IH.
Qed.

(** What a turn of a pending glob does, whatever the state by then. *)
Lemma resume_glob h i pattern deep rest awaiter s :
  tasks s !! i = Some (GlobPending pattern deep rest awaiter) →
  execM (resume h i) s =
  match glob h pattern deep with
  | Ok found =>
      let paths := tableOfContentPaths s ++ found in
      match rest with
      | w :: rest' =>
          set_tasks (delete i (tasks s) ++ [GlobPending (tocPattern h w) deep rest' awaiter])
            (set_tableOfContentPaths paths s)
      | [] =>
          set_tasks (delete i (tasks s) ++ awaited awaiter (Ok tt))
            (set_trace (trace s ++ ending paths (Ok tt)) (set_tableOfContentPaths paths s))
      end
  | Throw err => set_tasks (delete i (tasks s) ++ awaited awaiter (Throw err)) s
  end.
Proof.
  intros Ht. unfold execM. rewrite (resume_at h i _ s Ht), resumeTask_glob.
  destruct (glob h pattern deep) as [found|err].
  - rewrite discoverFrom_run. by destruct rest.
  - by rewrite settle_run.
Qed.

(** A turn writes neither the cache nor the debounce fields, whatever is
    pending. *)
Lemma resume_exec h i s :
  ∃ paths effects pending,
    execM (resume h i) s
    = set_tasks pending (set_trace (trace s ++ effects) (set_tableOfContentPaths paths s)).
Proof.
  assert (Hsame : ∀ pending, set_tasks pending s
     = set_tasks pending (set_trace (trace s ++ []) (set_tableOfContentPaths (tableOfContentPaths s) s)))
    by (intros; rewrite app_nil_r; by destruct s).
  unfold execM. destruct (tasks s !! i) as [t|] eqn:Ht.
  - rewrite (resume_at h i t s Ht).
    destruct t as [pattern deep rest awaiter|awaiter outcome].
    + rewrite resumeTask_glob. destruct (glob h pattern deep) as [found|err].
      * rewrite discoverFrom_run. destruct rest as [|w rest]; cbn [snd].
        -- by eexists _, _, _.
        -- exists (tableOfContentPaths s ++ found), [], 
             (delete i (tasks s) ++ [GlobPending (tocPattern h w) deep rest awaiter]).
           rewrite app_nil_r. by destruct s.
      * rewrite settle_run. cbn [snd tasks set_tasks]. eexists _, _, _.
        etransitivity; [|apply Hsame]. by destruct s.
    + rewrite resumeTask_settled. cbn [snd].
      exists (tableOfContentPaths s), (reaction awaiter outcome), (delete i (tasks s)).
      by destruct s.
  - rewrite resume_idle by done. cbn [snd].
    exists (tableOfContentPaths s), [], (tasks s). rewrite app_nil_r. by destruct s.
Qed.

(** *** Discoveries that overlap *)

(** [refresh] cancels nothing: what was pending still is. *)
Lemma refresh_tasks h s :
  tasks (execM (refresh h) s) = tasks s ++
    match workspace_workspaceFolders h with
    | Some (a :: rest) =>
        [GlobPending (tocPattern h (fsPath (uri a)))
           (effectiveDepth h (config_maxBookSearchDepth h))
           (map (λ a, fsPath (uri a)) rest) ByRefresh]
    | Some [] => [Settled ByRefresh (Ok tt)]
    | None => [Settled ByRefresh (Throw TypeError)]
    end.
Proof.
  unfold execM, refresh, mbind, M_bind. cbn [modifyState].
  destruct (workspace_workspaceFolders h) as [[|a rest]|]; reflexivity.
Qed.

(** Two [refresh] in a row on a workspace of one folder, then the two
    globs: the matches are in the list twice. *)
Lemma refresh_twice_overlapping h a found s :
  workspace_workspaceFolders h = Some [a] →
  glob h (tocPattern h (fsPath (uri a))) (effectiveDepth h (config_maxBookSearchDepth h))
    = Ok found →
  tableOfContentPaths
    (run [(h, WorkspaceFoldersChanged); (h, WorkspaceFoldersChanged);
          (h, Resumes (length (tasks s))); (h, Resumes (length (tasks s)))] s)
  = found ++ found.
Proof.
  intros Hw Hg. cbn [run perform].
  set (G := GlobPending (tocPattern h (fsPath (uri a)))
              (effectiveDepth h (config_maxBookSearchDepth h)) [] ByRefresh).
  assert (Hrefresh : ∀ s0, execM (refresh h) s0
            = set_tasks (tasks s0 ++ [G]) (set_tableOfContentPaths [] s0)).
  { intros s0. unfold execM, refresh, mbind, M_bind. cbn [modifyState]. by rewrite Hw. }
  rewrite !Hrefresh. cbn [tasks set_tasks set_tableOfContentPaths].
  rewrite <- app_assoc. cbn [app].
  subst G.
  match goal with
  | |- context [execM (resume h ?i) (set_tasks ?l ?s0)] =>
      erewrite (resume_glob h i _ _ _ _ (set_tasks l s0));
        [|cbn [tasks set_tasks]; by apply list_lookup_middle]
  end.
  rewrite Hg. cbn [tasks set_tasks set_tableOfContentPaths tableOfContentPaths set_trace].
  rewrite delete_middle. cbn [awaited]. rewrite <- app_assoc. cbn [app].
  erewrite resume_glob; [|cbn [tasks set_tasks]; by apply list_lookup_middle].
  rewrite Hg. reflexivity.
Qed.

(** A [refresh] while the glob of the constructor is pending, then the two
    globs: again the matches are in the list twice. *)
Lemma refresh_over_constructor h a found :
  workspace_workspaceFolders h = Some [a] →
  glob h (tocPattern h (fsPath (uri a))) (effectiveDepth h (config_maxBookSearchDepth h))
    = Ok found →
  tableOfContentPaths
    (run [(h, CallRefresh); (h, Resumes 0); (h, Resumes 0)]
       (execM (construct h [a]) initialState))
  = found ++ found.
Proof.
  intros Hw Hg. cbn [run perform].
  assert (Hrefresh : ∀ s0, execM (refresh h) s0
            = set_tasks
                (tasks s0 ++ [GlobPending (tocPattern h (fsPath (uri a)))
                                (effectiveDepth h (config_maxBookSearchDepth h)) [] ByRefresh])
                (set_tableOfContentPaths [] s0)).
  { intros s0. unfold execM, refresh, mbind, M_bind. cbn [modifyState]. by rewrite Hw. }
  rewrite Hrefresh.
  change (execM (construct h [a]) initialState)
    with (set_tasks [GlobPending (tocPattern h (fsPath (uri a)))
                       (effectiveDepth h (config_maxBookSearchDepth h)) [] ByConstructor]
            initialState).
  cbn [tasks set_tasks set_tableOfContentPaths initialState app].
  match goal with
  | |- context [execM (resume h 0) (set_tasks ?l ?s0)] =>
      erewrite (resume_glob h 0 _ _ _ _ (set_tasks l s0)); [|reflexivity]
  end.
  rewrite Hg.
  cbn [tasks set_tasks set_tableOfContentPaths tableOfContentPaths set_trace delete app awaited].
  erewrite resume_glob; [|reflexivity].
  rewrite Hg. reflexivity.
Qed.

(** C4, as the code has it. A call of [getTableOfContentFiles] returns its
    promise without having touched the path list; with a folder to visit it
    has called the glob of the first one and set no key and fired no event
    yet. Each time one of its globs resolves, in whatever state the
    provider is by then, the matches are appended to the path list as it is
    then and the glob of the next folder is called; after the last folder
    the context key [bookOpened] is set to whether the list is non-empty at
    that moment, and [onReadAllTOCFiles] is fired last. When a glob rejects
    the call ends: nothing is appended, no key is set, no event is fired.
    Run with nothing in between, a call appends, for each folder in order,
    the matches of its pattern up to the first glob that rejects, and sets
    the key and fires the event exactly when none rejects. *)
Theorem getTableOfContentFiles_effect (h : Host) (folders : list WorkspaceFolder)
    (awaiter : Awaiter) (s : State) :
  let called := execM (getTableOfContentFiles h folders awaiter) s in
  evalM (getTableOfContentFiles h folders awaiter) s = Ok tt
  ∧ tableOfContentPaths called = tableOfContentPaths s
  ∧ match folders with
    | a :: rest =>
        trace called = trace s
        ∧ tasks called = tasks s ++
            [GlobPending (tocPattern h (fsPath (uri a)))
               (effectiveDepth h (config_maxBookSearchDepth h))
               (map (λ a, fsPath (uri a)) rest) awaiter]
    | [] =>
        trace called = trace s ++
          [ExecuteSetContext "bookOpened" (0 <? length (tableOfContentPaths s))%nat;
           FireReadAllTOCFiles]
        ∧ tasks called = tasks s ++ awaited awaiter (Ok tt)
    end
  ∧ (∀ h' i pattern deep w rest found,
       tasks s !! i = Some (GlobPending pattern deep (w :: rest) awaiter) →
       glob h' pattern deep = Ok found →
       let s' := execM (resume h' i) s in
       tableOfContentPaths s' = tableOfContentPaths s ++ found
       ∧ trace s' = trace s
       ∧ tasks s' = delete i (tasks s) ++ [GlobPending (tocPattern h' w) deep rest awaiter])
  ∧ (∀ h' i pattern deep found,
       tasks s !! i = Some (GlobPending pattern deep [] awaiter) →
       glob h' pattern deep = Ok found →
       let s' := execM (resume h' i) s in
       tableOfContentPaths s' = tableOfContentPaths s ++ found
       ∧ trace s' = trace s ++
           [ExecuteSetContext "bookOpened" (0 <? length (tableOfContentPaths s'))%nat;
            FireReadAllTOCFiles]
       ∧ tasks s' = delete i (tasks s) ++ awaited awaiter (Ok tt))
  ∧ (∀ h' i pattern deep rest err,
       tasks s !! i = Some (GlobPending pattern deep rest awaiter) →
       glob h' pattern deep = Throw err →
       let s' := execM (resume h' i) s in
       tableOfContentPaths s' = tableOfContentPaths s
       ∧ trace s' = trace s
       ∧ tasks s' = delete i (tasks s) ++ awaited awaiter (Throw err))
  ∧ (∀ n, (turns folders ≤ n)%nat →
       let s' := uninterrupted h n (getTableOfContentFiles h folders awaiter) s in
       tableOfContentPaths s' = tableOfContentPaths s ++ (collected h folders).1
       ∧ trace s' = trace s ++
           match (collected h folders).2 with
           | Ok _ =>
               [ExecuteSetContext "bookOpened" (0 <? length (tableOfContentPaths s'))%nat;
                FireReadAllTOCFiles]
           | Throw _ => []
           end ++ reaction awaiter (collected h folders).2
       ∧ tasks s' = tasks s).
Proof.
  cbn zeta. unfold evalM, execM at 1 2 3 4 5, getTableOfContentFiles.
  rewrite discoverFrom_run. cbn [fst snd].
  split; [done|]. split; [by destruct folders|]. split; [by destruct folders|].
  split; [|split; [|split]].
  - intros h' i pattern deep w rest found Ht Hg.
    by rewrite (resume_glob h' i _ _ _ _ s Ht), Hg.
  - intros h' i pattern deep found Ht Hg.
    by rewrite (resume_glob h' i _ _ _ _ s Ht), Hg.
  - intros h' i pattern deep rest err Ht Hg.
    by rewrite (resume_glob h' i _ _ _ _ s Ht), Hg.
  - intros n Hn.
    pose proof (getTableOfContentFiles_alone h folders awaiter s n Hn) as Hrun.
    unfold getTableOfContentFiles in Hrun. rewrite Hrun.
    unfold finished, ending. cbn. by destruct (collected h folders).2.
Qed.

(** C4, counterexample. A provider is constructed on a workspace with one
    book; while the glob of the constructor is pending the workspace changes
    to a folder without a book, and the listener starts a [refresh]. The
    glob of the constructor resolves and then the glob of the refresh: it
    collects no path and still sets [bookOpened] to true. The same happens
    without any overlap when, after the discovery of the constructor has
    ended, [getTableOfContentFiles] is called with no folder. *)
Lemma bookOpened_without_collected_path :
  let h := Samples.world [] [("/ws/**/_data/toc.yml", ["/ws/book/_data/toc.yml"])]
             ["/empty"] VUndefined in
  let constructed := execM (construct h [{| uri := Uri_file "/ws" |}]) initialState in
  let before := run [(h, WorkspaceFoldersChanged); (h, Resumes 0)] constructed in
  let after := run [(h, Resumes 0)] before in
  let s := uninterrupted h 2 (construct h [{| uri := Uri_file "/ws" |}]) initialState in
  let s' := execM (getTableOfContentFiles h [] ByCaller) s in
  (collected h [{| uri := Uri_file "/empty" |}] = ([], Ok tt)
   ∧ tasks before = [GlobPending "/empty/**/_data/toc.yml" (VNum 5) [] ByRefresh;
                     Settled ByConstructor (Ok tt)]
   ∧ tableOfContentPaths after = ["/ws/book/_data/toc.yml"]
   ∧ trace after = trace before ++ [ExecuteSetContext "bookOpened" true; FireReadAllTOCFiles])
  ∧ (collected h [] = ([], Ok tt)
     ∧ tasks s = []
     ∧ tableOfContentPaths s' = ["/ws/book/_data/toc.yml"]
     ∧ trace s' = trace s ++ [ExecuteSetContext "bookOpened" true; FireReadAllTOCFiles]).
Proof. repeat split. Qed.

(** On the sample book: the constructor has returned with its glob pending;
    when that glob resolves, the two tables of contents are appended, the
    key is set to true and the event fired. *)
Lemma getTableOfContentFiles_effect_witness :
  let h := Scenario.bookWorld in
  let s := execM (construct h [{| uri := Uri_file "/ws" |}]) initialState in
  let s' := execM (resume h 0) s in
  tasks s = [GlobPending "/ws/**/_data/toc.yml" VUndefined [] ByConstructor]
  ∧ tableOfContentPaths s' = ["/ws/draft/_data/toc.yml"; "/ws/book/_data/toc.yml"]
  ∧ trace s' = [ExecuteSetContext "bookOpened" true; FireReadAllTOCFiles]
  ∧ tasks s' = [Settled ByConstructor (Ok tt)].
Proof.
  intros h s s'. split; [reflexivity|].
  destruct (getTableOfContentFiles_effect h [] ByConstructor s)
    as (_ & _ & _ & _ & Hlast & _).
  exact (Hlast h 0 "/ws/**/_data/toc.yml" VUndefined
           ["/ws/draft/_data/toc.yml"; "/ws/book/_data/toc.yml"] eq_refl eq_refl).
Defined.

(** C8. The depth handed to every glob of [getTableOfContentFiles] is the
    configured [maxBookSearchDepth] normalized: 5 when the configured value
    is undefined or negative, undefined (no limit) when it is 0, and the
    configured value itself in every other case; for a number, negative
    means below zero. The value is read once, when the call starts: the
    glob of the first folder is called with it, and so is the glob of every
    later folder, whatever the configuration says by then. *)
Theorem maxBookSearchDepth_normalized (h : Host) (folders : list WorkspaceFolder)
    (awaiter : Awaiter) (s : State) :
  let d := config_maxBookSearchDepth h in
  let deep := effectiveDepth h d in
  (∀ n, (turns folders ≤ n)%nat →
     tableOfContentPaths (uninterrupted h n (getTableOfContentFiles h folders awaiter) s)
     = tableOfContentPaths s ++ (globbed h deep (map (λ a, fsPath (uri a)) folders)).1)
  ∧ (∀ n founds, (turns folders ≤ n)%nat →
     Forall2 (λ a found, glob h (tocPattern h (fsPath (uri a))) deep = Ok found)
       folders founds →
     tableOfContentPaths (uninterrupted h n (getTableOfContentFiles h folders awaiter) s)
     = tableOfContentPaths s ++ concat founds)
  ∧ (∀ a rest, folders = a :: rest →
     tasks (execM (getTableOfContentFiles h folders awaiter) s) = tasks s ++
       [GlobPending (tocPattern h (fsPath (uri a))) deep
          (map (λ a, fsPath (uri a)) rest) awaiter])
  ∧ (∀ h' s1 i pattern w rest found,
     tasks s1 !! i = Some (GlobPending pattern deep (w :: rest) awaiter) →
     glob h' pattern deep = Ok found →
     tasks (execM (resume h' i) s1) = delete i (tasks s1) ++
       [GlobPending (tocPattern h' w) deep rest awaiter])
  ∧ (d = VUndefined ∨ lessThanZero h d = true → deep = VNum 5)
  ∧ (d = VNum 0 → deep = VUndefined)
  ∧ (d ≠ VUndefined → lessThanZero h d = false → d ≠ VNum 0 → deep = d)
  ∧ (∀ n, d = VNum n → lessThanZero h d = (n <? 0)%Z).
Proof.
  intros d deep.
  assert (Halone : ∀ n, (turns folders ≤ n)%nat →
     tableOfContentPaths (uninterrupted h n (getTableOfContentFiles h folders awaiter) s)
     = tableOfContentPaths s ++ (globbed h deep (map (λ a, fsPath (uri a)) folders)).1).
  { intros n Hn. by rewrite (getTableOfContentFiles_alone h folders awaiter s n Hn). }
  split; [exact Halone|]. split; [|split; [|split]].
  - intros n founds Hn Hall. rewrite (Halone n Hn).
    by rewrite (globbed_resolved h deep folders founds Hall).
  - intros a rest ->. unfold execM, getTableOfContentFiles.
    by rewrite discoverFrom_run.
  - intros h' s1 i pattern w rest found Ht Hg.
    by rewrite (resume_glob h' i _ _ _ _ s1 Ht), Hg.
  - subst deep. unfold effectiveDepth. repeat split.
    + intros [-> | ->]; [done|]. by rewrite orb_true_r.
    + by intros ->.
    + intros Hu Hn H0. rewrite Hn, orb_false_r.
      destruct d as [| | |n| | |]; try done. cbn.
      destruct (Z.eqb_spec n 0) as [->|]; done.
    + by intros n ->.
Qed.

End DiscoveryFacts.

(** ** Failures while opening and loading *)

Module LoadingFacts.
Import Book Loading.

Lemma set_trace_same s : set_trace (trace s) s = s.
Proof. by destruct s. Qed.

Lemma set_trace_twice t t' s : set_trace t (set_trace t' s) = set_trace t s.
Proof. reflexivity. Qed.

Lemma getBooksFrom_run h paths books s :
  getBooksFrom h paths books s =
  (Ok (books ++ loadedBooks h paths), set_trace (trace s ++ loadErrors h paths) s).
Proof.
  revert books s. induction paths as [|p paths IH]; intros books s.
  - cbn. by rewrite !app_nil_r, set_trace_same.
  - cbn [getBooksFrom loadedBooks loadErrors flat_map].
    unfold mbind at 1, M_bind at 1, tryCatch, mbind at 1, M_bind at 1, liftResult.
    fold (bookAt h p).
    destruct (bookAt h p) as [b|e] eqn:Hb.
    + cbn. rewrite IH. by rewrite <- app_assoc.
    + unfold showErrorMessage, emit, modifyState, mbind, M_bind. cbn.
      rewrite IH. cbn. by rewrite <- app_assoc.
Qed.

(** C2. The three operations surface failures as a message box and return
    normally. [openNotebook] always resolves; if opening the document throws
    or rejects, or showing it throws, the one thing it adds to the UI is the
    [Open file ... failed] message. [getBooks] never throws: it returns the
    books that load, in the order of the table-of-contents paths, and shows
    one [Open file ... failed] message per path whose [_config.yml] or
    [toc.yml] cannot be read or parsed (or whose content cannot be made
    into a book), going on with the remaining paths. [openExternalLink]
    returns normally and shows [Open link ... failed] for an exception. *)
Theorem failures_surface_as_messages (h : Host) (r : string) (s : State) :
  evalM (openNotebook h r) s = Ok tt
  ∧ trace (execM (openNotebook h r) s) = trace s ++
      match workspace_openTextDocument h r with
      | Ok doc =>
          ShowTextDocument doc ::
          match window_showTextDocument h doc with
          | Ok _ => []
          | Throw e =>
              [ShowErrorMessage (localize "openNotebookError" "Open file {0} failed: {1}"
                                   [VStr r; errorText e])]
          end
      | Throw e =>
          [ShowErrorMessage (localize "openNotebookError" "Open file {0} failed: {1}"
                               [VStr r; errorText e])]
      end
  ∧ evalM (getBooks h) s = Ok (loadedBooks h (tableOfContentPaths s))
  ∧ trace (execM (getBooks h) s) = trace s ++ loadErrors h (tableOfContentPaths s)
  ∧ (∀ p e, bookAt h p = Throw e →
       loadedBooks h [p] = [] ∧ loadErrors h [p] = [loadError h p e])
  ∧ (∀ p root e,
       root = path_dirname h (path_dirname h p) →
       fs_readFileSync h (path_join h [root; "_config.yml"]) = Throw e
       ∨ (∃ text, fs_readFileSync h (path_join h [root; "_config.yml"]) = Ok text
                  ∧ yaml_safeLoad h text = Throw e)
       ∨ (∃ text config,
            fs_readFileSync h (path_join h [root; "_config.yml"]) = Ok text
            ∧ yaml_safeLoad h text = Ok config
            ∧ (fs_readFileSync h p = Throw e
               ∨ ∃ text', fs_readFileSync h p = Ok text' ∧ yaml_safeLoad h text' = Throw e)) →
       bookAt h p = Throw e)
  ∧ evalM (openExternalLink h r) s = Ok tt
  ∧ trace (execM (openExternalLink h r) s) = trace s ++
      match Uri_parse h r with
      | Ok u =>
          OpenExternal u ::
          match env_openExternal h u with
          | Ok _ => []
          | Throw e =>
              [ShowErrorMessage (localize "openExternalLinkError" "Open link {0} failed: {1}"
                                   [VStr r; errorText e])]
          end
      | Throw e =>
          [ShowErrorMessage (localize "openExternalLinkError" "Open link {0} failed: {1}"
                               [VStr r; errorText e])]
      end.
Proof.
  repeat split.
  - unfold evalM, openNotebook, tryCatch, mbind, M_bind, liftResult, showErrorMessage,
      emit, modifyState.
    destruct (workspace_openTextDocument h r) as [doc|e]; [|done].
    by destruct (window_showTextDocument h doc) as [[]|e].
  - unfold execM, openNotebook, tryCatch, mbind, M_bind, liftResult, showErrorMessage,
      emit, modifyState.
    destruct (workspace_openTextDocument h r) as [doc|e]; [|done].
    destruct (window_showTextDocument h doc) as [[]|e]; cbn; [done|].
    by rewrite <- app_assoc.
  - unfold evalM, getBooks, mbind, M_bind, getState. by rewrite getBooksFrom_run.
  - unfold execM, getBooks, mbind, M_bind, getState. by rewrite getBooksFrom_run.
  - cbn. by rewrite H.
  - cbn. by rewrite H.
  - intros p root e -> Hfail. unfold bookAt, loadBook, mbind, result_bind.
    destruct Hfail as [-> | [(text & -> & ->) | (text & config & -> & -> & Hfail)]];
      [done | done |].
    by destruct Hfail as [-> | (text' & -> & ->)].
  - unfold evalM, openExternalLink, tryCatch, mbind, M_bind, liftResult, showErrorMessage,
      emit, modifyState.
    destruct (Uri_parse h r) as [u|e]; [|done].
    by destruct (env_openExternal h u) as [[]|e].
  - unfold execM, openExternalLink, tryCatch, mbind, M_bind, liftResult, showErrorMessage,
      emit, modifyState.
    destruct (Uri_parse h r) as [u|e]; [|done].
    destruct (env_openExternal h u) as [[]|e]; cbn; [done|].
    by rewrite <- app_assoc.
Qed.

End LoadingFacts.

(** ** The sections of a book *)

Module SectionFacts.
Import Book Cache.

(** The loop threads its accumulator through unchanged. *)
Lemma getSectionsFrom_acc h toc root sections acc s :
  getSectionsFrom h toc root sections acc s =
  match getSectionsFrom h toc root sections [] s with
  | (Ok items, s') => (Ok (acc ++ items), s')
  | (Throw e, s') => (Throw e, s')
  end.
Proof.
  revert acc s. induction sections as [|x sections IH]; intros acc s.
  - cbn. by rewrite app_nil_r.
  - cbn [getSectionsFrom]. unfold mbind, M_bind.
    destruct (visitSection h toc root x s) as [[pushed|e] s1]; [|done].
    rewrite IH. rewrite (IH ([] ++ pushed)).
    destruct (getSectionsFrom h toc root sections [] s1) as [[items|e] s2]; [|done].
    cbn. by rewrite app_assoc.
Qed.

(** Entries are visited one after the other, each adding its items. *)
Lemma getSections_cons h toc root section rest s :
  getSections h toc (section :: rest) root s =
  match visitSection h toc root section s with
  | (Ok pushed, s1) =>
      match getSections h toc rest root s1 with
      | (Ok more, s2) => (Ok (pushed ++ more), s2)
      | (Throw e, s2) => (Throw e, s2)
      end
  | (Throw e, s1) => (Throw e, s1)
  end.
Proof.
  unfold getSections. cbn [getSectionsFrom]. unfold mbind, M_bind.
  destruct (visitSection h toc root section s) as [[pushed|e] s1]; [|done].
  by rewrite getSectionsFrom_acc.
Qed.

Lemma getSections_single h toc root section s :
  getSections h toc [section] root s = visitSection h toc root section s.
Proof.
  rewrite getSections_cons.
  destruct (visitSection h toc root section s) as [[pushed|e] s1]; [|done].
  cbn. by rewrite app_nil_r.
Qed.

Lemma getProp_again section k v k' :
  getProp section k = Ok v → ∃ v', getProp section k' = Ok v'.
Proof. destruct section; cbn; intros; try done; eauto. Qed.

(** C3, as the code has it. [getSections] visits the entries in order, each
    adding at most one item. For an entry whose [url] is truthy: if
    [external] is truthy the item is an ExternalLink; otherwise, the [url]
    being a string, the item is a Notebook when [root/content/<url>.ipynb]
    exists (also when the [.md] exists too), else a Markdown item when
    [root/content/<url>.md] exists, else there is no item and the [Missing
    file] message naming the entry's title is shown. An entry whose [url] is
    absent or falsy (such as the empty string) adds no item and shows no
    message. *)
Theorem getSections_entry (h : Host) (toc : list value) (root : string)
    (section : value) (rest : list value) (s : State) :
  getSections h toc (section :: rest) root s =
    match getSections h toc [section] root s with
    | (Ok pushed, s1) =>
        match getSections h toc rest root s1 with
        | (Ok more, s2) => (Ok (pushed ++ more), s2)
        | (Throw e, s2) => (Throw e, s2)
        end
    | (Throw e, s1) => (Throw e, s1)
    end
  ∧ (∀ url external title,
       getProp section "url" = Ok url → truthy url = true →
       getProp section "external" = Ok external → truthy external = true →
       getProp section "title" = Ok title →
       getSections h toc [section] root s =
         (Ok [sectionItem toc root section title TyExternalLink (linkIcons h)], s))
  ∧ (∀ u external title,
       getProp section "url" = Ok (VStr u) → u ≠ EmptyString →
       getProp section "external" = Ok external → truthy external = false →
       getProp section "title" = Ok title →
       let pathToNotebook := path_join h [root; "content"; u +:+ ".ipynb"] in
       let pathToMarkdown := path_join h [root; "content"; u +:+ ".md"] in
       getSections h toc [section] root s =
         if fs_existsSync h pathToNotebook then
           let notebook := sectionItem toc root section title TyNotebook (notebookIcons h) in
           (Ok [notebook],
            set_allNotebooks (<[pathToNotebook := notebook]> (allNotebooks s)) s)
         else if fs_existsSync h pathToMarkdown then
           (Ok [sectionItem toc root section title TyMarkdown (markdownIcons h)], s)
         else
           (Ok [],
            set_trace (trace s ++ [ShowErrorMessage
                                     (localize "missingFileError" "Missing file : {0}" [title])])
              s))
  ∧ (∀ url,
       getProp section "url" = Ok url → truthy url = false →
       getSections h toc [section] root s = (Ok [], s)).
Proof.
  split; [by rewrite getSections_cons, getSections_single|].
  rewrite getSections_single. unfold visitSection, mbind, M_bind, liftResult.
  split; [|split].
  - intros url external title -> -> -> -> ->. reflexivity.
  - intros u external title -> Hu -> -> ->.
    assert (truthy (VStr u) = true) as ->.
    { cbn. destruct (String.eqb_spec u EmptyString); done. }
    cbn [concatStr].
    destruct (fs_existsSync h _); [reflexivity|].
    destruct (fs_existsSync h _); reflexivity.
  - intros url -> ->. reflexivity.
Qed.

(** C3, counterexample. An entry that has a [url] field, holding the empty
    string, and a truthy [external] yields no ExternalLink item: it yields
    nothing; without [external], and with no file on disk, it yields no
    [Missing file] message either. *)
Lemma entry_with_empty_url :
  let link := VObj [("title", VStr "Search"); ("url", VStr EmptyString);
                    ("external", VBool true)] in
  let page := VObj [("title", VStr "Search"); ("url", VStr EmptyString)] in
  getProp link "url" = Ok (VStr EmptyString)
  ∧ getProp link "external" = Ok (VBool true)
  ∧ getSections Samples.emptyWorld [] [link] "/book" initialState = (Ok [], initialState)
  ∧ getSections Samples.emptyWorld [] [page] "/book" initialState = (Ok [], initialState).
Proof. repeat split. Qed.

End SectionFacts.

(** ** The notebook cache *)

Module CacheFacts.
Import Book Cache.

Global Instance cacheGrows_refl : Reflexive cacheGrows.
Proof. by intros s k. Qed.

Global Instance cacheGrows_trans : Transitive cacheGrows.
Proof. intros a b c Hab Hbc k Hk. by apply Hbc, Hab. Qed.

Lemma cacheGrows_same s s' : allNotebooks s' = allNotebooks s → cacheGrows s s'.
Proof. intros E k. by rewrite E. Qed.

Lemma cacheGrows_insert k v s :
  cacheGrows s (set_allNotebooks (<[k:=v]> (allNotebooks s)) s).
Proof.
  intros k' Hk'. cbn. destruct (decide (k = k')) as [->|Hne].
  - rewrite lookup_insert_eq. eauto.
  - by rewrite lookup_insert_ne.
Qed.

(** The operations that leave the cache field alone, and those of the
    debounce among them. *)
Section Untouched.
Context (R : State → State → Prop) `{!Reflexive R} `{!Transitive R}.
Hypothesis R_trace : ∀ t s, R s (set_trace t s).
Hypothesis R_timers : ∀ l n s, R s (set_timers l n s).
Hypothesis R_throttle : ∀ t s, R s (set_throttleTimer t s).
Hypothesis R_resource : ∀ r s, R s (set_resource r s).

Lemma keeps_clearTimeout t : keeps R (clearTimeout t).
Proof.
  destruct t; cbn; [apply (keeps_modifyState R); auto | apply (keeps_ret R)].
Qed.

Lemma keeps_setTimeout a : keeps R (setTimeout a).
Proof. intros s. apply R_timers. Qed.

Lemma keeps_runAction' h a : keeps R (runAction h a).
Proof.
  destruct a. unfold runAction, showErrorMessage, emit.
  apply (keeps_tryCatch R).
  - apply (keeps_bind R); [apply (keeps_modifyState R); auto|].
    intros _. apply (keeps_liftResult R).
  - intros e. apply (keeps_modifyState R); auto.
Qed.

Lemma keeps_openMarkdown h r : keeps R (openMarkdown h r).
Proof.
  unfold openMarkdown, runThrottledAction.
  apply (keeps_bind R); [apply (keeps_getState R) | intros s0].
  apply (keeps_bind R).
  { destruct (negb _); [|apply (keeps_ret R)].
    apply (keeps_bind R); [apply keeps_clearTimeout | intros _].
    apply (keeps_modifyState R); auto. }
  intros _. apply (keeps_bind R); [apply (keeps_modifyState R); auto | intros _].
  apply (keeps_bind R); [apply (keeps_getState R) | intros s1].
  destruct (throttleTimer s1); [apply (keeps_ret R)|].
  destruct (negb _); [apply keeps_runAction'|].
  apply (keeps_bind R); [apply keeps_setTimeout | intros t].
  apply (keeps_modifyState R); auto.
Qed.

Lemma keeps_fireTimer h id : keeps R (fireTimer h id).
Proof.
  unfold fireTimer.
  apply (keeps_bind R); [apply (keeps_getState R) | intros s0].
  destruct (list_find _ _) as [[i [id' a]]|]; [|apply (keeps_ret R)].
  apply (keeps_bind R); [apply (keeps_modifyState R); auto | intros _].
  apply keeps_runAction'.
Qed.

End Untouched.

(** No operation removes a key of the cache. *)
Lemma perform_cacheGrows h op : keeps cacheGrows (perform h op).
Proof.
  assert (Ht : ∀ t s, cacheGrows s (set_trace t s)) by (by intros; apply cacheGrows_same).
  assert (Hp : ∀ l s, cacheGrows s (set_tableOfContentPaths l s))
    by (by intros; apply cacheGrows_same).
  assert (Hc := cacheGrows_insert).
  assert (Hq : ∀ l n s, cacheGrows s (set_timers l n s)) by (by intros; apply cacheGrows_same).
  assert (Hr : ∀ t s, cacheGrows s (set_throttleTimer t s))
    by (by intros; apply cacheGrows_same).
  assert (Hs : ∀ r s, cacheGrows s (set_resource r s)) by (by intros; apply cacheGrows_same).
  assert (Hk : ∀ l s, cacheGrows s (set_tasks l s)) by (by intros; apply cacheGrows_same).
  destruct op; cbn [perform]; try apply (keeps_ret cacheGrows).
  - apply BookFrames.keeps_refresh; auto; apply _.
  - apply BookFrames.keeps_getTableOfContentFiles; auto; apply _.
  - apply BookFrames.keeps_openNotebook; auto; apply _.
  - apply keeps_openMarkdown; auto; apply _.
  - apply BookFrames.keeps_openExternalLink; auto; apply _.
  - apply (keeps_bind cacheGrows); [|intros; apply (keeps_ret cacheGrows)].
    apply BookFrames.keeps_getChildren; auto; apply _.
  - apply (keeps_bind cacheGrows); [|intros; apply (keeps_ret cacheGrows)].
    apply BookFrames.keeps_getBooks; auto; apply _.
  - apply BookFrames.keeps_refresh; auto; apply _.
  - apply keeps_fireTimer; auto; apply _.
  - apply BookFrames.keeps_resume; auto; apply _.
Qed.

Lemma run_cacheGrows steps s : cacheGrows s (run steps s).
Proof.
  revert s. induction steps as [|[h op] steps IH]; intros s; cbn [run]; [reflexivity|].
  etransitivity; [apply perform_cacheGrows | apply IH].
Qed.

(** [refresh] does not write the cache at all, neither before it returns
    its promise nor in any of its continuations. *)
Lemma refresh_cache h s : allNotebooks (execM (refresh h) s) = allNotebooks s.
Proof.
  unfold execM, refresh, mbind, M_bind. cbn [modifyState].
  destruct (workspace_workspaceFolders h) as [folders|].
  - unfold getTableOfContentFiles. rewrite DiscoveryFacts.discoverFrom_run.
    by destruct folders.
  - by rewrite DiscoveryFacts.settle_run.
Qed.

Lemma resume_cache h i s : allNotebooks (execM (resume h i) s) = allNotebooks s.
Proof. by destruct (DiscoveryFacts.resume_exec h i s) as (paths & effects & pending & ->). Qed.

(** It empties the path list before anything else. *)
Lemma refresh_paths h s : tableOfContentPaths (execM (refresh h) s) = [].
Proof.
  unfold execM, refresh, mbind, M_bind. cbn [modifyState].
  destruct (workspace_workspaceFolders h) as [folders|].
  - unfold getTableOfContentFiles. rewrite DiscoveryFacts.discoverFrom_run.
    by destruct folders.
  - by rewrite DiscoveryFacts.settle_run.
Qed.

(** With nothing in between, it ends with the paths of the workspace as it
    is. *)
Lemma refresh_alone_paths h s n :
  (Discovery.refreshTurns h ≤ n)%nat →
  tableOfContentPaths (Discovery.uninterrupted h n (refresh h) s) =
  match workspace_workspaceFolders h with
  | Some workspacePaths => (Discovery.collected h workspacePaths).1
  | None => []
  end.
Proof.
  intros Hn. rewrite (DiscoveryFacts.refresh_alone h s n Hn).
  by destruct (workspace_workspaceFolders h).
Qed.

Lemma refresh_alone_cache h s n :
  (Discovery.refreshTurns h ≤ n)%nat →
  allNotebooks (Discovery.uninterrupted h n (refresh h) s) = allNotebooks s.
Proof.
  intros Hn. rewrite (DiscoveryFacts.refresh_alone h s n Hn).
  by destruct (workspace_workspaceFolders h).
Qed.

(** C9. The cache is monotone: whatever the provider goes through after a
    path has been cached (method calls, listener events, timer callbacks,
    continuations of pending discoveries, each against any world, so also
    one in which the book is gone), the path is still a key of the map and
    [getNavigation] still answers [hasNavigation = true] for it. [refresh]
    in particular empties the path list and leaves the map as it is, and so
    does each continuation it leaves; when these run with nothing in
    between, the path list ends as the paths collected in the workspace as
    it is, and the map is still the same. *)
Theorem cache_never_evicts (steps : list (Host * Op)) (h : Host) (s : State) (k : string) :
  is_Some (allNotebooks s !! k) →
  is_Some (allNotebooks (run steps s) !! k)
  ∧ hasNavigation (getNavigation h (Uri_file k) (run steps s)) = true
  ∧ allNotebooks (execM (refresh h) s) = allNotebooks s
  ∧ tableOfContentPaths (execM (refresh h) s) = []
  ∧ (∀ h' i, allNotebooks (execM (resume h' i) s) = allNotebooks s)
  ∧ (∀ n, (Discovery.refreshTurns h ≤ n)%nat →
       allNotebooks (Discovery.uninterrupted h n (refresh h) s) = allNotebooks s
       ∧ tableOfContentPaths (Discovery.uninterrupted h n (refresh h) s) =
           match workspace_workspaceFolders h with
           | Some workspacePaths => (Discovery.collected h workspacePaths).1
           | None => []
           end).
Proof.
  intros Hk. pose proof (run_cacheGrows steps s k Hk) as [nb Hnb].
  split; [eauto|]. split.
  { unfold getNavigation. cbn. by rewrite Hnb. }
  split; [apply refresh_cache|]. split; [apply refresh_paths|].
  split; [intros h' i; apply resume_cache|].
  intros n Hn. split; [by apply refresh_alone_cache | by apply refresh_alone_paths].
Qed.

End CacheFacts.

(** ** The cache and navigation *)

Module NavigationFacts.
Import Book Cache SectionFacts CacheFacts.

Lemma recordAll_app h l1 l2 m :
  recordAll h (l1 ++ l2) m = recordAll h l2 (recordAll h l1 m).
Proof. unfold recordAll. apply foldl_app. Qed.

Lemma recordAll_keeps h items m k :
  is_Some (m !! k) → is_Some (recordAll h items m !! k).
Proof.
  revert m. induction items as [|x items IH]; intros m Hk; [exact Hk|].
  cbn. apply IH. destruct (decide (notebookPath h x = k)) as [->|Hne].
  - rewrite lookup_insert_eq. eauto.
  - by rewrite lookup_insert_ne.
Qed.

Lemma recordAll_lookup h items m it :
  In it items →
  ∃ it', recordAll h items m !! notebookPath h it = Some it'
         ∧ In it' items ∧ notebookPath h it' = notebookPath h it.
Proof.
  revert m. induction items as [|x items IH] using rev_ind; intros m Hin; [done|].
  rewrite recordAll_app. cbn.
  destruct (decide (notebookPath h x = notebookPath h it)) as [E|Hne].
  - exists x. rewrite E, lookup_insert_eq. split; [done|]. split; [|done].
    apply in_or_app. right. by left.
  - apply in_app_or in Hin as [Hin | [-> | []]]; [|done].
    destruct (IH m Hin) as (it' & Hl & Hin' & Hp).
    exists it'. rewrite lookup_insert_ne by done.
    split; [done|]. split; [|done]. apply in_or_app. by left.
Qed.

Lemma recordAll_skip h items m k :
  (∀ x, In x items → notebookPath h x ≠ k) → recordAll h items m !! k = m !! k.
Proof.
  revert m. induction items as [|x items IH]; intros m Hne; [done|].
  change (recordAll h (x :: items) m)
    with (recordAll h items (<[notebookPath h x := x]> m)).
  rewrite IH by (intros y Hy; apply Hne; by right).
  apply lookup_insert_ne, Hne. by left.
Qed.

Lemma recordAll_origin h items m k v :
  recordAll h items m !! k = Some v →
  m !! k = Some v ∨ (In v items ∧ k = notebookPath h v).
Proof.
  revert m. induction items as [|x items IH] using rev_ind; intros m Hl; [by left|].
  rewrite recordAll_app in Hl. cbn in Hl.
  destruct (decide (notebookPath h x = k)) as [E|Hne].
  - rewrite E, lookup_insert_eq in Hl. injection Hl as <-.
    right. split; [|done]. apply in_or_app. right. by left.
  - rewrite lookup_insert_ne in Hl by done.
    destruct (IH m Hl) as [?|[Hin ?]]; [by left|].
    right. split; [|done]. apply in_or_app. by left.
Qed.

Lemma notebookPath_sectionItem h toc root section title ty icons u :
  getProp section "url" = Ok (VStr u) →
  notebookPath h (sectionItem toc root section title ty icons)
  = path_join h [root; "content"; u +:+ ".ipynb"].
Proof. intros H. unfold notebookPath, sectionItem. cbn [book page Book.root]. by rewrite H. Qed.

Lemma visitSection_cache h toc root section s pushed s' :
  visitSection h toc root section s = (Ok pushed, s') →
  allNotebooks s' = recordAll h (List.filter isNotebook pushed) (allNotebooks s).
Proof.
  unfold visitSection, mbind, M_bind, liftResult.
  destruct (getProp section "url") as [url|] eqn:Hurl; [|done].
  destruct (truthy url); [|by intros [= <- <-]].
  destruct (getProp section "external") as [ext|]; [|done].
  destruct (truthy ext).
  { destruct (getProp section "title"); [|done]. by intros [= <- <-]. }
  destruct url as [| | | |u| |]; try done. cbn [concatStr].
  destruct (fs_existsSync h _).
  { destruct (getProp section "title") as [t|]; [|done]. intros [= <- <-].
    cbn [allNotebooks set_allNotebooks].
    by rewrite <- (notebookPath_sectionItem h toc root section t TyNotebook
                     (notebookIcons h) u Hurl). }
  destruct (fs_existsSync h _).
  { destruct (getProp section "title"); [|done]. by intros [= <- <-]. }
  destruct (getProp section "title"); [|done]. by intros [= <- <-].
Qed.

Lemma getSections_cache h toc root sections s items s' :
  getSections h toc sections root s = (Ok items, s') →
  allNotebooks s' = recordAll h (List.filter isNotebook items) (allNotebooks s).
Proof.
  revert s items s'. induction sections as [|x sections IH]; intros s items s'.
  - by intros [= <- <-].
  - rewrite getSections_cons.
    destruct (visitSection h toc root x s) as [[pushed|] s1] eqn:Hv; [|done].
    destruct (getSections h toc sections root s1) as [[more|] s2] eqn:Hrest; [|done].
    intros [= <- <-].
    rewrite List.filter_app, recordAll_app, (IH _ _ _ Hrest).
    by rewrite (visitSection_cache _ _ _ _ _ _ _ Hv).
Qed.

Lemma isNotebook_true it : isNotebook it = true ↔ type (book it) = TyNotebook.
Proof. unfold isNotebook. by rewrite bool_decide_eq_true. Qed.

(** C5. When [getSections] returns, the map is the map it started from with
    [set(path, item)] done, in order, for each Notebook item it returns, the
    path being that of the item's [.ipynb] file, and for no other item; so
    each Notebook item's path is a key (holding the Notebook item last
    recorded under that path), and every entry that is new is such an item
    under its path; a Notebook item after which no other one with the same
    path is returned is the item held under its path.
    When [uri.fsPath] is a key of the map, [getNavigation(uri)] answers
    [hasNavigation = true]; its [previous] is [Uri.file] of the cached
    item's [previousUri] when that is a non-empty string, and undefined
    when it is undefined or the empty string; its [next] is the same of the
    item's [nextUri]. Otherwise it answers
    [{hasNavigation: false, previous: undefined, next: undefined}]. *)
Theorem cache_backs_navigation (h : Host) (toc sections : list value) (root : string)
    (s s' : State) (items : list BookTreeItem) :
  getSections h toc sections root s = (Ok items, s') →
  allNotebooks s' = recordAll h (List.filter isNotebook items) (allNotebooks s)
  ∧ (∀ it, In it items → type (book it) = TyNotebook →
       ∃ it', allNotebooks s' !! notebookPath h it = Some it'
              ∧ In it' items ∧ type (book it') = TyNotebook
              ∧ notebookPath h it' = notebookPath h it)
  ∧ (∀ k v, allNotebooks s' !! k = Some v →
       allNotebooks s !! k = Some v
       ∨ (In v items ∧ type (book v) = TyNotebook ∧ k = notebookPath h v))
  ∧ (∀ before it after, items = before ++ it :: after → type (book it) = TyNotebook →
       (∀ x, In x after → type (book x) = TyNotebook →
             notebookPath h x ≠ notebookPath h it) →
       allNotebooks s' !! notebookPath h it = Some it)
  ∧ (∀ h' u nb, allNotebooks s' !! fsPath u = Some nb →
       let answer := getNavigation h' u s' in
       hasNavigation answer = true
       ∧ (∀ p, item_previousUri h' nb = Some p → p ≠ EmptyString →
            previous answer = Some (Uri_file p) ∧ fsPath (Uri_file p) = p)
       ∧ (item_previousUri h' nb = None ∨ item_previousUri h' nb = Some EmptyString →
            previous answer = None)
       ∧ (∀ p, item_nextUri h' nb = Some p → p ≠ EmptyString →
            next answer = Some (Uri_file p) ∧ fsPath (Uri_file p) = p)
       ∧ (item_nextUri h' nb = None ∨ item_nextUri h' nb = Some EmptyString →
            next answer = None))
  ∧ (∀ h' u, allNotebooks s' !! fsPath u = None →
       getNavigation h' u s' =
         {| hasNavigation := false; previous := None; next := None |})
  ∧ (∀ h' it, In it items → type (book it) = TyNotebook →
       hasNavigation (getNavigation h' (Uri_file (notebookPath h it)) s') = true).
Proof.
  intros Hrun. pose proof (getSections_cache _ _ _ _ _ _ _ Hrun) as Hmap.
  assert (Hkey : ∀ it, In it items → type (book it) = TyNotebook →
            ∃ it', allNotebooks s' !! notebookPath h it = Some it'
                   ∧ In it' items ∧ type (book it') = TyNotebook
                   ∧ notebookPath h it' = notebookPath h it).
  { intros it Hin Hty. rewrite Hmap.
    destruct (recordAll_lookup h (List.filter isNotebook items) (allNotebooks s) it)
      as (it' & Hl & Hin' & Hp).
    { apply List.filter_In. split; [done | by apply isNotebook_true]. }
    apply List.filter_In in Hin' as [Hin' Hnb]. apply isNotebook_true in Hnb.
    by exists it'. }
  split; [exact Hmap|]. split; [exact Hkey|]. split; [|split; [|split; [|split]]].
  - intros k v Hl. rewrite Hmap in Hl.
    apply recordAll_origin in Hl as [?|[Hin ->]]; [by left|].
    apply List.filter_In in Hin as [Hin Hnb]. apply isNotebook_true in Hnb.
    by right.
  - intros before it after -> Hty Hlast. rewrite Hmap.
    rewrite List.filter_app. cbn [List.filter].
    rewrite (proj2 (isNotebook_true it) Hty).
    rewrite recordAll_app.
    change (recordAll h (it :: List.filter isNotebook after) ?m)
      with (recordAll h (List.filter isNotebook after) (<[notebookPath h it := it]> m)).
    rewrite recordAll_skip; [apply lookup_insert_eq|].
    intros x Hx. apply List.filter_In in Hx as [Hx Hnb].
    apply Hlast; [done | by apply isNotebook_true].
  - intros h' u nb Hl. unfold getNavigation. rewrite Hl.
    cbn [hasNavigation previous next]. split; [done|].
    assert (Htruthy : ∀ p, p ≠ EmptyString → uriOfTruthy (Some p) = Some (Uri_file p)).
    { intros p Hp. cbn. by destruct (String.eqb_spec p EmptyString). }
    split; [|split; [|split]].
    + intros p -> Hp. by rewrite (Htruthy p Hp).
    + by intros [-> | ->].
    + intros p -> Hp. by rewrite (Htruthy p Hp).
    + by intros [-> | ->].
  - intros h' u Hl. unfold getNavigation. by rewrite Hl.
  - intros h' it Hin Hty. destruct (Hkey it Hin Hty) as (it' & Hl & _).
    unfold getNavigation. cbn [fsPath Uri_file]. by rewrite Hl.
Qed.

End NavigationFacts.

(** ** The embedding on the sample workspace *)

Module Examples.
Import Book Scenario.

Example dirname_twice :
  path_dirname bookWorld (path_dirname bookWorld "/ws/book/_data/toc.yml") = "/ws/book".
Proof. reflexivity. Qed.

Example tocPattern_windows :
  replaceBackslashes ("C:" +:+ String backslash "ws" +:+ "/**/_data/toc.yml")
  = "C:/ws/**/_data/toc.yml".
Proof. reflexivity. Qed.

Example flattenArray_nested :
  let leaf := VObj [("title", VStr "Leaf"); ("url", VStr "leaf")] in
  let part := VObj [("title", VStr "Part"); ("sections", VArr [leaf])] in
  flattenArray (VArr [introSection; part]) = Ok [introSection; part; leaf].
Proof. reflexivity. Qed.

Example flattenArray_null_entry :
  flattenArray (VArr [introSection; VNull]) = Throw TypeError.
Proof. reflexivity. Qed.

Example flattenArray_empty_file : flattenArray VUndefined = Throw TypeError.
Proof. reflexivity. Qed.

(** The constructor returns with its glob pending (depth 0: no limit);
    once that has resolved both tables of contents are found. *)
Example construct_finds_both :
  let s0 := execM (construct bookWorld [{| uri := Uri_file "/ws" |}]) initialState in
  let s := run [(bookWorld, Resumes 0)] s0 in
  tableOfContentPaths s0 = [] ∧ trace s0 = []
  ∧ tasks s0 = [GlobPending "/ws/**/_data/toc.yml" VUndefined [] ByConstructor]
  ∧ tableOfContentPaths s = ["/ws/draft/_data/toc.yml"; "/ws/book/_data/toc.yml"]
  ∧ trace s = [ExecuteSetContext "bookOpened" true; FireReadAllTOCFiles]
  ∧ tasks s = [Settled ByConstructor (Ok tt)].
Proof. repeat split. Qed.

(** A glob that rejects is logged by the constructor, and neither the key
    nor the event follow. *)
Example construct_logs_rejection :
  let w := Samples.withGlob (λ _ _, Throw (JsError "EACCES")) bookWorld in
  let s := run [(w, Resumes 0); (w, Resumes 0)]
             (execM (construct w [{| uri := Uri_file "/ws" |}]) initialState) in
  tableOfContentPaths s = [] ∧ trace s = [ConsoleLog (JsError "EACCES")] ∧ tasks s = [].
Proof. repeat split. Qed.

(** The workspace-folders listener fires while the glob of the constructor
    is pending: both discoveries append after the reset, and every table of
    contents is in the list twice. *)
Example refresh_over_pending_constructor :
  let s := run [(bookWorld, WorkspaceFoldersChanged); (bookWorld, Resumes 0);
                (bookWorld, Resumes 0)]
             (execM (construct bookWorld [{| uri := Uri_file "/ws" |}]) initialState) in
  tableOfContentPaths s
  = ["/ws/draft/_data/toc.yml"; "/ws/book/_data/toc.yml";
     "/ws/draft/_data/toc.yml"; "/ws/book/_data/toc.yml"]
  ∧ tasks s = [Settled ByConstructor (Ok tt); Settled ByRefresh (Ok tt)]
  ∧ length (default [] (match evalM (getBooks bookWorld) s with
                        | Ok books => Some books
                        | Throw _ => None
                        end)) = 2%nat.
Proof. repeat split. Qed.

(** [getBooks] shows a message for the draft and returns the handbook. *)
Example getBooks_skips_draft :
  let s := run [(bookWorld, Resumes 0)]
             (execM (construct bookWorld [{| uri := Uri_file "/ws" |}]) initialState) in
  evalM (getBooks bookWorld) s
  = Ok [{| book := {| title := VStr "Handbook"; root := "/ws/book";
                      tableOfContents := [introSection]; page := VArr [introSection];
                      type := TyBook |};
           iconPath := bookIcons bookWorld |}]
  ∧ trace (execM (getBooks bookWorld) s) = trace s ++
      [ShowErrorMessage (localize "openConfigFileError" "Open file {0} failed: {1}"
                           [VStr "/ws/draft/_config.yml"; VStr "ENOENT"])].
Proof. split; reflexivity. Qed.

(** A number as [url] breaks the listing of the whole section list. *)
Example getSections_number_url :
  evalM (getSections bookWorld [] [introSection; VObj [("url", VNum 7)]] "/ws/book")
    initialState
  = Throw TypeError.
Proof. reflexivity. Qed.

(** Once its timer has fired the handle is still held: a third and a fourth
    open of the same file neither run nor schedule anything. *)
Example openMarkdown_after_timer :
  let w := Samples.emptyWorld in
  let s := run [(w, CallOpenMarkdown "a.md"); (w, CallOpenMarkdown "a.md");
                (w, TimerFires 1)] initialState in
  let s' := run [(w, CallOpenMarkdown "a.md"); (w, CallOpenMarkdown "a.md")] s in
  throttleTimer s = Some 1 ∧ timers s = [] ∧ timers s' = [] ∧ trace s' = trace s.
Proof. repeat split. Qed.

End Examples.

(** ** Witnesses on the sample book *)

Module ScenarioFacts.
Import Book Cache Scenario.

Lemma afterListing_run :
  getSections bookWorld [introSection] [introSection] "/ws/book" initialState
  = (Ok [sectionItem [introSection] "/ws/book" introSection (VStr "Introduction")
           TyNotebook (notebookIcons bookWorld)],
     afterListing).
Proof. reflexivity. Qed.

Lemma introPath_cached : is_Some (allNotebooks afterListing !! introPath).
Proof. vm_compute. eauto. Qed.

(** With both [intro.ipynb] and [intro.md] on disk the entry is listed as a
    Notebook. *)
Lemma getSections_entry_witness :
  evalM (getSections bookWorld [introSection] [introSection] "/ws/book") initialState
  = Ok [sectionItem [introSection] "/ws/book" introSection (VStr "Introduction")
          TyNotebook (notebookIcons bookWorld)].
Proof.
  unfold evalM.
  rewrite (proj1 (proj2 (proj2
             (SectionFacts.getSections_entry bookWorld [introSection] "/ws/book"
                introSection [] initialState)))
             "intro" VUndefined (VStr "Introduction")
             eq_refl ltac:(discriminate) eq_refl eq_refl eq_refl).
  reflexivity.
Defined.

Lemma introPath_lookup :
  allNotebooks afterListing !! fsPath (Uri_file introPath)
  = Some (sectionItem [introSection] "/ws/book" introSection (VStr "Introduction")
            TyNotebook (notebookIcons bookWorld)).
Proof. vm_compute. reflexivity. Qed.

(** The listed notebook can be navigated from: for a reader whose item
    names the preface as previous and the empty string as next, the answer
    holds the preface and no next notebook. *)
Lemma cache_backs_navigation_witness :
  getSections bookWorld [introSection] [introSection] "/ws/book" initialState
  = (Ok [sectionItem [introSection] "/ws/book" introSection (VStr "Introduction")
           TyNotebook (notebookIcons bookWorld)],
     afterListing)
  ∧ hasNavigation (getNavigation readerWorld (Uri_file introPath) afterListing) = true
  ∧ previous (getNavigation readerWorld (Uri_file introPath) afterListing)
    = Some {| fsPath := "/ws/book/content/preface.ipynb" |}
  ∧ next (getNavigation readerWorld (Uri_file introPath) afterListing) = None
  ∧ getNavigation bookWorld (Uri_file "/ws/book/content/absent.ipynb") afterListing
    = {| hasNavigation := false; previous := None; next := None |}.
Proof.
  pose proof (NavigationFacts.cache_backs_navigation _ _ _ _ _ _ _ afterListing_run)
    as (_ & _ & _ & _ & Hhit & Hmiss & _).
  destruct (Hhit readerWorld (Uri_file introPath) _ introPath_lookup)
    as (Hnav & Hprev & _ & _ & Hnext).
  split; [exact afterListing_run|]. split; [exact Hnav|].
  split; [exact (proj1 (Hprev prefacePath eq_refl ltac:(discriminate)))|].
  split; [exact (Hnext (or_intror eq_refl))|].
  exact (Hmiss bookWorld (Uri_file "/ws/book/content/absent.ipynb") eq_refl).
Defined.

(** The workspace is emptied and the provider refreshed: the notebook of the
    book that is gone can still be navigated from. *)
Lemma cache_never_evicts_witness :
  is_Some (allNotebooks afterListing !! introPath)
  ∧ hasNavigation
      (getNavigation Samples.emptyWorld (Uri_file introPath)
         (run [(Samples.emptyWorld, CallRefresh); (Samples.emptyWorld, Resumes 0);
               (Samples.emptyWorld, CallGetBooks)]
            afterListing)) = true.
Proof.
  split; [exact introPath_cached|].
  exact (proj1 (proj2
           (CacheFacts.cache_never_evicts
              [(Samples.emptyWorld, CallRefresh); (Samples.emptyWorld, Resumes 0);
               (Samples.emptyWorld, CallGetBooks)]
              Samples.emptyWorld afterListing introPath introPath_cached))).
Defined.

End ScenarioFacts.

(** ** The browser JSON language client *)

Module JsonClientFacts.
Import JsonClient.

(** C10. Once [context.asAbsolutePath] has returned, [activate] returns
    normally whatever the wiring block does: an exception thrown by
    [new Worker] or by [startClient] is printed with [console.log], and
    nothing else is printed (building the constructor closure and the
    request service cannot throw). *)
Theorem activate_never_propagates (b : Browser) (printed : Console) (serverMain : string) :
  asAbsolutePath b "server/dist/browser/jsonServerMain.js" = Ok serverMain →
  evalM (activate b) printed = Ok tt
  ∧ execM (activate b) printed = printed ++
      match newWorker b serverMain with
      | Throw e => [e]
      | Ok worker =>
          match startClient b (newLanguageClient worker) {| runtimeHttp := http b |} with
          | Throw e => [e]
          | Ok _ => []
          end
      end.
Proof.
  intros Hpath.
  unfold evalM, execM, activate, tryCatch, mbind, M_bind, liftResult, console_log, modifyState.
  rewrite Hpath.
  destruct (newWorker b serverMain) as [worker|e]; [|done].
  destruct (startClient b _ _) as [[]|e]; cbn; [|done].
  by rewrite app_nil_r.
Qed.

Lemma activate_never_propagates_witness :
  asAbsolutePath Browsers.noWorkers "server/dist/browser/jsonServerMain.js"
  = Ok "/ext/server/dist/browser/jsonServerMain.js"
  ∧ evalM (activate Browsers.noWorkers) [] = Ok tt
  ∧ execM (activate Browsers.noWorkers) [] = [JsError "Worker is not defined"].
Proof.
  split; [reflexivity|].
  exact (activate_never_propagates Browsers.noWorkers []
           "/ext/server/dist/browser/jsonServerMain.js" eq_refl).
Defined.

(** The call before the [try] is not covered by it. *)
Lemma activate_path_failure (b : Browser) (printed : Console) (e : exn) :
  asAbsolutePath b "server/dist/browser/jsonServerMain.js" = Throw e →
  activate b printed = (Throw e, printed).
Proof. intros H. unfold activate, mbind, M_bind, liftResult. by rewrite H. Qed.

End JsonClientFacts.

(** ** The welcome page *)

Module WelcomeFacts.
Import Welcome.

(** The template literal is its parts filled in one after the other, every
    message going through [escape]. *)
Lemma page_assembled localize escape toUrl :
  az_data_welcome_page localize escape toUrl
  = assemble (λ k d, escape (localize k d)) toUrl template.
Proof. reflexivity. Qed.

Lemma assemble_ext msg msg' res res' parts :
  (∀ k d, In (Message k d) parts → msg k d = msg' k d) →
  (∀ p, In (Resource p) parts → res p = res' p) →
  assemble msg res parts = assemble msg' res' parts.
Proof.
  intros Hmsg Hres. unfold assemble. f_equal.
  apply map_ext_in. intros [text|k d|p] Hin; cbn; auto.
Qed.

(** C6. The page is one string, built from the literal text, the localized
    messages and two resource URLs; each localized message enters it as
    [escape (localize key default)] and in no other way, so two
    localizations whose escaped messages agree on the page's keys, with
    resource URLs that agree on the page's two images, give the same
    string. *)
Theorem welcome_page_pure (localize localize' : string → string → string)
    (escape : string → string) (toUrl toUrl' : string → string) :
  (∀ k d, In (Message k d) template → escape (localize k d) = escape (localize' k d)) →
  (∀ p, In (Resource p) template → toUrl p = toUrl' p) →
  az_data_welcome_page localize escape toUrl
  = assemble (λ k d, escape (localize k d)) toUrl template
  ∧ az_data_welcome_page localize escape toUrl
    = az_data_welcome_page localize' escape toUrl'.
Proof.
  intros Hmsg Hres. split; [apply page_assembled|].
  rewrite !page_assembled. by apply assemble_ext.
Qed.

Lemma welcome_page_pure_witness :
  (∀ k d, In (Message k d) template →
     Pages.escapeHtml (Pages.defaults k d) = Pages.escapeHtml (Pages.welcomeOnly k d))
  ∧ az_data_welcome_page Pages.defaults Pages.escapeHtml Pages.mediaUrl
    = az_data_welcome_page Pages.welcomeOnly Pages.escapeHtml Pages.mediaUrl.
Proof.
  assert (H : ∀ k d, In (Message k d) template →
            Pages.escapeHtml (Pages.defaults k d) = Pages.escapeHtml (Pages.welcomeOnly k d)).
  { intros k d Hin. unfold template in Hin. cbn [In] in Hin.
    repeat (destruct Hin as [Hin|Hin]; [by (try discriminate Hin; injection Hin as <- <-)|]).
    destruct Hin. }
  split; [exact H|].
  exact (proj2 (welcome_page_pure Pages.defaults Pages.welcomeOnly Pages.escapeHtml
                  Pages.mediaUrl Pages.mediaUrl H (λ p _, eq_refl))).
Defined.

End WelcomeFacts.

(** ** flattenArray *)

Module FlattenFacts.
Import Book Flatten.

(** Induction over values, through arrays and objects. *)
Section ValueInduction.
Variable P : value → Prop.
Hypothesis P_undefined : P VUndefined.
Hypothesis P_null : P VNull.
Hypothesis P_bool : ∀ b, P (VBool b).
Hypothesis P_num : ∀ n, P (VNum n).
Hypothesis P_str : ∀ s, P (VStr s).
Hypothesis P_arr : ∀ elems, Forall P elems → P (VArr elems).
Hypothesis P_obj : ∀ fields, Forall (λ kv, P kv.2) fields → P (VObj fields).

Fixpoint value_nested_ind (v : value) : P v :=
  match v with
  | VUndefined => P_undefined
  | VNull => P_null
  | VBool b => P_bool b
  | VNum n => P_num n
  | VStr s => P_str s
  | VArr elems =>
      P_arr elems
        ((fix all (l : list value) : Forall P l :=
            match l with
            | [] => List.Forall_nil P
            | x :: l' => List.Forall_cons P x l' (value_nested_ind x) (all l')
            end) elems)
  | VObj fields =>
      P_obj fields
        ((fix all (l : list (string * value)) : Forall (λ kv, P kv.2) l :=
            match l with
            | [] => List.Forall_nil _
            | kv :: l' =>
                List.Forall_cons (λ kv, P kv.2) kv l' (value_nested_ind kv.2) (all l')
            end) fields)
  end.

End ValueInduction.

(** The step for an object, through its [sections] property. *)
Lemma flattenVal_obj fields :
  flattenVal (VObj fields) =
  match flattenedSections fields with
  | Ok rest => Ok (VObj fields :: rest)
  | Throw e => Throw e
  end.
Proof.
  cbn [flattenVal].
  match goal with
  | |- match ?F fields with _ => _ end = _ =>
      assert (H : ∀ fs, F fs = flattenedSections fs)
  end.
  { induction fs as [|[k x] fs IH]; [reflexivity|].
    unfold flattenedSections. cbn [assoc].
    destruct (String.eqb k "sections"); [|exact IH].
    by destruct x. }
  by rewrite H.
Qed.

Lemma flattenList_cons val rest :
  flattenList (val :: rest) =
  match flattenVal val with
  | Ok a => match flattenList rest with Ok b => Ok (a ++ b) | Throw e => Throw e end
  | Throw e => Throw e
  end.
Proof. reflexivity. Qed.

Lemma flattenList_app l1 l2 :
  flattenList (l1 ++ l2) =
  match flattenList l1 with
  | Ok a => match flattenList l2 with Ok b => Ok (a ++ b) | Throw e => Throw e end
  | Throw e => Throw e
  end.
Proof.
  induction l1 as [|v l1 IH].
  - cbn. by destruct (flattenList l2).
  - cbn [app]. rewrite !flattenList_cons, IH.
    destruct (flattenVal v); [|done].
    destruct (flattenList l1); [|done].
    destruct (flattenList l2); [|done].
    by rewrite app_assoc.
Qed.

Lemma flattenVal_leaf v :
  isEntry v = true → hasArraySections v = false → flattenVal v = Ok [v].
Proof.
  destruct v as [| | | | | |fields]; try done.
  intros _ Hs. rewrite flattenVal_obj. unfold flattenedSections.
  unfold hasArraySections in Hs. cbn in Hs.
  destruct (assoc "sections" fields) as [[| | | | | |]|]; done.
Qed.

Lemma flattenVal_head v a :
  isEntry v = true → flattenVal v = Ok a → ∃ rest, a = v :: rest.
Proof.
  destruct v as [| | | | | |fields]; try done; try (intros _ [= <-]; by eexists).
  intros _. rewrite flattenVal_obj.
  destruct (flattenedSections fields) as [rest|]; [|done].
  intros [= <-]. by eexists.
Qed.

(** Everything raised is a TypeError. *)
Lemma flatten_TypeError v :
  (∀ e, flattenVal v = Throw e → e = TypeError)
  ∧ (∀ elems, v = VArr elems → ∀ e, flattenList elems = Throw e → e = TypeError).
Proof.
  induction v as [| | | | |elems IH|fields IH] using value_nested_ind;
    try (split; [by intros e [= <-] | done]); try (split; done).
  - split; [done|]. intros ? [= <-].
    induction IH as [|v l [Hv _] _ IHl]; [done|].
    intros e. rewrite flattenList_cons.
    destruct (flattenVal v) eqn:E; [|intros [= <-]; by apply Hv].
    destruct (flattenList l); [done|]. intros [= <-]. by apply IHl.
  - split; [|done]. intros e. rewrite flattenVal_obj. unfold flattenedSections.
    assert (Hs : ∀ x, assoc "sections" fields = Some x →
              ∀ elems, x = VArr elems → ∀ e, flattenList elems = Throw e → e = TypeError).
    { clear e. induction IH as [|[k x] l [_ Hx] _ IHl]; [done|].
      cbn [assoc]. destruct (String.eqb k "sections"); [|exact IHl].
      intros ? [= <-]. exact Hx. }
    destruct (assoc "sections" fields) as [[| | | | |elems|]|]; try done.
    destruct (flattenList elems) eqn:E; [done|].
    intros [= <-]. by eapply Hs.
Qed.

(** X1. [flattenArray] keeps every top-level entry, in order: when no element
    of the array is [undefined], [null] or itself an array, the array is a
    subsequence of the result; and when, moreover, no element has an array
    [sections], the result is the array itself. *)
Theorem flattenArray_keeps_entries (array out : list value) :
  Forall (λ v, isEntry v = true) array →
  flattenArray (VArr array) = Ok out →
  array `sublist_of` out
  ∧ (Forall (λ v, hasArraySections v = false) array → out = array).
Proof.
  cbn [flattenArray]. intros Hentries. revert out.
  induction Hentries as [|v l Hv _ IH]; intros out.
  - intros [= <-]. split; [done|done].
  - rewrite flattenList_cons.
    destruct (flattenVal v) as [a|] eqn:Ea; [|done].
    destruct (flattenList l) as [b|] eqn:Eb; [|done].
    intros [= <-]. destruct (IH b eq_refl) as [Hsub Hflat].
    destruct (flattenVal_head v a Hv Ea) as [rest ->].
    split.
    + cbn. apply sublist_skip. by apply sublist_inserts_l.
    + intros Hno. apply Forall_cons in Hno as [Hnv Hnl].
      rewrite (flattenVal_leaf v Hv Hnv) in Ea. injection Ea as <-.
      cbn. by rewrite (Hflat Hnl).
Qed.

Lemma flattenArray_keeps_entries_witness :
  let leaf := VObj [("title", VStr "Leaf"); ("url", VStr "leaf")] in
  let part := VObj [("title", VStr "Part"); ("sections", VArr [leaf])] in
  [part; VStr "divider"] `sublist_of` [part; leaf; VStr "divider"].
Proof.
  intros leaf part.
  refine (proj1 (flattenArray_keeps_entries [part; VStr "divider"]
                   [part; leaf; VStr "divider"] _ eq_refl)).
  repeat constructor.
Defined.

(** X2. [flattenArray] composes over concatenation and descends into
    [sections]: an object whose [sections] is an array is followed by the
    flattened sections, and then by what the rest of the array gives; an
    exception in any part is the exception of the whole. *)
Theorem flattenArray_preorder (before kids after : list value)
    (fields : list (string * value)) :
  assoc "sections" fields = Some (VArr kids) →
  flattenArray (VArr (before ++ VObj fields :: after)) =
    (a ← flattenArray (VArr before);
     k ← flattenArray (VArr kids);
     b ← flattenArray (VArr after);
     Ok (a ++ VObj fields :: k ++ b)).
Proof.
  intros Hs. cbn [flattenArray]. rewrite flattenList_app, flattenList_cons, flattenVal_obj.
  unfold flattenedSections. rewrite Hs. unfold mbind, result_bind.
  destruct (flattenList before); [|done].
  destruct (flattenList kids); [|done].
  destruct (flattenList after); done.
Qed.

Lemma flattenArray_preorder_witness :
  let leaf := VObj [("title", VStr "Leaf")] in
  let fields := [("title", VStr "Part"); ("sections", VArr [leaf; leaf])] in
  flattenArray (VArr (VStr "intro" :: VObj fields :: [VNum 3]))
  = Ok [VStr "intro"; VObj fields; leaf; leaf; VNum 3].
Proof.
  intros leaf fields.
  exact (flattenArray_preorder [VStr "intro"] [leaf; leaf] [VNum 3] fields eq_refl).
Defined.

(** X3. [flattenArray] fails with a TypeError and with nothing else: on an
    argument that is not an array (an empty YAML file parses to
    [undefined]), and on an array that holds [null] or [undefined]. *)
Theorem flattenArray_failure (v : value) (array : list value) :
  (∀ e, flattenArray v = Throw e → e = TypeError)
  ∧ ((∀ elems, v ≠ VArr elems) → flattenArray v = Throw TypeError)
  ∧ (In VNull array ∨ In VUndefined array → flattenArray (VArr array) = Throw TypeError).
Proof.
  assert (Hall : ∀ elems e, flattenList elems = Throw e → e = TypeError).
  { intros elems e. by apply (proj2 (flatten_TypeError (VArr elems)) elems). }
  split; [|split].
  - intros e. destruct v; cbn [flattenArray]; try by intros [= <-]. apply Hall.
  - intros Hv. destruct v; cbn [flattenArray]; try done. by destruct (Hv elems).
  - intros Hin. cbn [flattenArray].
    assert (Hbad : ∃ x, In x array ∧ flattenVal x = Throw TypeError).
    { destruct Hin as [H|H]; eexists; (split; [exact H | done]). }
    clear Hin. destruct Hbad as (x & Hin & Hx).
    induction array as [|y l IH]; [done|].
    rewrite flattenList_cons.
    destruct (flattenVal y) eqn:Ey.
    + destruct Hin as [->|Hin]; [congruence|]. by rewrite (IH Hin).
    + f_equal. by apply (proj1 (flatten_TypeError y)).
Qed.

End FlattenFacts.

(** ** getBooks *)

Module BooksFacts.
Import Book Loading Discovery.

Lemma loaded_or_error h paths :
  length (loadedBooks h paths) + length (loadErrors h paths) = length paths.
Proof.
  induction paths as [|p paths IH]; [done|].
  cbn [loadedBooks loadErrors flat_map]. rewrite !length_app.
  fold (loadedBooks h paths) (loadErrors h paths).
  destruct (bookAt h p); cbn; lia.
Qed.

Lemma loadBook_ok h root tocPath b :
  loadBook h root tocPath = Ok b →
  ∃ configText config tocText,
    fs_readFileSync h (path_join h [root; "_config.yml"]) = Ok configText
    ∧ yaml_safeLoad h configText = Ok config
    ∧ fs_readFileSync h tocPath = Ok tocText
    ∧ yaml_safeLoad h tocText = Ok (page (book b))
    ∧ getProp config "title" = Ok (title (book b))
    ∧ flattenArray (page (book b)) = Ok (tableOfContents (book b))
    ∧ Book.root (book b) = root ∧ type (book b) = TyBook
    ∧ iconPath b = bookIcons h.
Proof.
  unfold loadBook, mbind, result_bind.
  destruct (fs_readFileSync h (path_join h _)) as [configText|] eqn:E1; [|done].
  destruct (yaml_safeLoad h configText) as [config|] eqn:E2; [|done].
  destruct (fs_readFileSync h tocPath) as [tocText|] eqn:E3; [|done].
  destruct (yaml_safeLoad h tocText) as [toc|] eqn:E4; [|done].
  destruct (getProp config "title") as [t|] eqn:E5; [|done].
  destruct (flattenArray toc) as [flat|] eqn:E6; [|done].
  intros [= <-]. by exists configText, config, tocText.
Qed.

(** X4. [getBooks] accounts for every table-of-contents path: the number of
    books it returns plus the number of message boxes it shows is the number
    of paths, it shows nothing but error messages, and it changes no field
    of the provider. *)
Theorem getBooks_accounts_for_paths (h : Host) (s : State) :
  ∃ books shown,
    getBooks h s = (Ok books, set_trace (trace s ++ shown) s)
    ∧ length books + length shown = length (tableOfContentPaths s)
    ∧ Forall (λ e, ∃ m, e = ShowErrorMessage m) shown.
Proof.
  exists (loadedBooks h (tableOfContentPaths s)), (loadErrors h (tableOfContentPaths s)).
  split; [|split].
  - unfold getBooks, mbind, M_bind, getState.
    by rewrite LoadingFacts.getBooksFrom_run.
  - apply loaded_or_error.
  - induction (tableOfContentPaths s) as [|p paths IH]; [by constructor|].
    cbn [loadErrors flat_map]. apply Forall_app. split; [|exact IH].
    destruct (bookAt h p); repeat constructor. by eexists.
Qed.

(** X5. Every book [getBooks] returns is of type Book and comes from one of
    the table-of-contents paths: its root is the directory two levels above
    the path, its page is what the file at the path parses to, its table of
    contents is that page flattened, and its title is the [title] of the
    [_config.yml] in its root. *)
Theorem getBooks_items (h : Host) (s : State) (books : list BookTreeItem) (b : BookTreeItem) :
  evalM (getBooks h) s = Ok books →
  In b books →
  type (book b) = TyBook
  ∧ flattenArray (page (book b)) = Ok (tableOfContents (book b))
  ∧ ∃ tocPath tocText configText config,
      In tocPath (tableOfContentPaths s)
      ∧ root (book b) = path_dirname h (path_dirname h tocPath)
      ∧ fs_readFileSync h tocPath = Ok tocText
      ∧ yaml_safeLoad h tocText = Ok (page (book b))
      ∧ fs_readFileSync h (path_join h [root (book b); "_config.yml"]) = Ok configText
      ∧ yaml_safeLoad h configText = Ok config
      ∧ getProp config "title" = Ok (title (book b)).
Proof.
  unfold evalM, getBooks, mbind, M_bind, getState.
  rewrite LoadingFacts.getBooksFrom_run. cbn. intros [= <-].
  induction (tableOfContentPaths s) as [|p paths IH]; [done|].
  cbn [loadedBooks flat_map]. intros Hin. apply in_app_or in Hin as [Hin|Hin].
  - unfold bookAt in Hin.
    destruct (loadBook h _ p) as [b'|] eqn:Hb; [|done].
    destruct Hin as [->|[]].
    apply loadBook_ok in Hb
      as (configText & config & tocText & H1 & H2 & H3 & H4 & H5 & H6 & H7 & H8 & _).
    split; [done|]. split; [done|].
    exists p, tocText, configText, config. rewrite H7.
    repeat split; try done. by left.
  - destruct (IH Hin) as (Hty & Hflat & p' & t' & c' & cfg & Hp' & Hrest).
    split; [done|]. split; [done|]. exists p', t', c', cfg. split; [by right | done].
Qed.

Lemma getBooks_items_witness :
  let s := run [(Scenario.bookWorld, Resumes 0)]
             (execM (construct Scenario.bookWorld [{| uri := Uri_file "/ws" |}])
                initialState) in
  let b := {| book := {| title := VStr "Handbook"; root := "/ws/book";
                         tableOfContents := [Scenario.introSection];
                         page := VArr [Scenario.introSection]; type := TyBook |};
              iconPath := bookIcons Scenario.bookWorld |} in
  flattenArray (page (book b)) = Ok (tableOfContents (book b)).
Proof.
  intros s b.
  exact (proj1 (proj2 (getBooks_items Scenario.bookWorld s [b] b eq_refl (or_introl eq_refl)))).
Defined.

Lemma getBooks_eval h s :
  evalM (getBooks h) s = Ok (loadedBooks h (tableOfContentPaths s)).
Proof.
  unfold evalM, getBooks, mbind, M_bind, getState.
  by rewrite LoadingFacts.getBooksFrom_run.
Qed.

(** X6. The root of the tree lists the books found by the discoveries that
    have run so far. Right after the constructor, whose glob is still
    pending, [getBooks] returns no book. Once the discovery of the
    constructor, or a [refresh] on an open workspace, has run to its end
    with nothing in between, [getBooks] returns the books that load among
    the paths the globs collected, in the order collected, the files being
    read as they are when [getBooks] runs. A [refresh] that starts while
    the glob of the constructor is pending does not replace it: when both
    globs have resolved every book is listed twice. *)
Theorem getBooks_after_discovery (h h' : Host) (folders : list WorkspaceFolder) (s : State) :
  evalM (getBooks h') (execM (construct h folders) initialState) = Ok []
  ∧ (∀ n, (turns folders ≤ n)%nat →
     evalM (getBooks h') (uninterrupted h n (construct h folders) initialState)
     = Ok (loadedBooks h' (collected h folders).1))
  ∧ (∀ n, workspace_workspaceFolders h = Some folders → (turns folders ≤ n)%nat →
     evalM (getBooks h') (uninterrupted h n (refresh h) s)
     = Ok (loadedBooks h' (collected h folders).1))
  ∧ (∀ a found,
     workspace_workspaceFolders h = Some [a] →
     glob h (tocPattern h (fsPath (uri a))) (effectiveDepth h (config_maxBookSearchDepth h))
       = Ok found →
     evalM (getBooks h')
       (run [(h, CallRefresh); (h, Resumes 0); (h, Resumes 0)]
          (execM (construct h [a]) initialState))
     = Ok (loadedBooks h' (found ++ found))).
Proof.
  split; [|split; [|split]].
  - rewrite getBooks_eval. unfold execM, construct, getTableOfContentFiles.
    rewrite DiscoveryFacts.discoverFrom_run. by destruct folders.
  - intros n Hn. rewrite getBooks_eval. unfold construct.
    by rewrite (DiscoveryFacts.getTableOfContentFiles_alone h folders ByConstructor _ n Hn).
  - intros n Hw Hn. rewrite getBooks_eval.
    rewrite (DiscoveryFacts.refresh_alone h s n) by (unfold refreshTurns; by rewrite Hw).
    by rewrite Hw.
  - intros a found Hw Hg. rewrite getBooks_eval.
    by rewrite (DiscoveryFacts.refresh_over_constructor h a found Hw Hg).
Qed.

End BooksFacts.

(** ** getSections and getChildren *)

Module ListingFacts.
Import Book Cache SectionFacts NavigationFacts.

(** What one entry does, whatever the state: the items it pushes, the
    notebooks it records and the messages it shows. *)
Lemma visitSection_delta h toc root section :
  ∃ r recorded shown,
    (∀ s, visitSection h toc root section s =
            (r, set_trace (trace s ++ shown)
                  (set_allNotebooks (recordAll h recorded (allNotebooks s)) s)))
    ∧ (∀ pushed, r = Ok pushed →
         recorded = List.filter isNotebook pushed
         ∧ (pushed = [] ∨ ∃ it, pushed = [it] ∧ shown = []
              ∧ page (book it) = section ∧ Book.root (book it) = root
              ∧ tableOfContents (book it) = toc ∧ type (book it) ≠ TyBook
              ∧ getProp section "title" = Ok (title (book it)))
         ∧ (shown = [] ∨ ∃ t, getProp section "title" = Ok t
              ∧ shown = [ShowErrorMessage
                           (localize "missingFileError" "Missing file : {0}" [t])]))
    ∧ (∀ e, r = Throw e → recorded = [] ∧ shown = [] ∧ e = TypeError).
Proof.
  assert (Hsame : ∀ s, set_trace (trace s ++ [])
                         (set_allNotebooks (recordAll h [] (allNotebooks s)) s) = s).
  { intros [] . cbn. by rewrite app_nil_r. }
  unfold visitSection, mbind, M_bind, liftResult.
  destruct (getProp section "url") as [url|e] eqn:Hurl.
  2:{ exists (Throw e), [], []. split; [intros s; by rewrite Hsame|].
      split; [done|]. intros ? [= <-]. repeat split.
      destruct section; cbn in Hurl; congruence. }
  destruct (truthy url).
  2:{ exists (Ok []), [], []. split; [intros s; by rewrite Hsame|].
      split; [|done]. intros ? [= <-]. repeat split; by left. }
  destruct (getProp section "external") as [ext|e] eqn:Hext.
  2:{ destruct section; done. }
  destruct (getProp section "title") as [t|e] eqn:Ht.
  2:{ destruct section; done. }
  destruct (truthy ext).
  { eexists (Ok [_]), [], []. split; [intros s; by rewrite Hsame|].
    split; [|done]. intros ? [= <-]. split; [done|]. split; [|by left].
    right. eexists. by repeat split. }
  destruct url as [| | | |u| |]; cbn [concatStr];
    try (exists (Throw TypeError), [], []; split; [intros s; by rewrite Hsame|];
         split; [done|]; intros ? [= <-]; by repeat split).
  destruct (fs_existsSync h _).
  { eexists (Ok [_]), [_], []. split.
    - intros s. cbn [recordAll foldl].
      rewrite (notebookPath_sectionItem h toc root section t TyNotebook
                 (notebookIcons h) u Hurl).
      destruct s. cbn. by rewrite app_nil_r.
    - split; [|done]. intros ? [= <-]. split; [done|]. split; [|by left].
      right. eexists. by repeat split. }
  destruct (fs_existsSync h _).
  { eexists (Ok [_]), [], []. split; [intros s; by rewrite Hsame|].
    split; [|done]. intros ? [= <-]. split; [done|]. split; [|by left].
    right. eexists. by repeat split. }
  eexists (Ok []), [], [_]. split.
  - intros s. by destruct s.
  - split; [|done]. intros ? [= <-]. split; [done|]. split; [by left|].
    right. by eexists.
Qed.

Lemma recordAll_last h before it after m :
  (∀ x, In x after → notebookPath h x ≠ notebookPath h it) →
  recordAll h (before ++ it :: after) m !! notebookPath h it = Some it.
Proof.
  intros Hafter. rewrite recordAll_app.
  change (recordAll h (it :: after) ?m')
    with (recordAll h after (<[notebookPath h it := it]> m')).
  rewrite recordAll_skip by done. apply lookup_insert_eq.
Qed.

Lemma last_with_path h items k :
  (∀ x, In x items → notebookPath h x ≠ k)
  ∨ ∃ before it after, items = before ++ it :: after ∧ notebookPath h it = k
      ∧ ∀ x, In x after → notebookPath h x ≠ k.
Proof.
  induction items as [|y items IH] using rev_ind; [by left|].
  destruct (decide (notebookPath h y = k)) as [Hy|Hy].
  - right. exists items, y, []. by repeat split.
  - destruct IH as [Hnone | (before & it & after & -> & Hit & Hafter)].
    + left. intros x Hx. apply in_app_or in Hx as [Hx | [<- | []]]; [by apply Hnone | done].
    + right. exists before, it, (after ++ [y]). split; [by rewrite <- app_assoc|].
      split; [done|]. intros x Hx.
      apply in_app_or in Hx as [Hx | [<- | []]]; [by apply Hafter | done].
Qed.

(** Recording the same items once more changes nothing. *)
Lemma recordAll_idem h items m :
  recordAll h items (recordAll h items m) = recordAll h items m.
Proof.
  apply map_eq. intros k.
  destruct (last_with_path h items k) as [Hnone | (before & it & after & -> & <- & Hafter)].
  - by rewrite !recordAll_skip.
  - by rewrite !recordAll_last.
Qed.

(** What a list of entries does, whatever the state. *)
Lemma getSections_delta h toc root sections :
  ∃ r recorded shown,
    (∀ s, getSections h toc sections root s =
            (r, set_trace (trace s ++ shown)
                  (set_allNotebooks (recordAll h recorded (allNotebooks s)) s)))
    ∧ (∀ items, r = Ok items →
         map (λ it, page (book it)) items `sublist_of` sections
         ∧ Forall (λ it, Book.root (book it) = root ∧ tableOfContents (book it) = toc
                         ∧ type (book it) ≠ TyBook
                         ∧ getProp (page (book it)) "title" = Ok (title (book it))) items
         ∧ (length items + length shown ≤ length sections)%nat
         ∧ Forall (λ e, ∃ section t, In section sections
                          ∧ getProp section "title" = Ok t
                          ∧ e = ShowErrorMessage
                                  (localize "missingFileError" "Missing file : {0}" [t]))
             shown)
    ∧ (∀ e, r = Throw e → e = TypeError).
Proof.
  induction sections as [|x sections IH].
  - exists (Ok []), [], []. split; [|split; [|done]].
    + intros []. cbn. by rewrite app_nil_r.
    + intros ? [= <-]. repeat split; try done; by constructor.
  - destruct (visitSection_delta h toc root x) as (r1 & rec1 & sh1 & Hrun1 & Hok1 & Hthrow1).
    destruct IH as (r2 & rec2 & sh2 & Hrun2 & Hok2 & Hthrow2).
    destruct r1 as [pushed|e1].
    2:{ exists (Throw e1), rec1, sh1. split; [|split; [done|]].
        - intros s. by rewrite getSections_cons, Hrun1.
        - intros ? [= <-]. by apply Hthrow1. }
    assert (Hcompose : ∀ s,
              set_trace
                (trace (set_trace (trace s ++ sh1)
                          (set_allNotebooks (recordAll h rec1 (allNotebooks s)) s)) ++ sh2)
                (set_allNotebooks
                   (recordAll h rec2
                      (allNotebooks
                         (set_trace (trace s ++ sh1)
                            (set_allNotebooks (recordAll h rec1 (allNotebooks s)) s))))
                   (set_trace (trace s ++ sh1)
                      (set_allNotebooks (recordAll h rec1 (allNotebooks s)) s)))
              = set_trace (trace s ++ sh1 ++ sh2)
                  (set_allNotebooks (recordAll h (rec1 ++ rec2) (allNotebooks s)) s)).
    { intros s. cbn. by rewrite recordAll_app, app_assoc. }
    destruct r2 as [more|e2].
    2:{ exists (Throw e2), (rec1 ++ rec2), (sh1 ++ sh2). split; [|split; [done|]].
        - intros s. by rewrite getSections_cons, Hrun1, Hrun2, Hcompose.
        - intros ? [= <-]. by apply Hthrow2. }
    exists (Ok (pushed ++ more)), (rec1 ++ rec2), (sh1 ++ sh2). split; [|split; [|done]].
    + intros s. by rewrite getSections_cons, Hrun1, Hrun2, Hcompose.
    + intros ? [= <-].
      destruct (Hok1 pushed eq_refl) as (_ & Hshape & Hshown).
      destruct (Hok2 more eq_refl) as (Hsub & Hall & Hlen & Hmsgs).
      assert (Hmsgs' : Forall (λ e, ∃ section t, In section (x :: sections)
                          ∧ getProp section "title" = Ok t
                          ∧ e = ShowErrorMessage
                                  (localize "missingFileError" "Missing file : {0}" [t]))
                         sh2).
      { eapply Forall_impl; [exact Hmsgs|].
        intros e (section & t & Hin & Ht & ->). exists section, t. split; [by right | done]. }
      destruct Hshape as [-> | (it & -> & -> & Hpage & Hroot & Htoc & Hty & Htitle)].
      * cbn [app map]. split; [by apply sublist_cons|]. split; [done|].
        destruct Hshown as [-> | (t & Ht & ->)].
        -- cbn. split; [lia | done].
        -- cbn. split; [lia|]. constructor; [|done].
           exists x, t. split; [by left | done].
      * cbn [app map length]. rewrite Hpage. split; [by apply sublist_skip|].
        split; [constructor; [by rewrite Hpage|done]|].
        split; [lia | done].
Qed.

Lemma getSections_app_run h toc root l1 l2 s :
  getSections h toc (l1 ++ l2) root s =
  match getSections h toc l1 root s with
  | (Ok a, s1) =>
      match getSections h toc l2 root s1 with
      | (Ok b, s2) => (Ok (a ++ b), s2)
      | (Throw e, s2) => (Throw e, s2)
      end
  | (Throw e, s1) => (Throw e, s1)
  end.
Proof.
  revert s. induction l1 as [|x l1 IH]; intros s.
  - cbn [app]. change (getSections h toc [] root s) with (Ok (@nil BookTreeItem), s).
    cbn. by destruct (getSections h toc l2 root s) as [[b|e] s2].
  - cbn [app]. rewrite !getSections_cons.
    destruct (visitSection h toc root x s) as [[pushed|e] s0]; [|done].
    rewrite IH.
    destruct (getSections h toc l1 root s0) as [[a|e] s1]; [|done].
    destruct (getSections h toc l2 root s1) as [[b|e] s2]; [|done].
    by rewrite app_assoc.
Qed.

(** X7. [getSections] lists entries in order, at most one item per entry:
    the pages of the items it returns are a subsequence of the entries, and
    every item carries the root and table of contents it was called with,
    the entry's title, and a type other than Book. *)
Theorem getSections_items (h : Host) (toc sections : list value) (root : string)
    (s s' : State) (items : list BookTreeItem) :
  getSections h toc sections root s = (Ok items, s') →
  map (λ it, page (book it)) items `sublist_of` sections
  ∧ Forall (λ it, Book.root (book it) = root ∧ tableOfContents (book it) = toc
                  ∧ type (book it) ≠ TyBook
                  ∧ getProp (page (book it)) "title" = Ok (title (book it))) items.
Proof.
  destruct (getSections_delta h toc root sections) as (r & rec & sh & Hrun & Hok & _).
  rewrite Hrun. intros [= -> _]. by destruct (Hok items eq_refl) as (? & ? & _).
Qed.

Lemma getSections_items_witness :
  map (λ it, page (book it))
    [sectionItem [Scenario.introSection] "/ws/book" Scenario.introSection
       (VStr "Introduction") TyNotebook (notebookIcons Scenario.bookWorld)]
  `sublist_of` [VObj [("title", VStr "Part")]; Scenario.introSection].
Proof.
  exact (proj1 (getSections_items Scenario.bookWorld [Scenario.introSection]
                  [VObj [("title", VStr "Part")]; Scenario.introSection] "/ws/book"
                  initialState Scenario.afterListing _ eq_refl)).
Defined.

(** X8. Every entry gives one item, one message box or nothing: the items
    returned and the messages shown together number at most the entries,
    every message is [Missing file] with the title of one of the entries,
    and apart from these messages and the notebooks recorded in the map
    [getSections] changes nothing in the provider. *)
Theorem getSections_accounting (h : Host) (toc sections : list value) (root : string)
    (s s' : State) (items : list BookTreeItem) :
  getSections h toc sections root s = (Ok items, s') →
  ∃ shown,
    s' = set_trace (trace s ++ shown)
           (set_allNotebooks (recordAll h (List.filter isNotebook items) (allNotebooks s)) s)
    ∧ (length items + length shown ≤ length sections)%nat
    ∧ Forall (λ e, ∃ section t, In section sections
                     ∧ getProp section "title" = Ok t
                     ∧ e = ShowErrorMessage
                             (localize "missingFileError" "Missing file : {0}" [t]))
        shown.
Proof.
  intros Hget. pose proof (getSections_cache _ _ _ _ _ _ _ Hget) as Hcache.
  destruct (getSections_delta h toc root sections) as (r & rec & sh & Hrun & Hok & _).
  rewrite Hrun in Hget. injection Hget as -> <-.
  destruct (Hok items eq_refl) as (_ & _ & Hlen & Hmsgs).
  exists sh. split; [|done]. cbn in Hcache. by rewrite Hcache.
Qed.

Lemma getSections_accounting_witness :
  ∃ shown,
    Scenario.afterListing =
      set_trace (trace initialState ++ shown)
        (set_allNotebooks
           (recordAll Scenario.bookWorld
              (List.filter isNotebook
                 [sectionItem [Scenario.introSection] "/ws/book" Scenario.introSection
                    (VStr "Introduction") TyNotebook (notebookIcons Scenario.bookWorld)])
              (allNotebooks initialState)) initialState)
    ∧ (1 + length shown ≤ 1)%nat.
Proof.
  destruct (getSections_accounting Scenario.bookWorld [Scenario.introSection]
              [Scenario.introSection] "/ws/book" initialState Scenario.afterListing _ eq_refl)
    as (shown & Hs & Hlen & _).
  exists shown. by split.
Defined.

(** X9. Listing composes: the entries of a concatenation are listed as the
    first part and then, from the state that leaves, the second part, the
    items being concatenated; when a part throws, the items are lost but
    the notebooks recorded and the messages shown until then stay. *)
Theorem getSections_app (h : Host) (toc l1 l2 : list value) (root : string) (s : State) :
  getSections h toc (l1 ++ l2) root s =
  match getSections h toc l1 root s with
  | (Ok a, s1) =>
      match getSections h toc l2 root s1 with
      | (Ok b, s2) => (Ok (a ++ b), s2)
      | (Throw e, s2) => (Throw e, s2)
      end
  | (Throw e, s1) => (Throw e, s1)
  end.
Proof. apply getSections_app_run. Qed.

(** X10. Expanding a node again is harmless: in the same world, [getSections]
    returns the same result whatever the provider's state, and a second
    listing of the same entries leaves the map exactly as the first left
    it. *)
Theorem getSections_again (h : Host) (toc sections : list value) (root : string)
    (s s0 : State) :
  let first := getSections h toc sections root s in
  let second := getSections h toc sections root first.2 in
  second.1 = first.1
  ∧ allNotebooks second.2 = allNotebooks first.2
  ∧ evalM (getSections h toc sections root) s0 = first.1.
Proof.
  destruct (getSections_delta h toc root sections) as (r & rec & sh & Hrun & _).
  cbn zeta. unfold evalM. rewrite !Hrun. cbn. rewrite ?Hrun. cbn.
  by rewrite recordAll_idem.
Qed.

(** X11. [getSections] throws nothing but a TypeError; it does so on an entry
    that is [null] or [undefined]; and when an entry throws after entries
    that were listed, the call ends in the state those entries left: their
    notebooks stay recorded although no item is returned. *)
Theorem getSections_failure (h : Host) (toc before after : list value) (bad : value)
    (root : string) (s : State) :
  (∀ sections e, evalM (getSections h toc sections root) s = Throw e → e = TypeError)
  ∧ (bad = VNull ∨ bad = VUndefined →
     evalM (getSections h toc [bad] root) s = Throw TypeError)
  ∧ (∀ items s1 e,
       getSections h toc before root s = (Ok items, s1) →
       evalM (getSections h toc [bad] root) s1 = Throw e →
       getSections h toc (before ++ bad :: after) root s = (Throw e, s1)).
Proof.
  split; [|split].
  - intros sections e.
    destruct (getSections_delta h toc root sections) as (r & rec & sh & Hrun & _ & Hthrow).
    unfold evalM. rewrite Hrun. apply Hthrow.
  - by intros [-> | ->].
  - intros items s1 e Hbefore.
    rewrite getSections_app_run, Hbefore, getSections_cons.
    unfold evalM. rewrite getSections_single.
    destruct (visitSection_delta h toc root bad) as (r & rec & sh & Hrun & _ & Hthrow).
    rewrite !Hrun. cbn. intros ->.
    destruct (Hthrow e eq_refl) as (-> & -> & _).
    destruct s1. cbn. by rewrite app_nil_r.
Qed.

(** X12. [getChildren] lists an element's sections against the element's own
    root and table of contents: every child has the parent's root and
    table of contents and is not a Book; an element without sections has no
    children, and listing it changes nothing; without an element the
    children are the books. *)
Theorem getChildren_items (h : Host) (element : BookTreeItem) (s : State) :
  (∀ sections items s',
     item_sections h element = Some sections →
     getChildren h (Some element) s = (Ok items, s') →
     map (λ it, page (book it)) items `sublist_of` sections
     ∧ Forall (λ it, Book.root (book it) = Book.root (book element)
                     ∧ tableOfContents (book it) = tableOfContents (book element)
                     ∧ type (book it) ≠ TyBook) items)
  ∧ (item_sections h element = None → getChildren h (Some element) s = (Ok [], s))
  ∧ getChildren h None s = getBooks h s.
Proof.
  split; [|split; [|done]].
  - intros sections items s' Hs. cbn [getChildren]. rewrite Hs. intros Hget.
    destruct (getSections_delta h (tableOfContents (book element)) (Book.root (book element))
                sections) as (r & rec & sh & Hrun & Hok & _).
    rewrite Hrun in Hget. injection Hget as -> _.
    destruct (Hok items eq_refl) as (Hsub & Hall & _).
    split; [done|]. eapply Forall_impl; [exact Hall|]. by intros it (? & ? & ? & _).
  - intros Hs. cbn [getChildren]. by rewrite Hs.
Qed.

End ListingFacts.

(** ** Discovery, again *)

Module DiscoveryMore.
Import Book Discovery Separation.

Lemma replaceBackslashes_clean s : hasBackslash (replaceBackslashes s) = false.
Proof.
  unfold hasBackslash. induction s as [|c s IH]; [done|].
  cbn [replaceBackslashes list_ascii_of_string existsb]. rewrite IH, orb_false_r.
  destruct (Ascii.eqb c backslash) eqn:E; [reflexivity|].
  by rewrite Ascii.eqb_sym.
Qed.

Lemma replaceBackslashes_id s : hasBackslash s = false → replaceBackslashes s = s.
Proof.
  unfold hasBackslash. induction s as [|c s IH]; [done|].
  cbn [replaceBackslashes list_ascii_of_string existsb].
  intros H. apply orb_false_iff in H as [Hc Hs].
  rewrite Ascii.eqb_sym in Hc. rewrite Hc. by rewrite IH.
Qed.

Lemma replaceBackslashes_get s i :
  String.get i (replaceBackslashes s)
  = match String.get i s with
    | Some c => Some (if Ascii.eqb c backslash then slash else c)
    | None => None
    end.
Proof.
  revert i. induction s as [|c s IH]; intros i; [done|].
  destruct i as [|i]; cbn [replaceBackslashes String.get]; [done | apply IH].
Qed.

(** X13. The pattern handed to the glob is the joined path with every
    backslash turned into a slash and every other character kept where it
    is: it has the length of the joined path, a slash at each position
    where the joined path has a backslash, and at every other position the
    character of the joined path. So it never holds a backslash, and a
    joined path without backslashes is the pattern as it is. *)
Theorem tocPattern_slashes (h : Host) (workspacePath : string) :
  let joined := path_join h [workspacePath; "**"; "_data"; "toc.yml"] in
  let pattern := tocPattern h workspacePath in
  hasBackslash pattern = false
  ∧ String.length pattern = String.length joined
  ∧ (hasBackslash joined = false → pattern = joined)
  ∧ (∀ i, String.get i joined = Some backslash → String.get i pattern = Some slash)
  ∧ (∀ i c, String.get i joined = Some c → c ≠ backslash → String.get i pattern = Some c)
  ∧ (∀ i, String.get i joined = None → String.get i pattern = None).
Proof.
  intros joined pattern. subst pattern. unfold tocPattern. fold joined.
  split; [apply replaceBackslashes_clean|].
  split.
  { induction joined as [|c s IH]; [done|].
    cbn [replaceBackslashes String.length]. by rewrite IH. }
  split; [apply replaceBackslashes_id|].
  split; [|split].
  - intros i Hi. by rewrite replaceBackslashes_get, Hi.
  - intros i c Hi Hc. rewrite replaceBackslashes_get, Hi.
    destruct (Ascii.eqb_spec c backslash); done.
  - intros i Hi. by rewrite replaceBackslashes_get, Hi.
Qed.

(** X14. The glob is never given a zero or negative number as its depth:
    whenever the effective depth is a number, it is positive. *)
Theorem effectiveDepth_positive (h : Host) (d : value) (n : Z) :
  effectiveDepth h d = VNum n → (0 < n)%Z.
Proof.
  unfold effectiveDepth.
  destruct d as [| | |m| | |]; cbn; try (intros [= <-]; lia); try done;
    try (destruct (coerced_lt_zero h _); [intros [= <-]; lia | done]).
  destruct (Z.ltb_spec m 0); [intros [= <-]; lia|].
  destruct (Z.eqb_spec m 0); [done|]. intros [= <-]. lia.
Qed.

Lemma effectiveDepth_positive_witness :
  effectiveDepth Samples.emptyWorld (VNum (-3)) = VNum 5 ∧ (0 < 5)%Z.
Proof.
  split; [reflexivity|].
  exact (effectiveDepth_positive Samples.emptyWorld (VNum (-3)) 5 eq_refl).
Defined.

(** X15. Discovery accumulates unless it is reset, and a reset does not
    stop what is pending. With nothing in between, a second direct call of
    [getTableOfContentFiles] in the same world appends the same paths once
    more, whereas a second [refresh] leaves the list as the first left it.
    But [refresh] leaves every pending continuation in place, so that two
    discoveries that overlap both append after the reset: after two
    workspace-folder events in a row, or after a [refresh] that starts
    while the glob of the constructor is pending, the matches of the one
    workspace folder are in the list twice. *)
Theorem discovery_twice (h : Host) (folders : list WorkspaceFolder) (s : State) :
  (∀ n, (turns folders ≤ n)%nat →
     tableOfContentPaths
       (uninterrupted h n (getTableOfContentFiles h folders ByCaller)
          (uninterrupted h n (getTableOfContentFiles h folders ByCaller) s))
     = tableOfContentPaths s ++ (collected h folders).1 ++ (collected h folders).1)
  ∧ (∀ n, (refreshTurns h ≤ n)%nat →
     tableOfContentPaths (uninterrupted h n (refresh h) (uninterrupted h n (refresh h) s))
     = tableOfContentPaths (uninterrupted h n (refresh h) s))
  ∧ (∃ t, tasks (execM (refresh h) s) = tasks s ++ [t])
  ∧ (∀ a found,
     workspace_workspaceFolders h = Some [a] →
     glob h (tocPattern h (fsPath (uri a))) (effectiveDepth h (config_maxBookSearchDepth h))
       = Ok found →
     tableOfContentPaths
       (run [(h, WorkspaceFoldersChanged); (h, WorkspaceFoldersChanged);
             (h, Resumes (length (tasks s))); (h, Resumes (length (tasks s)))] s)
     = found ++ found
     ∧ tableOfContentPaths
         (run [(h, CallRefresh); (h, Resumes 0); (h, Resumes 0)]
            (execM (construct h [a]) initialState))
       = found ++ found
     ∧ ∀ n, (2 ≤ n)%nat →
         tableOfContentPaths (uninterrupted h n (refresh h) s) = found).
Proof.
  split; [|split; [|split]].
  - intros n Hn.
    rewrite !(DiscoveryFacts.getTableOfContentFiles_alone h folders ByCaller _ n Hn).
    cbn. symmetry. apply app_assoc.
  - intros n Hn. by rewrite !(CacheFacts.refresh_alone_paths h _ n Hn).
  - rewrite DiscoveryFacts.refresh_tasks.
    destruct (workspace_workspaceFolders h) as [[|a rest]|]; eauto.
  - intros a found Hw Hg. split; [|split].
    + by apply (DiscoveryFacts.refresh_twice_overlapping h a).
    + by apply (DiscoveryFacts.refresh_over_constructor h a).
    + intros n Hn. rewrite CacheFacts.refresh_alone_paths
        by (unfold refreshTurns, turns; rewrite Hw; cbn; lia).
      rewrite Hw. unfold collected. cbn. rewrite Hg. cbn. by rewrite app_nil_r.
Qed.

End DiscoveryMore.

(** ** Which operation writes which field *)

Module SeparationFacts.
Import Book Debounce Separation Fields.

Global Instance sameField_refl {A} (field : State → A) : Reflexive (sameField field).
Proof. by intros s. Qed.

Global Instance sameField_trans {A} (field : State → A) : Transitive (sameField field).
Proof. intros a b c Hab Hbc. unfold sameField in *. congruence. Qed.

Lemma perform_sameTimers h op :
  usesDebounce op = false → keeps sameTimers (perform h op).
Proof.
  assert (Ht : ∀ t s0, sameTimers s0 (set_trace t s0)) by (intros; repeat split).
  assert (Hp : ∀ l s0, sameTimers s0 (set_tableOfContentPaths l s0)) by (intros; repeat split).
  assert (Hc : ∀ k v s0, sameTimers s0 (set_allNotebooks (<[k:=v]> (allNotebooks s0)) s0))
    by (intros; repeat split).
  assert (Hk : ∀ l s0, sameTimers s0 (set_tasks l s0)) by (intros; repeat split).
  destruct op; cbn [perform usesDebounce]; intros Hop; try done;
    try apply (keeps_ret sameTimers).
  - apply BookFrames.keeps_refresh; auto; apply _.
  - apply BookFrames.keeps_getTableOfContentFiles; auto; apply _.
  - apply BookFrames.keeps_openNotebook; auto; apply _.
  - apply BookFrames.keeps_openExternalLink; auto; apply _.
  - apply (keeps_bind sameTimers); [|intros; apply (keeps_ret sameTimers)].
    apply BookFrames.keeps_getChildren; auto; apply _.
  - apply (keeps_bind sameTimers); [|intros; apply (keeps_ret sameTimers)].
    apply BookFrames.keeps_getBooks; auto; apply _.
  - apply BookFrames.keeps_refresh; auto; apply _.
  - apply BookFrames.keeps_resume; auto; apply _.
Qed.

Lemma perform_samePaths h op :
  discovers op = false → keeps (sameField tableOfContentPaths) (perform h op).
Proof.
  set (R := sameField tableOfContentPaths).
  assert (Ht : ∀ t s0, R s0 (set_trace t s0)) by done.
  assert (Hc : ∀ k v s0, R s0 (set_allNotebooks (<[k:=v]> (allNotebooks s0)) s0)) by done.
  assert (Hq : ∀ l n s0, R s0 (set_timers l n s0)) by done.
  assert (Hr : ∀ t s0, R s0 (set_throttleTimer t s0)) by done.
  assert (Hs : ∀ r s0, R s0 (set_resource r s0)) by done.
  destruct op as [| | | | | |[element|]| | | | | |]; cbn [perform discovers]; intros Hop;
    try done; try apply (keeps_ret R).
  - apply BookFrames.keeps_openNotebook; auto; apply _.
  - apply CacheFacts.keeps_openMarkdown; auto; apply _.
  - apply BookFrames.keeps_openExternalLink; auto; apply _.
  - apply (keeps_bind R); [|intros; apply (keeps_ret R)].
    cbn [getChildren]. destruct (item_sections h element); [|apply (keeps_ret R)].
    apply BookFrames.keeps_getSectionsFrom; auto; apply _.
  - apply (keeps_bind R); [|intros; apply (keeps_ret R)].
    apply BookFrames.keeps_getBooks; auto; apply _.
  - apply (keeps_bind R); [|intros; apply (keeps_ret R)].
    apply BookFrames.keeps_getBooks; auto; apply _.
  - apply CacheFacts.keeps_fireTimer; auto; apply _.
Qed.

Lemma perform_sameCache h op :
  listsSections op = false → keeps (sameField allNotebooks) (perform h op).
Proof.
  set (R := sameField allNotebooks).
  assert (Ht : ∀ t s0, R s0 (set_trace t s0)) by done.
  assert (Hp : ∀ l s0, R s0 (set_tableOfContentPaths l s0)) by done.
  assert (Hq : ∀ l n s0, R s0 (set_timers l n s0)) by done.
  assert (Hr : ∀ t s0, R s0 (set_throttleTimer t s0)) by done.
  assert (Hs : ∀ r s0, R s0 (set_resource r s0)) by done.
  assert (Hk : ∀ l s0, R s0 (set_tasks l s0)) by done.
  destruct op as [| | | | | |[element|]| | | | | |]; cbn [perform listsSections]; intros Hop;
    try done; try apply (keeps_ret R).
  - apply BookFrames.keeps_refresh; auto; apply _.
  - apply BookFrames.keeps_getTableOfContentFiles; auto; apply _.
  - apply BookFrames.keeps_openNotebook; auto; apply _.
  - apply CacheFacts.keeps_openMarkdown; auto; apply _.
  - apply BookFrames.keeps_openExternalLink; auto; apply _.
  - apply (keeps_bind R); [|intros; apply (keeps_ret R)].
    apply BookFrames.keeps_getBooks; auto; apply _.
  - apply (keeps_bind R); [|intros; apply (keeps_ret R)].
    apply BookFrames.keeps_getBooks; auto; apply _.
  - apply BookFrames.keeps_refresh; auto; apply _.
  - apply CacheFacts.keeps_fireTimer; auto; apply _.
  - apply BookFrames.keeps_resume; auto; apply _.
Qed.

(** X16. Each private field has its own writers. Only [openMarkdown] and the
    timer callback change the debounce fields (the pending timers, the
    handle, the resource): opening a notebook, listing or refreshing never
    cancels or schedules a preview. Only [refresh],
    [getTableOfContentFiles], the workspace-folders listener and the
    continuations these leave pending change the table-of-contents path
    list. Only [getChildren] of an element changes
    the notebook map. This holds whether the operation returns or throws. *)
Theorem fields_have_their_writers (h : Host) (op : Op) (s : State) :
  let s' := execM (perform h op) s in
  (usesDebounce op = false → sameTimers s s')
  ∧ (discovers op = false → tableOfContentPaths s' = tableOfContentPaths s)
  ∧ (listsSections op = false → allNotebooks s' = allNotebooks s).
Proof.
  intros s'. split; [|split]; intros Hop.
  - by apply perform_sameTimers.
  - by apply (perform_samePaths h op Hop s).
  - by apply (perform_sameCache h op Hop s).
Qed.

End SeparationFacts.

(** ** The debounce, again *)

Module DebounceMore.
Import Book Debounce DebounceFacts Separation.
Local Open Scope nat_scope.

(** Opening the current resource while a handle is held does nothing but
    store the resource again. *)
Lemma openMarkdown_held h r id s :
  resourceIs (resource s) r = true → throttleTimer s = Some id →
  execM (openMarkdown h r) s = set_resource (Some r) s.
Proof. intros Hr Hid. by rewrite openMarkdown_exec, Hr, Hid. Qed.

Lemma opens_held (hs : list Host) r id s :
  resourceIs (resource s) r = true → throttleTimer s = Some id →
  let s' := foldl (λ st h, execM (openMarkdown h r) st) s hs in
  trace s' = trace s ∧ timers s' = timers s ∧ throttleTimer s' = Some id.
Proof.
  revert s. induction hs as [|h hs IH]; intros s Hr Hid; [done|].
  cbn [foldl]. rewrite (openMarkdown_held h r id s Hr Hid).
  apply (IH (set_resource (Some r) s)); [|exact Hid].
  cbn. apply String.eqb_refl.
Qed.

(** X17. The handle of a timer that has fired is never dropped: once the
    deferred preview of the current resource has run, any number of further
    [openMarkdown] calls for that resource execute nothing and schedule
    nothing. *)
Theorem openMarkdown_dead_after_timer (h : Host) (hs : list Host) (r : string)
    (id : nat) (a : Action) (s : State) :
  timers s = [(id, a)] → throttleTimer s = Some id →
  resourceIs (resource s) r = true →
  let fired := execM (fireTimer h id) s in
  let later := foldl (λ st h', execM (openMarkdown h' r) st) fired hs in
  throttleTimer fired = Some id
  ∧ timers later = [] ∧ trace later = trace fired.
Proof.
  intros Ht Hid Hr fired later.
  assert (Hfired : fired = execM (runAction h a) (set_timers [] (nextTimer s) s))
    by apply (DebounceClaims.fireTimer_pending h id a s Ht).
  destruct (runAction_sameTimers h a (set_timers [] (nextTimer s) s))
    as (Hq & Hh & _ & Hres).
  rewrite <- Hfired in Hq, Hh, Hres. cbn in Hq, Hh, Hres.
  assert (Hid' : throttleTimer fired = Some id) by congruence.
  assert (Hr' : resourceIs (resource fired) r = true) by (by rewrite Hres).
  destruct (opens_held hs r id fired Hr' Hid') as (Htr & Htm & _).
  fold later in Htr, Htm. split; [done|]. split; [congruence | done].
Qed.

Lemma openMarkdown_dead_after_timer_witness :
  let w := Samples.emptyWorld in
  let s := run [(w, CallOpenMarkdown "a.md"); (w, CallOpenMarkdown "a.md")] initialState in
  let fired := execM (fireTimer w 1) s in
  let later := foldl (λ st h', execM (openMarkdown h' "a.md") st) fired [w; w; w] in
  timers later = [] ∧ trace later = trace fired.
Proof.
  intros w s fired later.
  exact (proj2 (openMarkdown_dead_after_timer w [w; w; w] "a.md" 1 (PreviewMarkdown "a.md") s
                  eq_refl eq_refl eq_refl)).
Defined.

(** *** Previews against opens *)

Global Instance noPreview_refl : Reflexive noPreview.
Proof. intros s. exists []. by rewrite app_nil_r. Qed.

Lemma previews_app t1 t2 : previews (t1 ++ t2) = previews t1 + previews t2.
Proof. unfold previews. by rewrite List.filter_app, List.length_app. Qed.

Global Instance noPreview_trans : Transitive noPreview.
Proof.
  intros a b c (t1 & H1 & Hp1) (t2 & H2 & Hp2). exists (t1 ++ t2).
  rewrite H2, H1, <- app_assoc, previews_app. split; [done | lia].
Qed.

Lemma noPreview_same s s' : trace s' = trace s → noPreview s s'.
Proof. intros H. exists []. by rewrite app_nil_r. Qed.

Lemma noPreview_emit e : isPreview e = false → keeps noPreview (emit e).
Proof.
  intros He s. exists [e]. split; [done|]. unfold previews. cbn. by rewrite He.
Qed.

Ltac quiet :=
  first [ apply (keeps_bind noPreview); [|intros ?]
        | apply (keeps_tryCatch noPreview); [|intros ?]
        | apply (keeps_ret noPreview)
        | apply (keeps_liftResult noPreview)
        | apply (keeps_getState noPreview)
        | apply noPreview_emit; reflexivity
        | apply (keeps_modifyState noPreview); intros; by apply noPreview_same ].

Lemma quiet_settle awaiter outcome : keeps noPreview (settle awaiter outcome).
Proof. destruct awaiter; cbn [settle]; unfold suspend; quiet. Qed.

Lemma quiet_discoverFrom h deep ws awaiter : keeps noPreview (discoverFrom h deep ws awaiter).
Proof.
  destruct ws as [|w ws]; cbn [discoverFrom]; unfold suspend; [|quiet].
  apply (keeps_bind noPreview); [quiet | intros s].
  apply (keeps_bind noPreview); [quiet | intros _].
  apply (keeps_bind noPreview); [quiet | intros _].
  apply quiet_settle.
Qed.

Lemma quiet_getTableOfContentFiles h folders awaiter :
  keeps noPreview (getTableOfContentFiles h folders awaiter).
Proof. apply quiet_discoverFrom. Qed.

Lemma quiet_refresh h : keeps noPreview (refresh h).
Proof.
  unfold refresh.
  apply (keeps_bind noPreview); [quiet | intros _].
  destruct (workspace_workspaceFolders h);
    [apply quiet_getTableOfContentFiles | apply quiet_settle].
Qed.

Lemma quiet_resume h i : keeps noPreview (resume h i).
Proof.
  unfold resume.
  apply (keeps_bind noPreview); [quiet | intros s].
  destruct (tasks s !! i) as [t|]; [|quiet].
  apply (keeps_bind noPreview); [quiet | intros _].
  destruct t as [pattern deep rest awaiter | awaiter [[]|err]]; cbn [resumeTask].
  - destruct (glob h pattern deep) as [found|err]; [|apply quiet_settle].
    apply (keeps_bind noPreview); [quiet | intros _; apply quiet_discoverFrom].
  - destruct awaiter; quiet.
  - destruct awaiter; quiet.
Qed.

Lemma quiet_openNotebook h r : keeps noPreview (openNotebook h r).
Proof. unfold openNotebook, showErrorMessage. repeat quiet. Qed.

Lemma quiet_openExternalLink h r : keeps noPreview (openExternalLink h r).
Proof. unfold openExternalLink, showErrorMessage. repeat quiet. Qed.

Lemma quiet_getBooksFrom h paths books : keeps noPreview (getBooksFrom h paths books).
Proof.
  revert books. induction paths as [|p paths IH]; intros books; cbn [getBooksFrom].
  - quiet.
  - apply (keeps_bind noPreview); [|intros ?; apply IH].
    unfold showErrorMessage. repeat quiet.
Qed.

Lemma quiet_getBooks h : keeps noPreview (getBooks h).
Proof.
  unfold getBooks. apply (keeps_bind noPreview); [quiet|].
  intros s. apply quiet_getBooksFrom.
Qed.

Lemma quiet_visitSection h toc root section :
  keeps noPreview (visitSection h toc root section).
Proof.
  unfold visitSection, showErrorMessage.
  apply (keeps_bind noPreview); [quiet | intros url].
  destruct (truthy url); [|quiet].
  apply (keeps_bind noPreview); [quiet | intros ext].
  destruct (truthy ext); [repeat quiet|].
  apply (keeps_bind noPreview); [quiet | intros ipynb].
  apply (keeps_bind noPreview); [quiet | intros md].
  destruct (fs_existsSync h _); [|destruct (fs_existsSync h _)]; repeat quiet.
Qed.

Lemma quiet_getSectionsFrom h toc root sections notebooks :
  keeps noPreview (getSectionsFrom h toc root sections notebooks).
Proof.
  revert notebooks.
  induction sections as [|x sections IH]; intros notebooks; cbn [getSectionsFrom].
  - quiet.
  - apply (keeps_bind noPreview); [apply quiet_visitSection | intros ?; apply IH].
Qed.

Lemma quiet_perform h op : usesDebounce op = false → keeps noPreview (perform h op).
Proof.
  destruct op as [| | | | | |[element|]| | | | | |]; cbn [perform usesDebounce]; intros Hop;
    try done; try apply (keeps_ret noPreview).
  - apply quiet_refresh.
  - apply quiet_getTableOfContentFiles.
  - apply quiet_openNotebook.
  - apply quiet_openExternalLink.
  - apply (keeps_bind noPreview); [|intros; quiet]. cbn [getChildren].
    destruct (item_sections h element); [apply quiet_getSectionsFrom | quiet].
  - apply (keeps_bind noPreview); [|intros; quiet]. apply quiet_getBooks.
  - apply (keeps_bind noPreview); [|intros; quiet]. apply quiet_getBooks.
  - apply quiet_refresh.
  - apply quiet_resume.
Qed.

Lemma runAction_previews h a s :
  previews (trace (execM (runAction h a) s)) = S (previews (trace s)).
Proof.
  destruct a as [r].
  unfold runAction, execM, tryCatch, mbind, M_bind, showErrorMessage, emit,
    modifyState, liftResult.
  destruct (commands_showPreview h (Uri_file r)); cbn [snd trace set_trace];
    rewrite ?previews_app; unfold previews; cbn; lia.
Qed.

Lemma filter_shorter (id : nat) (l : list (nat * Action)) x :
  x ∈ l → x.1 = id → length (filter (λ p, p.1 ≠ id) l) < length l.
Proof.
  induction l as [|y l IH]; [by intros ?%elem_of_nil|].
  intros Hin Hx. rewrite filter_cons. apply elem_of_cons in Hin as [<-|Hin].
  - rewrite decide_False by tauto. cbn. pose proof (length_filter (λ p, p.1 ≠ id) l). lia.
  - specialize (IH Hin Hx). destruct (decide (y.1 ≠ id)); cbn; lia.
Qed.

Lemma clearTimeout_effect t s :
  trace (execM (clearTimeout t) s) = trace s
  ∧ length (timers (execM (clearTimeout t) s)) ≤ length (timers s).
Proof.
  destruct t as [id|]; cbn; [|done]. split; [done|]. apply length_filter.
Qed.

Lemma perform_bound h op s :
  let s' := execM (perform h op) s in
  previews (trace s') + length (timers s')
  ≤ previews (trace s) + length (timers s) + isOpen op.
Proof.
  intros s'. destruct (usesDebounce op) eqn:Hop.
  - destruct op as [| | |r| | | | | | | |id|]; try done; subst s'; cbn [perform isOpen].
    + rewrite openMarkdown_exec. destruct (resourceIs (resource s) r).
      * destruct (throttleTimer s);
          cbn [trace timers set_resource set_throttleTimer set_timers]; [lia|].
        rewrite length_app. cbn [length]. lia.
      * rewrite runAction_previews.
        destruct (runAction_sameTimers h (PreviewMarkdown r)
                    (set_resource (Some r)
                       (set_throttleTimer None (execM (clearTimeout (throttleTimer s)) s))))
          as (-> & _).
        cbn [trace timers set_resource set_throttleTimer].
        destruct (clearTimeout_effect (throttleTimer s) s) as (-> & Hlen). lia.
    + unfold fireTimer. rewrite execM_bind. cbn [getState].
      destruct (list_find _ (timers s)) as [[i [id' a]]|] eqn:Hfind; [|cbn; lia].
      rewrite execM_bind. cbn [modifyState]. rewrite runAction_previews.
      destruct (runAction_sameTimers h a
                  (set_timers (filter (λ p, p.1 ≠ id) (timers s)) (nextTimer s) s))
        as (-> & _).
      cbn [trace timers set_timers].
      apply list_find_Some in Hfind as (Hl & Hid & _).
      pose proof (filter_shorter id (timers s) (id', a)
                    (list_elem_of_lookup_2 _ _ _ Hl) Hid).
      lia.
  - destruct (quiet_perform h op Hop s) as (t & Ht & Hp).
    destruct (SeparationFacts.perform_sameTimers h op Hop s) as (Hq & _).
    subst s'. rewrite Ht, Hq, previews_app, Hp.
    destruct op; try done; cbn; lia.
Qed.

Lemma run_bound steps s :
  previews (trace (run steps s)) + length (timers (run steps s))
  ≤ previews (trace s) + length (timers s) + opens steps.
Proof.
  revert s. induction steps as [|[h op] steps IH]; intros s; [cbn; lia|].
  cbn [run]. specialize (IH (execM (perform h op) s)).
  pose proof (perform_bound h op s) as Hstep. cbn zeta in Hstep.
  assert (Hopens : opens ((h, op) :: steps) = isOpen op + opens steps)
    by (unfold opens; destruct op; reflexivity).
  lia.
Qed.

(** X18. Previews never outnumber opens: after any run of operations and
    timer callbacks from a fresh provider, the executions of the preview
    command so far and the pending timers together number at most the
    [openMarkdown] calls made; no other operation executes the command. *)
Theorem previews_at_most_opens (steps : list (Host * Op)) :
  let s := run steps initialState in
  previews (trace s) + length (timers s) ≤ opens steps
  ∧ ∀ h op s0, usesDebounce op = false →
      previews (trace (execM (perform h op) s0)) = previews (trace s0).
Proof.
  intros s. split.
  - pose proof (run_bound steps initialState) as H. cbn in H. exact H.
  - intros h op s0 Hop. destruct (quiet_perform h op Hop s0) as (t & -> & Ht).
    rewrite previews_app. lia.
Qed.

End DebounceMore.

(** ** The welcome page and markup *)

Module MarkupFacts.
Import Welcome Markup.
Local Open Scope nat_scope.

Lemma countChar_append c a b :
  countChar c (a +:+ b) = countChar c a + countChar c b.
Proof.
  induction a as [|x a IH]; [done|].
  change (String x a +:+ b) with (String x (a +:+ b)).
  cbn -[Ascii.eqb]. rewrite IH. lia.
Qed.

Lemma countChar_concat c (l : list string) :
  countChar c (String.concat EmptyString l) = list_sum (map (countChar c) l).
Proof.
  induction l as [|x l IH]; [done|].
  destruct l as [|y l]; [cbn -[Ascii.eqb]; lia|].
  change (String.concat EmptyString (x :: y :: l))
    with (x +:+ String.concat EmptyString (y :: l)).
  rewrite countChar_append, IH. reflexivity.
Qed.

Lemma countChar_assemble c msg msg' res parts :
  (∀ k d, countChar c (msg k d) = countChar c (msg' k d)) →
  countChar c (assemble msg res parts) = countChar c (assemble msg' res parts).
Proof.
  intros Hmsg. unfold assemble. rewrite !countChar_concat. f_equal.
  rewrite !map_map. apply map_ext. intros [text|k d|p]; cbn; auto.
Qed.

Lemma escapeHtml_no_lt s : countChar "<"%char (Pages.escapeHtml s) = 0.
Proof.
  induction s as [|x s IH]; [done|].
  cbn -[Ascii.eqb countChar String.append]. rewrite countChar_append, IH.
  destruct (Ascii.eqb x "<"%char) eqn:E1; [reflexivity|].
  destruct (Ascii.eqb x ">"%char) eqn:E2; [reflexivity|].
  destruct (Ascii.eqb x "&"%char) eqn:E3; [reflexivity|].
  cbn -[Ascii.eqb]. rewrite E1. reflexivity.
Qed.

(** X19. Localized text cannot add markup: for an [escape] whose output never
    holds a given character (such as the opening angle bracket), the page
    holds that character the same number of times whatever the
    localization returns. *)
Theorem welcome_page_markup_fixed (localize localize' : string → string → string)
    (escape toUrl : string → string) (c : ascii) :
  (∀ s, countChar c (escape s) = 0) →
  countChar c (az_data_welcome_page localize escape toUrl)
  = countChar c (az_data_welcome_page localize' escape toUrl).
Proof.
  intros Hsafe. rewrite !WelcomeFacts.page_assembled.
  apply countChar_assemble. intros k d. by rewrite !Hsafe.
Qed.

Lemma welcome_page_markup_fixed_witness :
  countChar "<"%char (az_data_welcome_page hostile Pages.escapeHtml Pages.mediaUrl)
  = countChar "<"%char (az_data_welcome_page Pages.defaults Pages.escapeHtml Pages.mediaUrl).
Proof.
  exact (welcome_page_markup_fixed hostile Pages.defaults Pages.escapeHtml Pages.mediaUrl
           "<"%char escapeHtml_no_lt).
Defined.

End MarkupFacts.

(** ** refresh without a workspace *)

Module RefreshFacts.
Import Book.

(** X20. [refresh] while no workspace is open ([workspace.workspaceFolders]
    undefined) empties the path list and returns a promise that is rejected
    with a TypeError; when the rest of [refresh] runs on that rejection it
    does nothing. So the [bookOpened] context key is not updated, no event
    fires, the notebook map is kept, nothing stays pending, and [getBooks]
    returns no book, before that turn and after it. *)
Theorem refresh_without_workspace (h h' : Host) (s : State) :
  workspace_workspaceFolders h = None →
  refresh h s
  = (Ok tt,
     set_tasks (tasks s ++ [Settled ByRefresh (Throw TypeError)])
       (set_tableOfContentPaths [] s))
  ∧ execM (resume h' (length (tasks s))) (execM (refresh h) s)
    = set_tableOfContentPaths [] s
  ∧ evalM (getBooks h') (execM (refresh h) s) = Ok []
  ∧ evalM (getBooks h') (execM (resume h' (length (tasks s))) (execM (refresh h) s)) = Ok [].
Proof.
  intros Hnone.
  assert (Hcall : refresh h s
    = (Ok tt,
       set_tasks (tasks s ++ [Settled ByRefresh (Throw TypeError)])
         (set_tableOfContentPaths [] s))).
  { unfold refresh, mbind, M_bind. cbn [modifyState]. by rewrite Hnone. }
  assert (Hturn : execM (resume h' (length (tasks s))) (execM (refresh h) s)
    = set_tableOfContentPaths [] s).
  { unfold execM. rewrite Hcall. cbn [snd].
    pose proof (DiscoveryFacts.resume_last h' (Settled ByRefresh (Throw TypeError))
                  (set_tableOfContentPaths [] s)) as Hlast.
    cbn [tasks set_tableOfContentPaths] in Hlast. rewrite Hlast. reflexivity. }
  split; [exact Hcall|]. split; [exact Hturn|].
  rewrite Hturn. unfold execM. rewrite Hcall.
  unfold evalM, getBooks, mbind, M_bind, getState. by split.
Qed.

Lemma refresh_without_workspace_witness :
  let h := {| path_join := path_join Samples.emptyWorld;
              path_dirname := path_dirname Samples.emptyWorld;
              asAbsolutePath := asAbsolutePath Samples.emptyWorld;
              fs_existsSync := fs_existsSync Samples.emptyWorld;
              fs_readFileSync := fs_readFileSync Samples.emptyWorld;
              yaml_safeLoad := yaml_safeLoad Samples.emptyWorld;
              glob := glob Samples.emptyWorld;
              config_maxBookSearchDepth := VUndefined;
              workspace_workspaceFolders := None;
              workspace_openTextDocument := workspace_openTextDocument Samples.emptyWorld;
              window_showTextDocument := window_showTextDocument Samples.emptyWorld;
              commands_showPreview := commands_showPreview Samples.emptyWorld;
              Uri_parse := Uri_parse Samples.emptyWorld;
              env_openExternal := env_openExternal Samples.emptyWorld;
              coerced_lt_zero := coerced_lt_zero Samples.emptyWorld;
              item_previousUri := item_previousUri Samples.emptyWorld;
              item_nextUri := item_nextUri Samples.emptyWorld;
              item_sections := item_sections Samples.emptyWorld |} in
  tableOfContentPaths (execM (refresh h) Scenario.afterListing) = []
  ∧ allNotebooks (execM (refresh h) Scenario.afterListing)
    = allNotebooks Scenario.afterListing.
Proof.
  intros h.
  pose proof (proj1 (refresh_without_workspace h h Scenario.afterListing eq_refl)) as H.
  unfold execM. rewrite H. by split.
Defined.

End RefreshFacts.
